(** * pgr2bq: DDL-driven schema inference and typed record extraction

    A shallow embedding of [pgr2bq.py] (osm2po SQL dump to CSV/JSON/Avro)
    and the properties of its schema builder, row parser and driver.

    Conventions of the embedding.
    - Python [str] is a list of 8-bit code points ([list ascii], Latin-1);
      the library functions below are modelled on that range.
    - A raised exception is the [Raise] branch of [result]; nothing in the
      program catches exceptions, so [Raise] always reaches the caller.
    - [dict] and [OrderedDict] are association lists in insertion order
      with unique keys.
    - The body decoders of [geomet.wkb] and the encoder [geomet.wkt.dumps]
      work on IEEE doubles; they are parameters of the development. *)

From Stdlib Require Import String Ascii List ZArith NArith Bool Lia.
Import ListNotations.

Set Implicit Arguments.

(** ** Text, exceptions, results *)

Definition pystr := list ascii.

Definition txt (s : string) : pystr := list_ascii_of_string s.

Definition LF : ascii := ascii_of_nat 10.
Definition CR : ascii := ascii_of_nat 13.
Definition SP : ascii := " "%char.
Definition QUOTE : ascii := "'"%char.
Definition COMMA : ascii := ","%char.
Definition DQUOTE : ascii := ascii_of_nat 34.

Fixpoint str_eqb (a b : pystr) : bool :=
  match a, b with
  | [], [] => true
  | x :: a', y :: b' => Ascii.eqb x y && str_eqb a' b'
  | _, _ => false
  end.

Inductive exn : Type :=
| TypeError
| ValueError
| KeyError (key : pystr)
| IndexError
| StopIteration
| csv_Error
| struct_error.

Inductive result (A : Type) : Type :=
| Ok (a : A)
| Raise (e : exn).

Arguments Ok {A} a.
Arguments Raise {A} e.

Definition bind {A B} (r : result A) (k : A -> result B) : result B :=
  match r with
  | Ok a => k a
  | Raise e => Raise e
  end.

Notation "x <- r ;; k" := (bind r (fun x => k))
  (at level 61, r at next level, right associativity).
Notation "' p <- r ;; k" := (bind r (fun x => let p := x in k))
  (at level 61, p pattern, r at next level, right associativity).

Fixpoint mapM {A B} (f : A -> result B) (l : list A) : result (list B) :=
  match l with
  | [] => Ok []
  | a :: l' => b <- f a ;; bs <- mapM f l' ;; Ok (b :: bs)
  end.

(** ** Python built-ins used by the program *)

Module Py.

Definition code (c : ascii) : N := N_of_ascii c.

Definition in_range (lo hi : N) (c : ascii) : bool :=
  ((lo <=? code c) && (code c <=? hi))%N.

(** [str.isspace] on one code point below 256. *)
Definition isspace (c : ascii) : bool :=
  in_range 9 13 c || in_range 28 32 c
  || (code c =? 133)%N || (code c =? 160)%N.

(** C [Py_ISSPACE]: the ASCII white space. *)
Definition isspace_ascii (c : ascii) : bool :=
  in_range 9 13 c || (code c =? 32)%N.

Definition isdigit (c : ascii) : bool := in_range 48 57 c.

Definition digit_value (c : ascii) : N := (code c - 48)%N.

(** [str.lower] on one code point below 256. *)
Definition lower_char (c : ascii) : ascii :=
  if in_range 65 90 c
     || in_range 192 214 c || in_range 216 222 c
  then ascii_of_N (code c + 32)
  else c.

Definition lower (s : pystr) : pystr := map lower_char s.

Fixpoint startswith (s prefix : pystr) : bool :=
  match prefix, s with
  | [], _ => true
  | p :: prefix', c :: s' => Ascii.eqb c p && startswith s' prefix'
  | _ :: _, [] => false
  end.

Fixpoint lstrip (s : pystr) : pystr :=
  match s with
  | c :: s' => if isspace c then lstrip s' else s
  | [] => []
  end.

Definition rstrip (s : pystr) : pystr := rev (lstrip (rev s)).

Definition strip (s : pystr) : pystr := rstrip (lstrip s).

(** [s.partition(sep)] for a one-character separator. *)
Fixpoint partition (sep : ascii) (s : pystr) : pystr * pystr * pystr :=
  match s with
  | [] => ([], [], [])
  | c :: s' =>
      if Ascii.eqb c sep then ([], [sep], s')
      else let '(a, m, b) := partition sep s' in (c :: a, m, b)
  end.

(** [s.split(sep)] for a one-character separator. *)
Fixpoint split (sep : ascii) (s : pystr) : list pystr :=
  match s with
  | [] => [[]]
  | c :: s' =>
      if Ascii.eqb c sep then [] :: split sep s'
      else match split sep s' with
           | h :: t => (c :: h) :: t
           | [] => [[c]]
           end
  end.

(** *** Numbers *)

(** A float is kept as the decimal it was read from; it stands for the
    binary64 value nearest to that decimal. *)
Inductive pyfloat : Type :=
| FDec (neg : bool) (mantissa : N) (exp10 : Z)
| FInf (neg : bool)
| FNan.

Definition int_max_str_digits : N := 4300.

(** Before a number is read, the white space outside ASCII becomes a
    blank, as CPython does for [int] and [float]; what is skipped
    around the number is then the ASCII white space. *)
Definition blank_spaces (s : pystr) : pystr :=
  map (fun c => if (127 <=? code c)%N && isspace c then SP else c) s.

Definition lstrip_ascii :=
  fix go (s : pystr) : pystr :=
    match s with
    | c :: s' => if isspace_ascii c then go s' else s
    | [] => []
    end.

Definition strip_ascii (s : pystr) : pystr :=
  rev (lstrip_ascii (rev (lstrip_ascii s))).

(** Splits an optional sign off; [true] is minus. *)
Definition take_sign (s : pystr) : bool * pystr :=
  match s with
  | c :: s' =>
      if Ascii.eqb c "-" then (true, s')
      else if Ascii.eqb c "+" then (false, s')
      else (false, s)
  | [] => (false, [])
  end.

(** Digits with single underscores between them, read in base 10:
    the accumulated value, the number of digits, the last character
    seen and the rest of the text. *)
Fixpoint scan_digits (s : pystr) (acc count : N) (prev : option ascii)
  : option (N * N * pystr) :=
  match s with
  | c :: s' =>
      if isdigit c
      then scan_digits s' (acc * 10 + digit_value c)%N (count + 1)%N (Some c)
      else if Ascii.eqb c "_"
      then match prev with
           | Some p => if Ascii.eqb p "_" then None
                       else scan_digits s' acc count (Some c)
           | None => None
           end
      else match prev with
           | Some p => if Ascii.eqb p "_" then None else Some (acc, count, s)
           | None => Some (acc, count, s)
           end
  | [] =>
      match prev with
      | Some p => if Ascii.eqb p "_" then None else Some (acc, count, [])
      | None => Some (acc, count, [])
      end
  end.

(** [int(s)] for a string [s]. *)
Definition int_of_str (s : pystr) : result Z :=
  let s := lstrip_ascii (blank_spaces s) in
  let '(neg, s) := take_sign s in
  match scan_digits s 0 0 None with
  | Some (n, count, rest) =>
      if (count =? 0)%N then Raise ValueError
      else if (int_max_str_digits <? count)%N then Raise ValueError
      else match lstrip_ascii rest with
           | [] => Ok (if neg then (- Z.of_N n)%Z else Z.of_N n)
           | _ :: _ => Raise ValueError
           end
  | None => Raise ValueError
  end.

(** Underscores of a float literal: allowed only between two digits. *)
Fixpoint drop_underscores (s : pystr) (prev : option ascii) : option pystr :=
  match s with
  | c :: s' =>
      if Ascii.eqb c "_"
      then match prev with
           | Some p => if isdigit p then drop_underscores s' (Some c) else None
           | None => None
           end
      else match prev with
           | Some p =>
               if Ascii.eqb p "_" && negb (isdigit c) then None
               else option_map (cons c) (drop_underscores s' (Some c))
           | None => option_map (cons c) (drop_underscores s' (Some c))
           end
  | [] =>
      match prev with
      | Some p => if Ascii.eqb p "_" then None else Some []
      | None => Some []
      end
  end.

(** A run of plain digits: value, count, rest. *)
Fixpoint plain_digits (s : pystr) (acc count : N) : N * N * pystr :=
  match s with
  | c :: s' =>
      if isdigit c
      then plain_digits s' (acc * 10 + digit_value c)%N (count + 1)%N
      else (acc, count, s)
  | [] => (acc, count, [])
  end.

(** The exponent part; a malformed one is left unread. *)
Definition exponent (s : pystr) : Z * pystr :=
  match s with
  | c :: s' =>
      if Ascii.eqb (lower_char c) "e"
      then let '(neg, s'') := take_sign s' in
           let '(e, count, rest) := plain_digits s'' 0 0 in
           if (count =? 0)%N then (0%Z, s)
           else ((if neg then - Z.of_N e else Z.of_N e)%Z, rest)
      else (0%Z, s)
  | [] => (0%Z, [])
  end.

Definition float_literal (s : pystr) : result pyfloat :=
  let '(neg, s) := take_sign s in
  let l := lower s in
  if str_eqb l (txt "inf") || str_eqb l (txt "infinity") then Ok (FInf neg)
  else if str_eqb l (txt "nan") then Ok FNan
  else
    let '(ip, icount, s1) := plain_digits s 0 0 in
    let '(m, fcount, s2) :=
      match s1 with
      | c :: s1' =>
          if Ascii.eqb c "." then plain_digits s1' ip 0 else (ip, 0%N, s1)
      | [] => (ip, 0%N, [])
      end in
    if (icount + fcount =? 0)%N then Raise ValueError
    else
      let '(e, rest) := exponent s2 in
      match rest with
      | [] => Ok (FDec neg m (e - Z.of_N fcount))
      | _ :: _ => Raise ValueError
      end.

(** [float(s)] for a string [s]. *)
Definition float_of_str (s : pystr) : result pyfloat :=
  let s := blank_spaces s in
  match (if existsb (Ascii.eqb "_") s then drop_underscores s None
         else Some s) with
  | Some s' => float_literal (strip_ascii s')
  | None => Raise ValueError
  end.

(** *** [repr] of a string and [str] of a list of strings *)

Definition isprintable (c : ascii) : bool :=
  in_range 32 126 c || (in_range 161 255 c && negb (code c =? 173)%N).

Definition hex_digit (n : N) : ascii :=
  if (n <? 10)%N then ascii_of_N (48 + n) else ascii_of_N (87 + n).

Definition repr_char (q c : ascii) : pystr :=
  if Ascii.eqb c q || Ascii.eqb c "\" then ["\"%char; c]
  else if Ascii.eqb c (ascii_of_nat 9) then txt "\t"
  else if Ascii.eqb c LF then txt "\n"
  else if Ascii.eqb c CR then txt "\r"
  else if isprintable c then [c]
  else ["\"%char; "x"%char; hex_digit (code c / 16); hex_digit (code c mod 16)].

Definition repr (s : pystr) : pystr :=
  let q := if existsb (Ascii.eqb QUOTE) s
              && negb (existsb (Ascii.eqb DQUOTE) s)
           then DQUOTE else QUOTE in
  q :: flat_map (repr_char q) s ++ [q].

Fixpoint join (sep : pystr) (l : list pystr) : pystr :=
  match l with
  | [] => []
  | [x] => x
  | x :: l' => x ++ sep ++ join sep l'
  end.

Definition str_of_list (l : list pystr) : pystr :=
  txt "[" ++ join (txt ", ") (map repr l) ++ txt "]".

End Py.


(** ** Regular expressions ([re.search])

    The fragment of Python's backtracking matcher that the three patterns
    of the program use: anchors, single characters and classes, a lazy
    [+?] over a class, a greedy [?], named groups and concatenation. *)

Module Re.

Inductive charclass : Type :=
| Lit (c : ascii)           (* a literal character *)
| Dot                       (* [.]: anything but a newline *)
| Digit                     (* [\d] *)
| OneOf (cs : list ascii).  (* [[...]] *)

Inductive regex : Type :=
| Bol                              (* [^] *)
| Eol                              (* [$] *)
| Chr (cc : charclass)
| LazyPlus (cc : charclass)        (* [cc+?] *)
| Opt (r : regex)                  (* [r?] *)
| Group (name : pystr) (r : regex) (* [(?P<name>r)] *)
| Cat (r1 r2 : regex).

(** A literal text, one [Chr (Lit _)] per character. *)
Fixpoint lit (s : pystr) (r : regex) : regex :=
  match s with
  | [] => r
  | c :: s' => Cat (Chr (Lit c)) (lit s' r)
  end.

Definition captures := list (pystr * pystr).

(** [match.group(name)] *)
Fixpoint group (m : captures) (name : pystr) : pystr :=
  match m with
  | [] => []
  | (n, v) :: m' => if str_eqb n name then v else group m' name
  end.

Section Matcher.

(** [re.IGNORECASE] *)
Variable ignorecase : bool.

(** Length of the whole subject: [^] holds where all of it remains. *)
Variable subject_len : nat.

Definition accepts (cc : charclass) (c : ascii) : bool :=
  match cc with
  | Lit l =>
      if ignorecase
      then Ascii.eqb (Py.lower_char c) (Py.lower_char l)
      else Ascii.eqb c l
  | Dot => negb (Ascii.eqb c LF)
  | Digit => Py.isdigit c
  | OneOf cs => existsb (Ascii.eqb c) cs
  end.

(** [cc+?] followed by [k]: one character, then the shortest
    extension after which [k] succeeds. *)
Fixpoint lazy_plus (cc : charclass) (s : pystr)
         (k : pystr -> option captures) : option captures :=
  match s with
  | [] => None
  | c :: s' =>
      if accepts cc c
      then match k s' with
           | Some m => Some m
           | None => lazy_plus cc s' k
           end
      else None
  end.

(** [matches r s m k]: match [r] at the front of [s], then continue
    with [k] on what remains; alternatives are tried in Python's
    order and the first success is returned. *)
Fixpoint matches (r : regex) (s : pystr) (m : captures)
         (k : pystr -> captures -> option captures) : option captures :=
  match r with
  | Bol => if Nat.eqb (length s) subject_len then k s m else None
  | Eol =>
      match s with
      | [] => k s m
      | [c] => if Ascii.eqb c LF then k s m else None
      | _ => None
      end
  | Chr cc =>
      match s with
      | c :: s' => if accepts cc c then k s' m else None
      | [] => None
      end
  | LazyPlus cc => lazy_plus cc s (fun s' => k s' m)
  | Opt r' =>
      match matches r' s m k with
      | Some m' => Some m'
      | None => k s m
      end
  | Group name r' =>
      matches r' s m
        (fun s' m' => k s' ((name, firstn (length s - length s') s) :: m'))
  | Cat r1 r2 => matches r1 s m (fun s' m' => matches r2 s' m' k)
  end.

(** The scan of [re.search] over the start positions. *)
Fixpoint search_from (r : regex) (s : pystr) : option captures :=
  match matches r s [] (fun _ m => Some m) with
  | Some m => Some m
  | None =>
      match s with
      | [] => None
      | _ :: s' => search_from r s'
      end
  end.

End Matcher.

(** [re.search(pattern, s, flags)] *)
Definition search (r : regex) (s : pystr) (ignorecase : bool)
  : option captures :=
  search_from ignorecase (length s) r s.

End Re.

(** ** The [csv] module: reader and [DictReader] *)

Module Csv.

(** The dialect attributes the reader consults; [escapechar] is unset
    and [quoting] is [QUOTE_MINIMAL] in every dialect of the program. *)
Record dialect : Type := {
  delimiter : ascii;
  quotechar : ascii;
  doublequote : bool;
  skipinitialspace : bool;
  strict : bool
}.

(** [csv.field_size_limit()] *)
Definition field_limit : Z := 131072.

Inductive parser_state : Type :=
| START_RECORD
| START_FIELD
| IN_FIELD
| IN_QUOTED_FIELD
| QUOTE_IN_QUOTED_FIELD
| EAT_CRNL.

Definition parser_state_eqb (a b : parser_state) : bool :=
  match a, b with
  | START_RECORD, START_RECORD | START_FIELD, START_FIELD
  | IN_FIELD, IN_FIELD | IN_QUOTED_FIELD, IN_QUOTED_FIELD
  | QUOTE_IN_QUOTED_FIELD, QUOTE_IN_QUOTED_FIELD
  | EAT_CRNL, EAT_CRNL => true
  | _, _ => false
  end.

(** The reader object: the fields saved so far, the field being read
    (last character first) and the state. *)
Record reader : Type := {
  fields : list pystr;
  field : pystr;
  state : parser_state
}.

Definition parse_reset : reader :=
  {| fields := []; field := []; state := START_RECORD |}.

Definition set_state (st : parser_state) (r : reader) : reader :=
  {| fields := fields r; field := field r; state := st |}.

Definition parse_add_char (c : ascii) (r : reader) : result reader :=
  if (field_limit <=? Z.of_nat (length (field r)))%Z then Raise csv_Error
  else Ok {| fields := fields r; field := c :: field r; state := state r |}.

Definition parse_save_field (r : reader) : reader :=
  {| fields := fields r ++ [rev (field r)]; field := []; state := state r |}.

Definition is_newline (c : ascii) : bool :=
  Ascii.eqb c LF || Ascii.eqb c CR.

Section Reader.

Variable d : dialect.

(** [parse_process_char]; [None] is the end-of-line marker. *)
Definition parse_process_char (r : reader) (c : option ascii)
  : result reader :=
  let start_field (r : reader) : result reader :=
    match c with
    | None => Ok (set_state START_RECORD (parse_save_field r))
    | Some c =>
        if is_newline c then Ok (set_state EAT_CRNL (parse_save_field r))
        else if Ascii.eqb c (quotechar d)
        then Ok (set_state IN_QUOTED_FIELD r)
        else if Ascii.eqb c SP && skipinitialspace d
        then Ok (set_state START_FIELD r)
        else if Ascii.eqb c (delimiter d)
        then Ok (set_state START_FIELD (parse_save_field r))
        else r' <- parse_add_char c r ;; Ok (set_state IN_FIELD r')
    end in
  match state r with
  | START_RECORD =>
      match c with
      | None => Ok r
      | Some c' =>
          if is_newline c' then Ok (set_state EAT_CRNL r)
          else start_field r
      end
  | START_FIELD => start_field r
  | IN_FIELD =>
      match c with
      | None => Ok (set_state START_RECORD (parse_save_field r))
      | Some c =>
          if is_newline c then Ok (set_state EAT_CRNL (parse_save_field r))
          else if Ascii.eqb c (delimiter d)
          then Ok (set_state START_FIELD (parse_save_field r))
          else parse_add_char c r
      end
  | IN_QUOTED_FIELD =>
      match c with
      | None => Ok r
      | Some c =>
          if Ascii.eqb c (quotechar d)
          then Ok (set_state (if doublequote d then QUOTE_IN_QUOTED_FIELD
                              else IN_FIELD) r)
          else parse_add_char c r
      end
  | QUOTE_IN_QUOTED_FIELD =>
      match c with
      | None => Ok (set_state START_RECORD (parse_save_field r))
      | Some c =>
          if Ascii.eqb c (quotechar d)
          then r' <- parse_add_char c r ;; Ok (set_state IN_QUOTED_FIELD r')
          else if Ascii.eqb c (delimiter d)
          then Ok (set_state START_FIELD (parse_save_field r))
          else if is_newline c
          then Ok (set_state EAT_CRNL (parse_save_field r))
          else if strict d then Raise csv_Error
          else r' <- parse_add_char c r ;; Ok (set_state IN_FIELD r')
      end
  | EAT_CRNL =>
      match c with
      | None => Ok (set_state START_RECORD r)
      | Some c => if is_newline c then Ok r else Raise csv_Error
      end
  end.

(** The characters of one line, in order. *)
Fixpoint parse_line (line : pystr) (r : reader) : result reader :=
  match line with
  | [] => Ok r
  | c :: line' =>
      r' <- parse_process_char r (Some c) ;; parse_line line' r'
  end.

(** The loop of [Reader_iternext] over the remaining input lines:
    the row read and the lines left. *)
Fixpoint read_lines (lines : list pystr) (r : reader)
  : result (list pystr * list pystr) :=
  match lines with
  | [] =>
      if negb (Nat.eqb (length (field r)) 0)
         || parser_state_eqb (state r) IN_QUOTED_FIELD
      then if strict d then Raise csv_Error
           else Ok (fields (parse_save_field r), [])
      else Raise StopIteration
  | line :: lines' =>
      r1 <- parse_line line r ;;
      r2 <- parse_process_char r1 None ;;
      if parser_state_eqb (state r2) START_RECORD
      then Ok (fields r2, lines')
      else read_lines lines' r2
  end.

(** [next(reader)] *)
Definition reader_next (lines : list pystr)
  : result (list pystr * list pystr) :=
  read_lines lines parse_reset.

(** [DictReader.__next__] skips the empty rows. *)
Fixpoint next_nonempty_row (fuel : nat) (lines : list pystr)
  : result (list pystr) :=
  match fuel with
  | O => Raise StopIteration
  | S fuel' =>
      '(row, rest) <- reader_next lines ;;
      match row with
      | [] => next_nonempty_row fuel' rest
      | _ :: _ => Ok row
      end
  end.

End Reader.

End Csv.

(** ** Dictionaries in insertion order *)

Module Dict.

Section Ops.

Variables K V : Type.
Variable eqb : K -> K -> bool.

Definition t := list (K * V).

Definition keys (d : t) : list K := map fst d.

(** [d.get(k)] *)
Fixpoint get (k : K) (d : t) : option V :=
  match d with
  | [] => None
  | (k', v) :: d' => if eqb k' k then Some v else get k d'
  end.

(** [d[k] = v]: overwrite where the key is, else append. *)
Fixpoint set (k : K) (v : V) (d : t) : t :=
  match d with
  | [] => [(k, v)]
  | (k', v') :: d' =>
      if eqb k' k then (k', v) :: d' else (k', v') :: set k v d'
  end.

(** [d.pop(k)] without a default. *)
Fixpoint pop (err : exn) (k : K) (d : t) : result (V * t) :=
  match d with
  | [] => Raise err
  | (k', v') :: d' =>
      if eqb k' k then Ok (v', d')
      else '(v, d'') <- pop err k d' ;; Ok (v, (k', v') :: d'')
  end.

(** [d.update(pairs)], also the constructor from pairs. *)
Definition update (d : t) (pairs : list (K * V)) : t :=
  fold_left (fun acc kv => set (fst kv) (snd kv) acc) pairs d.

Definition of_pairs (pairs : list (K * V)) : t := update [] pairs.

End Ops.

End Dict.

(** ** [bytes.fromhex] and [geomet.wkb.loads] *)

Definition bytes := list Byte.byte.

Definition byte_of_hex (hi lo : N) : Byte.byte :=
  byte_of_ascii (ascii_of_N (16 * hi + lo)).

Definition hex_value (c : ascii) : option N :=
  if Py.in_range 48 57 c then Some (Py.code c - 48)%N
  else if Py.in_range 97 102 c then Some (Py.code c - 87)%N
  else if Py.in_range 65 70 c then Some (Py.code c - 55)%N
  else None.

(** [bytes.fromhex(s)]: pairs of hex digits, ASCII white space allowed
    between the pairs. *)
Fixpoint fromhex (s : pystr) : result bytes :=
  match s with
  | [] => Ok []
  | c :: s' =>
      if Py.isspace_ascii c then fromhex s'
      else match hex_value c, s' with
           | Some hi, c2 :: s'' =>
               match hex_value c2 with
               | Some lo => bs <- fromhex s'' ;; Ok (byte_of_hex hi lo :: bs)
               | None => Raise ValueError
               end
           | _, _ => Raise ValueError
           end
  end.

Module Wkb.

Inductive geom_type : Type :=
| Point | LineString | Polygon
| MultiPoint | MultiLineString | MultiPolygon
| GeometryCollection.

Definition type_name (g : geom_type) : pystr :=
  match g with
  | Point => txt "Point"
  | LineString => txt "LineString"
  | Polygon => txt "Polygon"
  | MultiPoint => txt "MultiPoint"
  | MultiLineString => txt "MultiLineString"
  | MultiPolygon => txt "MultiPolygon"
  | GeometryCollection => txt "GeometryCollection"
  end.

Definition byte_val (b : Byte.byte) : Z := Z.of_N (Byte.to_N b).

(** Unsigned value of bytes, most significant first. *)
Definition be_uint (bs : bytes) : Z :=
  fold_left (fun acc b => (acc * 256 + byte_val b)%Z) bs 0%Z.

(** [_BINARY_TO_GEOM_TYPE.get(type_bytes)]: the 2D, Z, M and ZM tables
    hold the codes 1..7, 1001..1007, 2001..2007 and 3001..3007 as four
    bytes, most significant first. *)
Definition binary_to_geom_type (type_bytes : bytes) : option geom_type :=
  if negb (Nat.eqb (length type_bytes) 4) then None
  else
    let n := be_uint type_bytes in
    if (3 <? n / 1000)%Z then None
    else match (n mod 1000)%Z with
         | 1 => Some Point
         | 2 => Some LineString
         | 3 => Some Polygon
         | 4 => Some MultiPoint
         | 5 => Some MultiLineString
         | 6 => Some MultiPolygon
         | 7 => Some GeometryCollection
         | _ => None
         end%Z.

(** [_get_geom_type]: the type, the type bytes with the SRID flag
    cleared, and the flag (high byte [0x20]). *)
Definition get_geom_type (type_bytes : bytes)
  : result (option geom_type * bytes * bool) :=
  match type_bytes with
  | [] => Raise IndexError
  | high :: low =>
      let has_srid := (byte_val high =? 32)%Z in
      let type_bytes' := if has_srid then Byte.x00 :: low else type_bytes in
      Ok (binary_to_geom_type type_bytes', type_bytes', has_srid)
  end.

(** [struct.unpack] of one signed 32-bit integer. *)
Definition unpack_int32 (big_endian : bool) (bs : bytes) : result Z :=
  if negb (Nat.eqb (length bs) 4) then Raise struct_error
  else
    let u := be_uint (if big_endian then bs else rev bs) in
    Ok (if (u <? 2 ^ 31)%Z then u else (u - 2 ^ 32)%Z).

(** The values of the decoded structure. *)
Inductive geo_value (Body : Type) : Type :=
| GText (s : pystr)       (* the ["type"] *)
| GBody (b : Body)        (* ["coordinates"] or ["geometries"] *)
| GMeta (srid : Z)        (* [{"srid": srid}] *)
| GCrs (srid : Z).        (* the named CRS ["EPSG<srid>"] *)

Arguments GText {Body} s.
Arguments GBody {Body} b.
Arguments GMeta {Body} srid.
Arguments GCrs {Body} srid.

Definition geojson (Body : Type) := list (pystr * geo_value Body).

Definition body_key (g : geom_type) : pystr :=
  match g with
  | GeometryCollection => txt "geometries"
  | _ => txt "coordinates"
  end.

Section Loads.

(** What a body decoder of [_loads_registry] returns (the coordinate
    tree of doubles or the member geometries). *)
Variable Body : Type.

(** The body decoder registered for a type, given the byte order,
    the type bytes and the bytes after the header. *)
Variable load_body : geom_type -> bool -> bytes -> bytes -> result Body.

(** [wkb.loads(data)] *)
Definition loads (data : bytes) : result (geojson Body) :=
  big_endian <-
    match firstn 1 data with
    | [b] => if (byte_val b =? 0)%Z then Ok true
             else if (byte_val b =? 1)%Z then Ok false
             else Raise ValueError
    | _ => Raise ValueError
    end ;;
  let data := skipn 1 data in
  let type_bytes := firstn 4 data in
  let data := skipn 4 data in
  let type_bytes := if big_endian then type_bytes else rev type_bytes in
  '(geom_type, type_bytes, has_srid) <- get_geom_type type_bytes ;;
  '(srid, data) <-
    (if has_srid
     then srid <- unpack_int32 big_endian (firstn 4 data) ;;
          Ok (Some srid, skipn 4 data)
     else Ok (None, data)) ;;
  match geom_type with
  | None => Raise ValueError
  | Some g =>
      body <- load_body g big_endian type_bytes data ;;
      let result := [(txt "type", GText (type_name g));
                     (body_key g, GBody body)] in
      Ok (match srid with
          | Some n =>
              Dict.set str_eqb (txt "crs") (GCrs n)
                (Dict.set str_eqb (txt "meta") (GMeta n) result)
          | None => result
          end)
  end.

End Loads.

End Wkb.

(** ** The program: values *)

(** What a [DictReader] row holds under a key: the text of a field, the
    [restval] of a missing one ([None]) or the list of surplus fields
    kept under the [restkey]. *)
Inductive csv_value : Type :=
| Text (s : pystr)
| Missing
| Surplus (l : list pystr).

(** The values of a record. *)
Inductive pyvalue : Type :=
| PNone
| PInt (z : Z)
| PFloat (f : Py.pyfloat)
| PStr (s : pystr).

(** A callable used as a type converter. *)
Definition converter := csv_value -> result pyvalue.

(** [int] *)
Definition py_int : converter := fun value =>
  match value with
  | Text s => z <- Py.int_of_str s ;; Ok (PInt z)
  | _ => Raise TypeError
  end.

(** [float] *)
Definition py_float : converter := fun value =>
  match value with
  | Text s => f <- Py.float_of_str s ;; Ok (PFloat f)
  | _ => Raise TypeError
  end.

(** [str] *)
Definition py_str : converter := fun value =>
  match value with
  | Text s => Ok (PStr s)
  | Missing => Ok (PStr (txt "None"))
  | Surplus l => Ok (PStr (Py.str_of_list l))
  end.

(** Keys of a row and of a record: a column name or [None]. *)
Definition key := option pystr.

Definition key_eqb (a b : key) : bool :=
  match a, b with
  | Some x, Some y => str_eqb x y
  | None, None => true
  | _, _ => false
  end.

Definition record := list (key * pyvalue).

(** The dialect registered as ["sql"] in [convert]. *)
Definition sql : Csv.dialect :=
  {| Csv.delimiter := COMMA;
     Csv.quotechar := QUOTE;
     Csv.doublequote := true;
     Csv.skipinitialspace := true;
     Csv.strict := false |}.

(** [next(csv.DictReader(lines, fieldnames=..., dialect=...))] where
    [fieldnames] is the key view of an [OrderedDict]: the view cannot be
    sliced, so filling the missing fields of a short row raises. *)
Definition DictReader_next (d : Csv.dialect) (fieldnames : list pystr)
           (lines : list pystr) : result (list (key * csv_value)) :=
  row <- Csv.next_nonempty_row d (S (length lines)) lines ;;
  let data :=
    Dict.of_pairs key_eqb (combine (map Some fieldnames) (map Text row)) in
  let lf := length fieldnames in
  let lr := length row in
  if Nat.ltb lf lr then Ok (Dict.set key_eqb None (Surplus (skipn lf row)) data)
  else if Nat.ltb lr lf then Raise TypeError
  else Ok data.

(** ** [FieldType] *)

Record FieldType : Type := {
  _type_converter : converter;
  _avro_data_type : pystr;
  _null_value : pystr
}.

(** [FieldType(type_converter, avro_data_type)] with the default token. *)
Definition FieldType_new (type_converter : converter) (avro_data_type : pystr)
  : FieldType :=
  {| _type_converter := type_converter;
     _avro_data_type := avro_data_type;
     _null_value := txt "null" |}.

(** [value == self._null_value] *)
Definition is_null_value (self : FieldType) (value : csv_value) : bool :=
  match value with
  | Text s => str_eqb s (_null_value self)
  | _ => false
  end.

(** [FieldType.__call__] *)
Definition FieldType_call (self : FieldType) (value : csv_value)
  : result pyvalue :=
  if is_null_value self value then Ok PNone
  else _type_converter self value.

(** [FieldType.avro_type] *)
Definition avro_type (self : FieldType) : list pystr :=
  [txt "null"; _avro_data_type self].

(** ** [TableSchema] *)

Record TableSchema : Type := {
  name : option pystr;
  _fields : list (pystr * FieldType)
}.

(** [TableSchema()] *)
Definition TableSchema_new : TableSchema :=
  {| name := None; _fields := [] |}.

Definition _SQL_TABLE_TYPE_MAPPING : list (pystr * FieldType) :=
  [ (txt "integer", FieldType_new py_int (txt "int"));
    (txt "bigint", FieldType_new py_int (txt "long"));
    (txt "character varying", FieldType_new py_str (txt "string"));
    (txt "double precision", FieldType_new py_float (txt "double")) ].

Definition keys (self : TableSchema) : list pystr :=
  Dict.keys (_fields self).

(** [get_converter]: the column's [FieldType], or [str] for a key that
    is not a column. *)
Definition get_converter (self : TableSchema) (field : key) : converter :=
  match field with
  | Some f =>
      match Dict.get str_eqb f (_fields self) with
      | Some ft => FieldType_call ft
      | None => py_str
      end
  | None => py_str
  end.

Definition add_field (self : TableSchema) (name' : pystr)
           (field_type : FieldType) : TableSchema :=
  {| name := name self;
     _fields := Dict.set str_eqb name' field_type (_fields self) |}.

(** [^SELECT AddGeometryColumn\('(?P<table_name>.+?)', '(?P<column_name>.+?)',
    (?P<srid>\d+?), '(?P<type>.+?)', (?P<dimension>\d+?)\);$] *)
Definition geometry_column_re : Re.regex :=
  Re.Cat Re.Bol
  (Re.lit (txt "SELECT AddGeometryColumn('")
  (Re.Cat (Re.Group (txt "table_name") (Re.LazyPlus Re.Dot))
  (Re.lit (txt "', '")
  (Re.Cat (Re.Group (txt "column_name") (Re.LazyPlus Re.Dot))
  (Re.lit (txt "', ")
  (Re.Cat (Re.Group (txt "srid") (Re.LazyPlus Re.Digit))
  (Re.lit (txt ", '")
  (Re.Cat (Re.Group (txt "type") (Re.LazyPlus Re.Dot))
  (Re.lit (txt "', ")
  (Re.Cat (Re.Group (txt "dimension") (Re.LazyPlus Re.Digit))
  (Re.lit (txt ");") Re.Eol))))))))))).

(** [\)[;,]?$], the end of the table-definition and row patterns. *)
Definition statement_end : Re.regex :=
  Re.lit (txt ")") (Re.Cat (Re.Opt (Re.Chr (Re.OneOf (txt ";,")))) Re.Eol).

(** [^CREATE TABLE (?P<table_name>.+?)\((?P<fields>.+?)\)[;,]?$] *)
Definition create_table_re : Re.regex :=
  Re.Cat Re.Bol
  (Re.lit (txt "CREATE TABLE ")
  (Re.Cat (Re.Group (txt "table_name") (Re.LazyPlus Re.Dot))
  (Re.lit (txt "(")
  (Re.Cat (Re.Group (txt "fields") (Re.LazyPlus Re.Dot))
  (Re.lit (txt ")")
  (Re.Cat (Re.Opt (Re.Chr (Re.OneOf (txt ";,")))) Re.Eol)))))).

(** [^\((?P<values>.+?)\)[;,]?$] *)
Definition insert_re : Re.regex :=
  Re.Cat Re.Bol
  (Re.lit (txt "(")
  (Re.Cat (Re.Group (txt "values") (Re.LazyPlus Re.Dot))
  (Re.lit (txt ")")
  (Re.Cat (Re.Opt (Re.Chr (Re.OneOf (txt ";,")))) Re.Eol)))).

(** [self._SQL_TABLE_TYPE_MAPPING.get(sql_type, FieldType(str, "string"))] *)
Definition sql_type_lookup (sql_type : pystr) : FieldType :=
  match Dict.get str_eqb sql_type _SQL_TABLE_TYPE_MAPPING with
  | Some ft => ft
  | None => FieldType_new py_str (txt "string")
  end.

(** [_parse_create_table_field] *)
Definition _parse_create_table_field (field : pystr) : pystr * FieldType :=
  let '(field_name, _, sql_type) := Py.partition SP (Py.strip field) in
  (field_name, sql_type_lookup sql_type).

Definition add_fields_from_create_table_ddl (self : TableSchema) (ddl : pystr)
  : TableSchema :=
  match Re.search create_table_re ddl false with
  | Some ddl_match =>
      let name' := Re.group ddl_match (txt "table_name") in
      let text_fields := Re.group ddl_match (txt "fields") in
      let fields :=
        Dict.of_pairs str_eqb
          (map _parse_create_table_field (Py.split COMMA text_fields)) in
      {| name := Some name';
         _fields := Dict.update str_eqb (_fields self) fields |}
  | None => self
  end.

(** ** The parts that need the geometry library *)

Section Program.

Variable Body : Type.
Variable load_body :
  Wkb.geom_type -> bool -> bytes -> bytes -> result Body.

(** [geomet.wkt.dumps] *)
Variable wkt_dumps : Wkb.geojson Body -> result pystr.

(** [convert_wkb_to_wkt(strip_srid)]: the closure [func]. *)
Definition convert_wkb_to_wkt (strip_srid : bool) : converter :=
  fun wkb_hex_value =>
    match wkb_hex_value with
    | Text s =>
        data <- fromhex s ;;
        geom <- Wkb.loads load_body data ;;
        geom <-
          (if strip_srid
           then '(_, g) <- Dict.pop str_eqb (KeyError (txt "meta"))
                                    (txt "meta") geom ;;
                '(_, g) <- Dict.pop str_eqb (KeyError (txt "crs"))
                                    (txt "crs") g ;;
                Ok g
           else Ok geom) ;;
        w <- wkt_dumps geom ;;
        Ok (PStr w)
    | _ => Raise TypeError
    end.

Definition geometry_field_type : FieldType :=
  FieldType_new (convert_wkb_to_wkt true) (txt "string").

Definition add_geometry_column_from_ddl (self : TableSchema) (ddl : pystr)
  : TableSchema :=
  match Re.search geometry_column_re ddl true with
  | Some ddl_match =>
      let column_name := Re.group ddl_match (txt "column_name") in
      add_field self column_name geometry_field_type
  | None => self
  end.

(** ** [DDLConverter] *)

Record DDLConverter : Type := {
  input_file : pystr;
  output_file : pystr;
  output_format : pystr
}.

(** The module globals that [convert] and two of the writers read
    instead of the attributes of [self]. *)
Record globals : Type := {
  g_output_file : pystr;
  g_output_format : pystr
}.

Definition parse_insert_values (values : pystr) (table_schema : TableSchema)
  : result record :=
  data <- DictReader_next sql (keys table_schema) [values] ;;
  mapM (fun kv : key * csv_value =>
          x <- get_converter table_schema (fst kv) (snd kv) ;;
          Ok (fst kv, x))
       data.

(** One round of the loop over the input lines. *)
Definition convert_line (st : list record * TableSchema) (line : pystr)
  : result (list record * TableSchema) :=
  let '(records, table_schema) := st in
  let table_schema :=
    if Py.startswith (Py.lower line) (txt "create table")
    then add_fields_from_create_table_ddl table_schema line
    else table_schema in
  let table_schema :=
    if Py.startswith (Py.lower line) (txt "select addgeometrycolumn")
    then add_geometry_column_from_ddl table_schema line
    else table_schema in
  match Re.search insert_re line false with
  | Some insert_line =>
      let values := Re.group insert_line (txt "values") in
      r <- parse_insert_values values table_schema ;;
      Ok (records ++ [r], table_schema)
  | None => Ok (records, table_schema)
  end.

Fixpoint convert_lines (in_fp : list pystr) (st : list record * TableSchema)
  : result (list record * TableSchema) :=
  match in_fp with
  | [] => Ok st
  | line :: in_fp' => st' <- convert_line st line ;; convert_lines in_fp' st'
  end.

(** A call of one of the writers: the file it opens, the records and
    the schema it is given. *)
Inductive writer_call : Type :=
| write_to_csv (file : pystr) (records : list record) (s : TableSchema)
| write_to_json (file : pystr) (records : list record) (s : TableSchema)
| write_to_avro (file : pystr) (records : list record) (s : TableSchema).

(** [DDLConverter.convert] on the lines of the input file: the writer
    calls it makes, in order, or the exception that ends the run. *)
Definition convert (g : globals) (self : DDLConverter) (in_fp : list pystr)
  : result (list writer_call) :=
  '(records, table_schema) <- convert_lines in_fp ([], TableSchema_new) ;;
  Ok ((if str_eqb (g_output_format g) (txt "csv")
       then [write_to_csv (output_file self) records table_schema]
       else [])
      ++ (if str_eqb (g_output_format g) (txt "json")
          then [write_to_json (g_output_file g) records table_schema]
          else [])
      ++ (if str_eqb (g_output_format g) (txt "avro")
          then [write_to_avro (g_output_file g) records table_schema]
          else [])).

(** The script: [--input], [--output] and [--format] as parsed. *)
Definition main (arg_input : pystr) (arg_output : option pystr)
           (arg_format : pystr) (in_fp : list pystr)
  : result (list writer_call) :=
  let out :=
    match arg_output with
    | Some o => if Nat.eqb (length o) 0 then None else Some o
    | None => None
    end in
  let out :=
    match out with
    | Some o => o
    | None =>
        let '(_, _, filename) := Py.partition "."%char (rev arg_input) in
        rev filename ++ txt "." ++ Py.lower arg_format
    end in
  convert {| g_output_file := out; g_output_format := arg_format |}
          {| input_file := arg_input; output_file := out;
             output_format := arg_format |}
          in_fp.

End Program.

(** ** Shapes of input lines

    The texts the statements below quantify over: a table definition
    written from its name and columns, and a row written from its
    literals. *)

(** [<col> <type>] *)
Definition column_text (col : pystr * pystr) : pystr :=
  fst col ++ SP :: snd col.

(** [CREATE TABLE <name>(<col1> <type1>, <col2> <type2>, ...)] followed
    by [ending]. *)
Definition create_table_line (table : pystr) (cols : list (pystr * pystr))
           (ending : pystr) : pystr :=
  txt "CREATE TABLE " ++ table ++ txt "("
  ++ Py.join (txt ", ") (map column_text cols) ++ txt ")" ++ ending.

(** What may follow the closing parenthesis of a statement line. *)
Definition line_endings : list pystr :=
  [[]; txt ";"; txt ","; [LF]; txt ";" ++ [LF]; txt "," ++ [LF]].

Definition nonempty (s : pystr) : bool := negb (Nat.eqb (length s) 0).

(** A table name: not empty, no parenthesis, no newline. *)
Definition table_name_ok (table : pystr) : bool :=
  nonempty table
  && forallb (fun c => negb (Ascii.eqb c "("%char) && negb (Ascii.eqb c LF))
             table.

(** A column: a name without white space or comma, a type text without
    comma or newline that does not end in white space. *)
Definition column_ok (col : pystr * pystr) : bool :=
  nonempty (fst col)
  && forallb (fun c => negb (Py.isspace c) && negb (Ascii.eqb c COMMA))
             (fst col)
  && nonempty (snd col)
  && forallb (fun c => negb (Ascii.eqb c COMMA) && negb (Ascii.eqb c LF))
             (snd col)
  && match rev (snd col) with
     | c :: _ => negb (Py.isspace c)
     | [] => false
     end.

(** A literal of a row: quoted with ['] or bare. *)
Inductive literal : Type :=
| Quoted (s : pystr)
| Bare (s : pystr).

Definition literal_text (l : literal) : pystr :=
  match l with
  | Quoted s => QUOTE :: s ++ [QUOTE]
  | Bare s => s
  end.

Definition literal_value (l : literal) : pystr :=
  match l with
  | Quoted s => s
  | Bare s => s
  end.

Definition within_limit (s : pystr) : bool :=
  (Z.of_nat (length s) <=? Csv.field_limit)%Z.

(** A quoted literal holds no quote; a bare one holds no comma and no
    newline and starts with neither a blank nor a quote. *)
Definition literal_ok (l : literal) : bool :=
  match l with
  | Quoted s => forallb (fun c => negb (Ascii.eqb c QUOTE)) s && within_limit s
  | Bare s =>
      forallb (fun c => negb (Ascii.eqb c COMMA) && negb (Csv.is_newline c)) s
      && match s with
         | c :: _ => negb (Ascii.eqb c SP) && negb (Ascii.eqb c QUOTE)
         | [] => true
         end
      && within_limit s
  end.

(** The literals separated by commas, each after some blanks. *)
Definition row_text (lits : list (nat * literal)) : pystr :=
  Py.join [COMMA]
    (map (fun nl => repeat SP (fst nl) ++ literal_text (snd nl)) lits).

(** The value of a field of a record, from the column and the raw text. *)
Definition field_value (col : pystr * FieldType) (raw : pystr)
  : result (key * pyvalue) :=
  if str_eqb raw (_null_value (snd col)) then Ok (Some (fst col), PNone)
  else x <- _type_converter (snd col) (Text raw) ;; Ok (Some (fst col), x).

(** Base-10 value of a run of digits. *)
Definition decimal_value (digits : pystr) : N :=
  fold_left (fun acc c => (acc * 10 + Py.digit_value c)%N) digits 0%N.

Definition supported_formats : list pystr :=
  [txt "csv"; txt "json"; txt "avro"].

(** A reader object, written in one line. *)
Definition mk (fs : list pystr) (f : pystr) (st : Csv.parser_state)
  : Csv.reader :=
  {| Csv.fields := fs; Csv.field := f; Csv.state := st |}.

(** The states of the reader inside a record. *)
Definition in_record (st : Csv.parser_state) : bool :=
  match st with
  | Csv.START_FIELD | Csv.IN_FIELD
  | Csv.IN_QUOTED_FIELD | Csv.QUOTE_IN_QUOTED_FIELD => true
  | Csv.START_RECORD | Csv.EAT_CRNL => false
  end.

(** The converter calls of one row: [get_converter(k)(v)] per item. *)
Definition convert_item (table_schema : TableSchema) (kv : key * csv_value)
  : result (key * pyvalue) :=
  x <- get_converter table_schema (fst kv) (snd kv) ;; Ok (fst kv, x).

(** A geometry library that decodes nothing: enough for the runs below
    that have no geometry value to decode. *)
Definition no_load_body : Wkb.geom_type -> bool -> bytes -> bytes -> result unit :=
  fun _ _ _ _ => Raise ValueError.

Definition no_wkt_dumps : Wkb.geojson unit -> result pystr :=
  fun _ => Raise ValueError.

(** A line of the input file: the text and its newline. *)
Definition line_of (s : string) : pystr := txt s ++ [LF].

(** ** Column types and further shapes of lines *)

(** The structured-format tags of the program. *)
Definition avro_tags : list pystr :=
  [txt "int"; txt "long"; txt "string"; txt "double"].

(** The column types the program constructs: the entries of the type
    registry, of which the fallback is one, and the geometry type. *)
Definition constructed_field_type (Body : Type)
           (load_body : Wkb.geom_type -> bool -> bytes -> bytes -> result Body)
           (wkt_dumps : Wkb.geojson Body -> result pystr)
           (ft : FieldType) : Prop :=
  In ft (map snd _SQL_TABLE_TYPE_MAPPING)
  \/ ft = geometry_field_type load_body wkt_dumps.


(** A number of the geometry statement: a run of digits. *)
Definition digits_ok (s : pystr) : bool :=
  nonempty s && forallb Py.isdigit s.


(** [(<values>)] followed by [ending]. *)
Definition row_line (values ending : pystr) : pystr :=
  txt "(" ++ values ++ txt ")" ++ ending.

Definition no_newline (s : pystr) : bool :=
  forallb (fun c => negb (Ascii.eqb c LF)) s.

(** [a] is the beginning of [b]. *)
Definition is_prefix (A : Type) (a b : list A) : Prop :=
  exists extra, b = a ++ extra.

(** The structure [wkb.loads] builds for a geometry without SRID: the
    type and the decoded body. *)
Definition decoded_geometry (Body : Type) (t : Wkb.geom_type) (b : Body)
  : Wkb.geojson Body :=
  [(txt "type", Wkb.GText (Wkb.type_name t)); (Wkb.body_key t, Wkb.GBody b)].

(** The two entries it adds for a geometry with SRID. *)
Definition srid_entries (Body : Type) (n : Z) : Wkb.geojson Body :=
  [(txt "meta", Wkb.GMeta n); (txt "crs", Wkb.GCrs n)].

(** A character that no integer literal holds: no digit, underscore,
    sign or white space. *)
Definition no_int_char (c : ascii) : bool :=
  negb (Py.isdigit c) && negb (Ascii.eqb c "_"%char)
  && negb (Ascii.eqb c "+"%char) && negb (Ascii.eqb c "-"%char)
  && negb (Py.isspace c).

(** A row line of a dump: its literals and what follows the closing
    parenthesis; [width] is the number of columns. *)
Definition dump_row_ok (width : nat) (row : list (nat * literal) * pystr)
  : bool :=
  forallb (fun nl => literal_ok (snd nl)) (fst row)
  && nonempty (row_text (fst row))
  && no_newline (row_text (fst row))
  && existsb (str_eqb (snd row)) line_endings
  && Nat.eqb (length (fst row)) width.

Definition dump_row_line (row : list (nat * literal) * pystr) : pystr :=
  row_line (row_text (fst row)) (snd row).

(** The record of a row under the columns [cols]. *)
Definition dump_row_record (cols : list (pystr * FieldType))
           (row : list (nat * literal) * pystr) : result record :=
  mapM (fun p => field_value (fst p) (snd p))
       (combine cols (map (fun nl => literal_value (snd nl)) (fst row))).

(** A text as a SQL string literal: between single quotes, every quote
    of the text doubled. *)
Definition sql_quote (s : pystr) : pystr :=
  QUOTE :: flat_map (fun c => if Ascii.eqb c QUOTE then [QUOTE; QUOTE]
                              else [c]) s
  ++ [QUOTE].

(** String literals separated by commas, each after some blanks. *)
Definition quoted_row_text (cells : list (nat * pystr)) : pystr :=
  Py.join [COMMA]
    (map (fun ns => repeat SP (fst ns) ++ sql_quote (snd ns)) cells).

(** The tab character. *)
Definition TAB : ascii := ascii_of_nat 9.

(** ** Number literals *)

(** The sign written before a number or an exponent, if any. *)
Inductive sign : Type :=
| NoSign
| Plus
| Minus.

Definition sign_text (sg : sign) : pystr :=
  match sg with
  | NoSign => []
  | Plus => txt "+"
  | Minus => txt "-"
  end.

Definition is_minus (sg : sign) : bool :=
  match sg with
  | Minus => true
  | _ => false
  end.

Definition signed (sg : sign) (n : N) : Z :=
  if is_minus sg then (- Z.of_N n)%Z else Z.of_N n.

(** ASCII white space around a number. *)
Definition ascii_blanks (pad : pystr) : bool := forallb Py.isspace_ascii pad.

(** [<sign><digits>] between white space. *)
Definition integer_text (pad1 : pystr) (sg : sign) (digits pad2 : pystr)
  : pystr :=
  pad1 ++ sign_text sg ++ digits ++ pad2.

(** A decimal literal [<sign><digits>[.<digits>][e<sign><digits>]]: the
    fraction may be absent or empty, the exponent mark is [e] or [E]. *)
Record decimal : Type := {
  d_sign : sign;
  d_int : pystr;
  d_frac : option pystr;
  d_exp : option (ascii * sign * pystr)
}.

Definition fraction_digits (d : decimal) : pystr :=
  match d_frac d with
  | Some fp => fp
  | None => []
  end.

Definition fraction_text (d : decimal) : pystr :=
  match d_frac d with
  | Some fp => "."%char :: fp
  | None => []
  end.

Definition exponent_text (d : decimal) : pystr :=
  match d_exp d with
  | Some (mark, sg, digits) => mark :: sign_text sg ++ digits
  | None => []
  end.

Definition exponent_value (d : decimal) : Z :=
  match d_exp d with
  | Some (_, sg, digits) => signed sg (decimal_value digits)
  | None => 0%Z
  end.

Definition decimal_text (d : decimal) : pystr :=
  sign_text (d_sign d) ++ d_int d ++ fraction_text d ++ exponent_text d.

Definition decimal_ok (d : decimal) : bool :=
  digits_ok (d_int d)
  && forallb Py.isdigit (fraction_digits d)
  && match d_exp d with
     | Some (mark, _, digits) =>
         (Ascii.eqb mark "e"%char || Ascii.eqb mark "E"%char)
         && digits_ok digits
     | None => true
     end.

(** The float a decimal literal is read as. *)
Definition decimal_float (d : decimal) : Py.pyfloat :=
  Py.FDec (is_minus (d_sign d))
          (decimal_value (d_int d ++ fraction_digits d))
          (exponent_value d - Z.of_nat (length (fraction_digits d))).

(** The characters of a decimal literal. *)
Definition literal_char (c : ascii) : bool :=
  Py.isdigit c || existsb (Ascii.eqb c) (txt "+-.eE").

(** * Properties *)

(** ** Text equality *)

Lemma str_eqb_refl (a : pystr) : str_eqb a a = true.
Proof.
  induction a as [|c a IH]; simpl; [reflexivity|].
  now rewrite Ascii.eqb_refl.
Qed.

Lemma str_eqb_eq (a b : pystr) : str_eqb a b = true <-> a = b.
Proof.
  split.
  - revert b; induction a as [|x a IH]; intros [|y b] H; simpl in H;
      try discriminate; [reflexivity|].
    apply andb_true_iff in H as [Hx Hab].
    apply Ascii.eqb_eq in Hx. f_equal; auto.
  - intros ->; apply str_eqb_refl.
Qed.

Lemma str_eqb_neq (a b : pystr) : str_eqb a b = false <-> a <> b.
Proof.
  destruct (str_eqb a b) eqn:E.
  - apply str_eqb_eq in E. split; [discriminate|contradiction].
  - split; [|reflexivity]. intros _ H. apply str_eqb_eq in H. congruence.
Qed.

Lemma key_eqb_eq (a b : key) : key_eqb a b = true <-> a = b.
Proof.
  destruct a as [x|], b as [y|]; simpl; try (split; congruence).
  rewrite str_eqb_eq. split; congruence.
Qed.

(** ** Ordered dictionaries *)

Section DictFacts.

Variables K V : Type.
Variable eqb : K -> K -> bool.
Hypothesis eqb_eq : forall a b, eqb a b = true <-> a = b.

Let eqb_refl (a : K) : eqb a a = true.
Proof. now apply eqb_eq. Qed.

Let eqb_neq (a b : K) : a <> b -> eqb a b = false.
Proof.
  intros H. destruct (eqb a b) eqn:E; [|reflexivity].
  apply eqb_eq in E. contradiction.
Qed.

Lemma get_none_notin (k : K) (d : Dict.t K V) :
  Dict.get eqb k d = None <-> ~ In k (Dict.keys d).
Proof.
  induction d as [|[k' v'] d IH]; simpl; [tauto|].
  destruct (eqb k' k) eqn:E.
  - apply eqb_eq in E. split; [discriminate|]. intros H. exfalso; auto.
  - rewrite IH. split.
    + intros H [H1|H1]; [|tauto]. subst. rewrite eqb_refl in E. discriminate.
    + tauto.
Qed.

Lemma get_some_in (k : K) (v : V) (d : Dict.t K V) :
  Dict.get eqb k d = Some v -> In k (Dict.keys d).
Proof.
  induction d as [|[k' v'] d IH]; simpl; [discriminate|].
  destruct (eqb k' k) eqn:E; intros H.
  - left. now apply eqb_eq.
  - right. auto.
Qed.

Lemma set_absent (k : K) (v : V) (d : Dict.t K V) :
  ~ In k (Dict.keys d) -> Dict.set eqb k v d = d ++ [(k, v)].
Proof.
  induction d as [|[k' v'] d IH]; simpl; intros H; [reflexivity|].
  rewrite eqb_neq by (intros ->; tauto).
  rewrite IH by tauto. reflexivity.
Qed.

Lemma keys_set_present (k : K) (v : V) (d : Dict.t K V) :
  In k (Dict.keys d) -> Dict.keys (Dict.set eqb k v d) = Dict.keys d.
Proof.
  induction d as [|[k' v'] d IH]; simpl; intros H; [contradiction|].
  destruct (eqb k' k) eqn:E; simpl; [reflexivity|].
  f_equal. apply IH. destruct H as [->|H]; [|assumption].
  rewrite eqb_refl in E. discriminate.
Qed.

Lemma get_set_same (k : K) (v : V) (d : Dict.t K V) :
  Dict.get eqb k (Dict.set eqb k v d) = Some v.
Proof.
  induction d as [|[k' v'] d IH]; simpl.
  - now rewrite eqb_refl.
  - destruct (eqb k' k) eqn:E; simpl; rewrite E; auto.
Qed.

Lemma get_set_other (k k0 : K) (v : V) (d : Dict.t K V) :
  k0 <> k -> Dict.get eqb k0 (Dict.set eqb k v d) = Dict.get eqb k0 d.
Proof.
  intros Hne. induction d as [|[k' v'] d IH]; simpl.
  - now rewrite eqb_neq by congruence.
  - destruct (eqb k' k) eqn:E; simpl.
    + apply eqb_eq in E; subst k'.
      now rewrite eqb_neq by congruence.
    + now rewrite IH.
Qed.

Lemma set_fixed (k : K) (v : V) (d : Dict.t K V) :
  Dict.get eqb k d = Some v -> Dict.set eqb k v d = d.
Proof.
  induction d as [|[k' v'] d IH]; simpl; [discriminate|].
  destruct (eqb k' k) eqn:E; intros H.
  - congruence.
  - now rewrite IH.
Qed.

Lemma set_set (k : K) (v : V) (d : Dict.t K V) :
  Dict.set eqb k v (Dict.set eqb k v d) = Dict.set eqb k v d.
Proof.
  apply set_fixed, get_set_same.
Qed.

Lemma NoDup_keys_set (k : K) (v : V) (d : Dict.t K V) :
  NoDup (Dict.keys d) -> NoDup (Dict.keys (Dict.set eqb k v d)).
Proof.
  intros H. destruct (Dict.get eqb k d) eqn:E.
  - rewrite keys_set_present; [assumption|].
    eapply get_some_in; eassumption.
  - apply get_none_notin in E. rewrite set_absent by assumption.
    unfold Dict.keys. rewrite map_app. simpl.
    apply NoDup_app; [assumption|repeat constructor; auto|].
    intros x Hx [Hx'|[]]. subst. contradiction.
Qed.

Lemma update_cons (k : K) (v : V) (d : Dict.t K V)
      (pairs : list (K * V)) :
  Dict.update eqb d ((k, v) :: pairs)
  = Dict.update eqb (Dict.set eqb k v d) pairs.
Proof. reflexivity. Qed.

Lemma NoDup_keys_update (d : Dict.t K V) (pairs : list (K * V)) :
  NoDup (Dict.keys d) -> NoDup (Dict.keys (Dict.update eqb d pairs)).
Proof.
  revert d. induction pairs as [|[k v] pairs IH]; intros d H.
  - assumption.
  - rewrite update_cons. apply IH, NoDup_keys_set, H.
Qed.

Lemma get_update_other (k : K) (d : Dict.t K V) (pairs : list (K * V)) :
  ~ In k (map fst pairs) ->
  Dict.get eqb k (Dict.update eqb d pairs) = Dict.get eqb k d.
Proof.
  revert d. induction pairs as [|[k' v'] pairs IH]; intros d H.
  - reflexivity.
  - simpl in H. rewrite update_cons, IH by tauto.
    apply get_set_other. intros ->. tauto.
Qed.

Lemma get_update_in (k : K) (v : V) (d : Dict.t K V)
      (pairs : list (K * V)) :
  NoDup (map fst pairs) -> In (k, v) pairs ->
  Dict.get eqb k (Dict.update eqb d pairs) = Some v.
Proof.
  revert d. induction pairs as [|[k' v'] pairs IH]; intros d Hnd Hin.
  - contradiction.
  - rewrite update_cons. simpl in Hnd, Hin.
    inversion Hnd as [|? ? Hk Hnd']; subst.
    destruct Hin as [Heq|Hin].
    + inversion Heq; subst.
      rewrite get_update_other by assumption. apply get_set_same.
    + apply IH; assumption.
Qed.

Lemma update_fixed (d : Dict.t K V) (pairs : list (K * V)) :
  (forall k v, In (k, v) pairs -> Dict.get eqb k d = Some v) ->
  Dict.update eqb d pairs = d.
Proof.
  induction pairs as [|[k v] pairs IH]; intros H; [reflexivity|].
  rewrite update_cons, set_fixed by (apply H; left; reflexivity).
  apply IH. intros k' v' Hin. apply H. right; assumption.
Qed.

(** Updating twice with the same dictionary is updating once. *)
Lemma update_update (d : Dict.t K V) (pairs : list (K * V)) :
  NoDup (map fst pairs) ->
  Dict.update eqb (Dict.update eqb d pairs) pairs
  = Dict.update eqb d pairs.
Proof.
  intros Hnd. apply update_fixed.
  intros k v Hin. apply get_update_in; assumption.
Qed.

(** Pairs with distinct keys make the dictionary that lists them. *)
Lemma update_NoDup (d : Dict.t K V) (pairs : list (K * V)) :
  NoDup (Dict.keys d ++ map fst pairs) ->
  Dict.update eqb d pairs = d ++ pairs.
Proof.
  revert d. induction pairs as [|[k v] pairs IH]; intros d Hnd.
  - simpl. now rewrite app_nil_r.
  - simpl in Hnd. pose proof (NoDup_remove_2 _ _ _ Hnd) as Hk.
    rewrite update_cons.
    rewrite set_absent by (intros Hin; apply Hk, in_or_app; auto).
    rewrite IH.
    + now rewrite <- app_assoc.
    + unfold Dict.keys. rewrite map_app. simpl. rewrite <- app_assoc.
      simpl. assumption.
Qed.

Lemma of_pairs_NoDup (pairs : list (K * V)) :
  NoDup (map fst pairs) -> Dict.of_pairs eqb pairs = pairs.
Proof.
  intros Hnd. unfold Dict.of_pairs. now rewrite update_NoDup.
Qed.

Lemma NoDup_keys_of_pairs (pairs : list (K * V)) :
  NoDup (Dict.keys (Dict.of_pairs eqb pairs)).
Proof.
  apply NoDup_keys_update. constructor.
Qed.

End DictFacts.

(** ** The matcher *)

Lemma firstn_consumed (a b : pystr) :
  firstn (length (a ++ b) - length b) (a ++ b) = a.
Proof.
  rewrite length_app, Nat.add_sub.
  rewrite firstn_app, Nat.sub_diag, firstn_all. simpl. apply app_nil_r.
Qed.

Lemma startswith_app (p rest : pystr) : Py.startswith (p ++ rest) p = true.
Proof.
  induction p as [|c p IH]; simpl; [now destruct rest|].
  now rewrite Ascii.eqb_refl.
Qed.

Lemma startswith_prefix (s p q : pystr) :
  Py.startswith s (p ++ q) = true -> Py.startswith s p = true.
Proof.
  revert s. induction p as [|c p IH]; intros s H; simpl in *;
    [now destruct s|].
  destruct s as [|x s]; [discriminate|].
  apply andb_true_iff in H as [Hx H]. simpl. rewrite Hx. simpl. auto.
Qed.

Section MatcherFacts.

Variable ic : bool.
Variable n : nat.

(** A pattern anchored with [^] matches at the start or nowhere. *)
Lemma search_from_inside (r : Re.regex) (s : pystr) :
  length s < n -> Re.search_from ic n (Re.Cat Re.Bol r) s = None.
Proof.
  induction s as [|c s IH]; intros H; cbn [Re.search_from Re.matches].
  - replace (Nat.eqb (length (@nil ascii)) n) with false; [reflexivity|].
    symmetry; apply Nat.eqb_neq. lia.
  - replace (Nat.eqb (length (c :: s)) n) with false
      by (symmetry; apply Nat.eqb_neq; lia).
    apply IH. simpl in H. lia.
Qed.

Lemma matches_lit_app (p u rest : pystr) (r : Re.regex) (m : Re.captures)
      (k : pystr -> Re.captures -> option Re.captures) :
  Forall2 (fun c l => Re.accepts ic (Re.Lit l) c = true) u p ->
  Re.matches ic n (Re.lit p r) (u ++ rest) m k = Re.matches ic n r rest m k.
Proof.
  intros H. induction H as [|c l u p Hc H IH]; simpl; [reflexivity|].
  simpl in Hc. rewrite Hc. apply IH.
Qed.

Lemma lazy_plus_skip (cc : Re.charclass) (u rest : pystr)
      (k : pystr -> option Re.captures) (m : Re.captures) :
  u <> [] ->
  Forall (fun c => Re.accepts ic cc c = true) u ->
  (forall u1 u2, u = u1 ++ u2 -> u1 <> [] -> u2 <> [] ->
                 k (u2 ++ rest) = None) ->
  k rest = Some m ->
  Re.lazy_plus ic cc (u ++ rest) k = Some m.
Proof.
  intros Hne Hall Hfail Hk.
  induction u as [|c u IH]; [contradiction|].
  inversion Hall as [|? ? Hc Hall']; subst. simpl. rewrite Hc.
  destruct u as [|c' u].
  - simpl. now rewrite Hk.
  - rewrite (Hfail [c] (c' :: u)) by (reflexivity || discriminate).
    apply IH; [discriminate|assumption|].
    intros u1 u2 E H1 H2. apply (Hfail (c :: u1) u2); [|discriminate|assumption].
    simpl. now rewrite E.
Qed.

End MatcherFacts.

Lemma search_bol (r : Re.regex) (s : pystr) (ic : bool) :
  Re.search (Re.Cat Re.Bol r) s ic
  = Re.matches ic (length s) r s [] (fun _ m => Some m).
Proof.
  unfold Re.search.
  destruct s as [|c s]; cbn [Re.search_from Re.matches];
    rewrite Nat.eqb_refl.
  - now destruct (Re.matches ic _ r [] [] _).
  - destruct (Re.matches ic _ r (c :: s) [] _); [reflexivity|].
    apply search_from_inside. simpl. lia.
Qed.

Lemma matches_lit_fail (n : nat) (p s : pystr) (r : Re.regex)
      (m : Re.captures) (k : pystr -> Re.captures -> option Re.captures) :
  Py.startswith s p = false ->
  Re.matches false n (Re.lit p r) s m k = None.
Proof.
  revert s. induction p as [|l p IH]; intros s H;
    [destruct s; discriminate|].
  destruct s as [|c s]; [reflexivity|].
  simpl in *. destruct (Ascii.eqb c l); simpl in H; [apply IH, H|reflexivity].
Qed.

Lemma matches_lit_head (ic : bool) (n : nat) (l : ascii) (p s : pystr)
      (r : Re.regex) (m x : Re.captures)
      (k : pystr -> Re.captures -> option Re.captures) :
  Re.matches ic n (Re.lit (l :: p) r) s m k = Some x ->
  exists c s', s = c :: s' /\ Re.accepts ic (Re.Lit l) c = true.
Proof.
  cbn [Re.lit Re.matches]. destruct s as [|c s]; [discriminate|].
  destruct (Re.accepts ic (Re.Lit l) c) eqn:E; [|discriminate].
  intros _. exists c, s. split; [reflexivity|exact E].
Qed.

(** ** Character classes *)

Ltac by_code :=
  unfold Py.isdigit, Py.isspace, Py.isspace_ascii, Py.in_range in *;
  repeat match goal with
         | H : context [N.leb ?a ?b] |- _ => destruct (N.leb_spec a b)
         | H : context [N.eqb ?a ?b] |- _ => destruct (N.eqb_spec a b)
         | |- context [N.leb ?a ?b] => destruct (N.leb_spec a b)
         | |- context [N.eqb ?a ?b] => destruct (N.eqb_spec a b)
         end;
  simpl in *; try reflexivity; try discriminate; try lia.

Lemma digit_not_space (c : ascii) :
  Py.isdigit c = true -> Py.isspace c = false.
Proof. intros H. by_code. Qed.

Lemma digit_not_space_ascii (c : ascii) :
  Py.isdigit c = true -> Py.isspace_ascii c = false.
Proof. intros H. by_code. Qed.

Lemma digit_not (c x : ascii) :
  Py.isdigit c = true -> Py.isdigit x = false -> Ascii.eqb c x = false.
Proof.
  intros Hc Hx. destruct (Ascii.eqb_spec c x); [congruence|reflexivity].
Qed.

(** ** White space and digits of numbers *)

Lemma space_ascii_is_space (c : ascii) :
  Py.isspace c = false -> Py.isspace_ascii c = false.
Proof. intros H. by_code. Qed.

Lemma space_ascii_is_low (c : ascii) :
  Py.isspace_ascii c = true -> (127 <=? Py.code c)%N = false.
Proof. intros H. by_code. Qed.

Lemma digit_is_low (c : ascii) :
  Py.isdigit c = true -> (127 <=? Py.code c)%N = false.
Proof. intros H. by_code. Qed.

Lemma blank_spaces_low (s : pystr) :
  forallb (fun c => negb (127 <=? Py.code c)%N) s = true ->
  Py.blank_spaces s = s.
Proof.
  induction s as [|c s IH]; intros H; [reflexivity|].
  cbn [forallb] in H. apply andb_true_iff in H as [Hc H].
  apply negb_true_iff in Hc. unfold Py.blank_spaces in *. cbn [map].
  rewrite Hc, IH by assumption. reflexivity.
Qed.

Lemma lstrip_ascii_pad (pad s : pystr) :
  ascii_blanks pad = true -> Py.lstrip_ascii (pad ++ s) = Py.lstrip_ascii s.
Proof.
  unfold ascii_blanks.
  induction pad as [|c pad IH]; intros H; [reflexivity|].
  cbn [forallb] in H. apply andb_true_iff in H as [Hc H].
  cbn [app Py.lstrip_ascii]. rewrite Hc. auto.
Qed.

Lemma lstrip_ascii_blanks (pad : pystr) :
  ascii_blanks pad = true -> Py.lstrip_ascii pad = [].
Proof.
  intros H. rewrite <- (app_nil_r pad) at 1. now rewrite lstrip_ascii_pad.
Qed.

Lemma scan_digits_run (ds rest : pystr) (acc count : N)
      (prev : option ascii) :
  forallb Py.isdigit ds = true ->
  match prev with Some p => Ascii.eqb p "_" = false | None => True end ->
  match rest with
  | c :: _ => Py.isdigit c = false /\ Ascii.eqb c "_" = false
  | [] => True
  end ->
  Py.scan_digits (ds ++ rest) acc count prev
  = Some (fold_left (fun a c => (a * 10 + Py.digit_value c)%N) ds acc,
          (count + N.of_nat (length ds))%N, rest).
Proof.
  revert acc count prev.
  induction ds as [|c ds IH]; intros acc count prev H Hp Hrest.
  - cbn [app fold_left length]. rewrite N.add_0_r.
    destruct rest as [|c rest].
    + simpl. destruct prev as [p|]; [now rewrite Hp|reflexivity].
    + destruct Hrest as [Hd Hu]. cbn [Py.scan_digits]. rewrite Hd, Hu.
      destruct prev as [p|]; [now rewrite Hp|reflexivity].
  - cbn [forallb] in H. apply andb_true_iff in H as [Hc H].
    cbn [app Py.scan_digits]. rewrite Hc. rewrite IH.
    + cbn [fold_left length]. do 3 f_equal. lia.
    + assumption.
    + now apply digit_not.
    + assumption.
Qed.

(** ** [int] reads base 10 *)

Lemma space_ascii_no_digit (c : ascii) :
  Py.isspace_ascii c = true ->
  Py.isdigit c = false /\ Ascii.eqb c "_" = false.
Proof.
  intros H. split; [by_code|].
  destruct (Ascii.eqb_spec c "_") as [->|]; [discriminate H|reflexivity].
Qed.

Lemma forallb_impl (P Q : ascii -> bool) (s : pystr) :
  (forall c, P c = true -> Q c = true) ->
  forallb P s = true -> forallb Q s = true.
Proof.
  intros HPQ H. rewrite forallb_forall in *. auto.
Qed.

Lemma blanks_are_low (pad : pystr) :
  ascii_blanks pad = true ->
  forallb (fun c => negb (127 <=? Py.code c)%N) pad = true.
Proof.
  apply forallb_impl. intros c H. now rewrite space_ascii_is_low.
Qed.

Lemma digits_are_low (ds : pystr) :
  forallb Py.isdigit ds = true ->
  forallb (fun c => negb (127 <=? Py.code c)%N) ds = true.
Proof.
  apply forallb_impl. intros c H. now rewrite digit_is_low.
Qed.

Lemma sign_is_low (sg : sign) :
  forallb (fun c => negb (127 <=? Py.code c)%N) (sign_text sg) = true.
Proof. destruct sg; reflexivity. Qed.

(** A sign and the digit after it are taken as they stand. *)
Lemma take_sign_text (sg : sign) (c : ascii) (s : pystr) :
  Py.isdigit c = true ->
  Py.lstrip_ascii (sign_text sg ++ c :: s) = sign_text sg ++ c :: s
  /\ Py.take_sign (sign_text sg ++ c :: s) = (is_minus sg, c :: s).
Proof.
  intros Hc. destruct sg; cbn [sign_text app]; split; try reflexivity.
  - cbn [Py.lstrip_ascii]. now rewrite (digit_not_space_ascii _ Hc).
  - unfold Py.take_sign.
    now rewrite (digit_not c "-"), (digit_not c "+") by (assumption || reflexivity).
Qed.

Lemma int_of_integer_text (pad1 : pystr) (sg : sign) (digits pad2 : pystr) :
  ascii_blanks pad1 = true -> digits_ok digits = true ->
  (N.of_nat (length digits) <= Py.int_max_str_digits)%N ->
  ascii_blanks pad2 = true ->
  Py.int_of_str (integer_text pad1 sg digits pad2)
  = Ok (signed sg (decimal_value digits)).
Proof.
  intros H1 Hd Hlen H2. unfold digits_ok in Hd.
  apply andb_true_iff in Hd as [Hne Hd].
  destruct digits as [|c ds]; [discriminate Hne|].
  pose proof Hd as Hd'. cbn [forallb] in Hd'.
  apply andb_true_iff in Hd' as [Hc _].
  unfold Py.int_of_str, integer_text.
  rewrite blank_spaces_low
    by (rewrite !forallb_app, blanks_are_low, sign_is_low, digits_are_low,
          blanks_are_low by assumption; reflexivity).
  rewrite lstrip_ascii_pad by assumption.
  change ((c :: ds) ++ pad2) with (c :: ds ++ pad2).
  destruct (@take_sign_text sg c (ds ++ pad2) Hc) as [-> ->].
  change (c :: ds ++ pad2) with ((c :: ds) ++ pad2).
  rewrite scan_digits_run; [|assumption|exact I|].
  - rewrite N.add_0_l.
    replace (N.of_nat (length (c :: ds)) =? 0)%N with false
      by (symmetry; apply N.eqb_neq; simpl; lia).
    replace (Py.int_max_str_digits <? N.of_nat (length (c :: ds)))%N with false
      by (symmetry; apply N.ltb_ge; assumption).
    rewrite lstrip_ascii_blanks by assumption.
    unfold signed, decimal_value. reflexivity.
  - destruct pad2 as [|x pad2]; [exact I|].
    unfold ascii_blanks in H2. cbn [forallb] in H2.
    apply andb_true_iff in H2 as [Hx _]. now apply space_ascii_no_digit.
Qed.

(** ** [float] reads decimal literals *)

Lemma plain_digits_run (ds rest : pystr) (acc count : N) :
  forallb Py.isdigit ds = true ->
  match rest with
  | c :: _ => Py.isdigit c = false
  | [] => True
  end ->
  Py.plain_digits (ds ++ rest) acc count
  = (fold_left (fun a c => (a * 10 + Py.digit_value c)%N) ds acc,
     (count + N.of_nat (length ds))%N, rest).
Proof.
  revert acc count.
  induction ds as [|c ds IH]; intros acc count H Hrest.
  - cbn [app fold_left length]. rewrite N.add_0_r.
    destruct rest as [|c rest]; [reflexivity|].
    cbn [Py.plain_digits]. now rewrite Hrest.
  - cbn [forallb] in H. apply andb_true_iff in H as [Hc H].
    cbn [app Py.plain_digits]. rewrite Hc, IH by assumption.
    cbn [fold_left length]. do 2 f_equal. lia.
Qed.

Lemma literal_char_facts (c : ascii) :
  literal_char c = true ->
  (127 <=? Py.code c)%N = false /\ Ascii.eqb "_" c = false
  /\ Py.isspace_ascii c = false.
Proof.
  destruct c as [[] [] [] [] [] [] [] []]; intros H;
    try discriminate H; repeat split.
Qed.

Lemma sign_literal (sg : sign) : forallb literal_char (sign_text sg) = true.
Proof. destruct sg; reflexivity. Qed.

Lemma digits_literal (ds : pystr) :
  forallb Py.isdigit ds = true -> forallb literal_char ds = true.
Proof.
  apply forallb_impl. intros c H. unfold literal_char. now rewrite H.
Qed.

Lemma decimal_parts (d : decimal) :
  decimal_ok d = true ->
  (exists c ds, d_int d = c :: ds /\ Py.isdigit c = true
                /\ forallb Py.isdigit (c :: ds) = true)
  /\ forallb Py.isdigit (fraction_digits d) = true
  /\ match d_exp d with
     | Some (mark, _, digits) =>
         (mark = "e"%char \/ mark = "E"%char)
         /\ exists c ds, digits = c :: ds /\ Py.isdigit c = true
                         /\ forallb Py.isdigit (c :: ds) = true
     | None => True
     end.
Proof.
  unfold decimal_ok, digits_ok. intros H.
  apply andb_true_iff in H as [H He]. apply andb_true_iff in H as [Hi Hf].
  apply andb_true_iff in Hi as [Hne Hi].
  split; [|split; [exact Hf|]].
  - destruct (d_int d) as [|c ds]; [discriminate Hne|].
    exists c, ds. repeat split; [|exact Hi].
    cbn [forallb] in Hi. apply andb_true_iff in Hi. tauto.
  - destruct (d_exp d) as [[[mark sg] digits]|]; [|exact I].
    apply andb_true_iff in He as [Hm Hd]. apply andb_true_iff in Hd as [Hn Hd].
    split.
    + apply orb_true_iff in Hm as [Hm|Hm];
        destruct (Ascii.eqb_spec mark "e"); destruct (Ascii.eqb_spec mark "E");
        try discriminate Hm; tauto.
    + destruct digits as [|c ds]; [discriminate Hn|].
      exists c, ds. repeat split; [|exact Hd].
      cbn [forallb] in Hd. apply andb_true_iff in Hd. tauto.
Qed.

Lemma decimal_text_literal (d : decimal) :
  decimal_ok d = true -> forallb literal_char (decimal_text d) = true.
Proof.
  intros H. destruct (decimal_parts d H) as ((c & ds & Ei & _ & Hi) & Hf & He).
  unfold decimal_text, fraction_text, exponent_text, fraction_digits in *.
  rewrite !forallb_app, sign_literal, Ei, (digits_literal _ Hi). cbn [andb].
  apply andb_true_iff. split.
  - destruct (d_frac d) as [fp|]; [|reflexivity].
    cbn [forallb]. now rewrite (digits_literal _ Hf).
  - destruct (d_exp d) as [[[mark sg] digits]|]; [|reflexivity].
    destruct He as [Hm (c' & ds' & -> & _ & Hd)].
    cbn [forallb]. rewrite forallb_app, sign_literal, (digits_literal _ Hd).
    destruct Hm as [->| ->]; reflexivity.
Qed.

Lemma lstrip_ascii_solid (s : pystr) :
  forallb (fun c => negb (Py.isspace_ascii c)) s = true ->
  forall t, s <> [] -> Py.lstrip_ascii (s ++ t) = s ++ t.
Proof.
  intros H t Hne. destruct s as [|c s]; [contradiction|].
  cbn [forallb] in H. apply andb_true_iff in H as [Hc _].
  apply negb_true_iff in Hc. cbn [app Py.lstrip_ascii]. now rewrite Hc.
Qed.

Lemma forallb_rev (P : ascii -> bool) (s : pystr) :
  forallb P s = true -> forallb P (rev s) = true.
Proof.
  rewrite !forallb_forall. intros H c Hc. apply H. now apply in_rev.
Qed.

Lemma strip_ascii_padded (pad1 body pad2 : pystr) :
  ascii_blanks pad1 = true -> ascii_blanks pad2 = true ->
  forallb (fun c => negb (Py.isspace_ascii c)) body = true -> body <> [] ->
  Py.strip_ascii (pad1 ++ body ++ pad2) = body.
Proof.
  intros H1 H2 Hb Hne. unfold Py.strip_ascii.
  rewrite lstrip_ascii_pad, lstrip_ascii_solid by assumption.
  rewrite rev_app_distr, lstrip_ascii_pad by now apply forallb_rev.
  rewrite <- (app_nil_r (rev body)), lstrip_ascii_solid.
  - now rewrite app_nil_r, rev_involutive.
  - now apply forallb_rev.
  - intros E. apply Hne. rewrite <- (rev_involutive body), E. reflexivity.
Qed.

Lemma no_underscore (s : pystr) :
  forallb (fun c => negb (Ascii.eqb "_" c)) s = true ->
  existsb (Ascii.eqb "_") s = false.
Proof.
  induction s as [|c s IH]; intros H; [reflexivity|].
  cbn [forallb] in H. apply andb_true_iff in H as [Hc H].
  apply negb_true_iff in Hc. cbn [existsb]. now rewrite Hc, IH.
Qed.

Lemma space_ascii_no_underscore (c : ascii) :
  Py.isspace_ascii c = true -> Ascii.eqb "_" c = false.
Proof.
  intros H. destruct (Ascii.eqb_spec "_" c) as [<-|]; [discriminate H|reflexivity].
Qed.

Lemma lower_digit (c : ascii) : Py.isdigit c = true -> Py.lower_char c = c.
Proof.
  destruct c as [[] [] [] [] [] [] [] []]; intros H;
    try discriminate H; reflexivity.
Qed.

(** The digits of a literal are not the name of a special value. *)
Lemma digits_are_no_name (c : ascii) (s : pystr) :
  Py.isdigit c = true ->
  str_eqb (Py.lower (c :: s)) (txt "inf")
  || str_eqb (Py.lower (c :: s)) (txt "infinity") = false
  /\ str_eqb (Py.lower (c :: s)) (txt "nan") = false.
Proof.
  intros Hc. unfold Py.lower. cbn [map txt list_ascii_of_string str_eqb].
  rewrite (lower_digit _ Hc).
  now rewrite (digit_not c "i"), (digit_not c "n") by (assumption || reflexivity).
Qed.

Lemma exponent_of_text (d : decimal) :
  decimal_ok d = true ->
  Py.exponent (exponent_text d) = (exponent_value d, []).
Proof.
  intros H. destruct (decimal_parts d H) as (_ & _ & He).
  unfold exponent_text, exponent_value.
  destruct (d_exp d) as [[[mark sg] digits]|]; [|reflexivity].
  destruct He as [Hm (c & ds & -> & Hc & Hd)].
  unfold Py.exponent.
  replace (Ascii.eqb (Py.lower_char mark) "e") with true
    by (destruct Hm as [->| ->]; reflexivity).
  destruct (@take_sign_text sg c ds Hc) as [_ ->].
  rewrite <- (app_nil_r (c :: ds)), plain_digits_run by (assumption || exact I).
  rewrite app_nil_r, N.add_0_l.
  replace (N.of_nat (length (c :: ds)) =? 0)%N with false
    by (symmetry; apply N.eqb_neq; simpl; lia).
  reflexivity.
Qed.

Lemma exponent_text_head (d : decimal) :
  decimal_ok d = true ->
  match exponent_text d with
  | c :: _ => Py.isdigit c = false /\ Ascii.eqb c "." = false
  | [] => True
  end.
Proof.
  intros H. destruct (decimal_parts d H) as (_ & _ & He).
  unfold exponent_text.
  destruct (d_exp d) as [[[mark sg] digits]|]; [|exact I].
  destruct He as [[->| ->] _]; split; reflexivity.
Qed.

Lemma float_of_decimal_text (pad1 : pystr) (d : decimal) (pad2 : pystr) :
  ascii_blanks pad1 = true -> decimal_ok d = true ->
  ascii_blanks pad2 = true ->
  Py.float_of_str (pad1 ++ decimal_text d ++ pad2) = Ok (decimal_float d).
Proof.
  intros H1 Hd H2.
  pose proof (decimal_text_literal d Hd) as Hlit.
  destruct (decimal_parts d Hd) as ((c & ds & Ei & Hc & Hi) & Hf & _).
  assert (Hne : decimal_text d <> []).
  { unfold decimal_text. rewrite Ei. destruct (sign_text (d_sign d)); discriminate. }
  unfold Py.float_of_str.
  rewrite blank_spaces_low.
  2:{ rewrite !forallb_app, (blanks_are_low _ H1), (blanks_are_low _ H2).
      rewrite andb_true_r. cbn [andb]. revert Hlit. apply forallb_impl.
      intros x Hx. destruct (literal_char_facts x Hx) as (-> & _). reflexivity. }
  rewrite no_underscore.
  2:{ rewrite !forallb_app. apply andb_true_iff. split; [|apply andb_true_iff; split].
      - revert H1. apply forallb_impl. intros x Hx.
        now rewrite space_ascii_no_underscore.
      - revert Hlit. apply forallb_impl. intros x Hx.
        destruct (literal_char_facts x Hx) as (_ & -> & _). reflexivity.
      - revert H2. apply forallb_impl. intros x Hx.
        now rewrite space_ascii_no_underscore. }
  rewrite strip_ascii_padded; try assumption.
  2:{ revert Hlit. apply forallb_impl. intros x Hx.
      destruct (literal_char_facts x Hx) as (_ & _ & ->). reflexivity. }
  unfold Py.float_literal, decimal_text. rewrite Ei.
  change ((c :: ds) ++ fraction_text d ++ exponent_text d)
    with (c :: ds ++ fraction_text d ++ exponent_text d).
  destruct (@take_sign_text (d_sign d) c
              (ds ++ fraction_text d ++ exponent_text d) Hc) as [_ ->].
  destruct (@digits_are_no_name c (ds ++ fraction_text d ++ exponent_text d) Hc)
    as [-> ->].
  change (c :: ds ++ fraction_text d ++ exponent_text d)
    with ((c :: ds) ++ fraction_text d ++ exponent_text d).
  pose proof (exponent_text_head d Hd) as Hhead.
  pose proof (exponent_of_text d Hd) as Hexp.
  unfold decimal_float, decimal_value. rewrite Ei, fold_left_app.
  unfold fraction_text, fraction_digits in *.
  destruct (d_frac d) as [fp|].
  - rewrite plain_digits_run by (assumption || reflexivity).
    cbn [app]. rewrite Ascii.eqb_refl.
    rewrite plain_digits_run; [|assumption|].
    + rewrite !N.add_0_l.
      replace (N.of_nat (length (c :: ds)) + N.of_nat (length fp) =? 0)%N
        with false by (symmetry; apply N.eqb_neq; cbn [length]; lia).
      rewrite Hexp. now rewrite nat_N_Z.
    + destruct (exponent_text d); [exact I|tauto].
  - change ([] ++ exponent_text d) with (exponent_text d).
    rewrite plain_digits_run; [|assumption|].
    + rewrite !N.add_0_l. cbn [fold_left length Z.of_nat].
      destruct (exponent_text d) as [|x t] eqn:Et.
      * replace (N.of_nat (length (c :: ds)) + 0 =? 0)%N
          with false by (symmetry; apply N.eqb_neq; cbn [length]; lia).
        rewrite Hexp. reflexivity.
      * destruct Hhead as [_ ->].
        replace (N.of_nat (length (c :: ds)) + 0 =? 0)%N
          with false by (symmetry; apply N.eqb_neq; cbn [length]; lia).
        rewrite Hexp. reflexivity.
    + destruct (exponent_text d); [exact I|tauto].
Qed.
(** ** Texts that are no integer *)

Lemma In_lstrip_ascii (c : ascii) (s : pystr) :
  In c s -> Py.isspace_ascii c = false -> In c (Py.lstrip_ascii s).
Proof.
  intros Hin Hc. induction s as [|x s IH]; [contradiction|].
  cbn [Py.lstrip_ascii]. destruct (Py.isspace_ascii x) eqn:Ex; [|exact Hin].
  apply IH. destruct Hin as [->|Hin]; [congruence|exact Hin].
Qed.

Lemma In_blank_spaces (c : ascii) (s : pystr) :
  In c s -> Py.isspace c = false -> In c (Py.blank_spaces s).
Proof.
  intros Hin Hc. unfold Py.blank_spaces.
  apply in_map_iff. exists c. split; [|exact Hin].
  now rewrite Hc, andb_false_r.
Qed.

Lemma scan_digits_rest (s : pystr) (acc count : N) (prev : option ascii)
      (n k : N) (rest : pystr) (c : ascii) :
  Py.scan_digits s acc count prev = Some (n, k, rest) ->
  In c s -> Py.isdigit c = false -> Ascii.eqb c "_" = false ->
  In c rest.
Proof.
  revert acc count prev. induction s as [|x s IH]; intros acc count prev H Hin Hd Hu;
    [contradiction|].
  cbn [Py.scan_digits] in H.
  destruct (Py.isdigit x) eqn:Ex.
  - eapply IH; [exact H| |exact Hd|exact Hu].
    destruct Hin as [->|Hin]; [congruence|exact Hin].
  - destruct (Ascii.eqb x "_") eqn:Eu.
    + destruct prev as [p|]; [|discriminate].
      destruct (Ascii.eqb p "_"); [discriminate|].
      eapply IH; [exact H| |exact Hd|exact Hu].
      destruct Hin as [->|Hin]; [congruence|exact Hin].
    + destruct prev as [p|]; [destruct (Ascii.eqb p "_"); [discriminate|]|];
        inversion H; subst; exact Hin.
Qed.

Lemma int_of_str_rejects (raw : pystr) (c : ascii) :
  In c raw -> no_int_char c = true -> Py.int_of_str raw = Raise ValueError.
Proof.
  intros Hin Hc. unfold no_int_char in Hc.
  apply andb_true_iff in Hc as [Hc Hspace].
  apply andb_true_iff in Hc as [Hc Hminus].
  apply andb_true_iff in Hc as [Hc Hplus].
  apply andb_true_iff in Hc as [Hdigit Hunder].
  apply negb_true_iff in Hspace, Hminus, Hplus, Hdigit, Hunder.
  assert (Hsa : Py.isspace_ascii c = false) by now apply space_ascii_is_space.
  unfold Py.int_of_str.
  assert (H2 : In c (Py.lstrip_ascii (Py.blank_spaces raw)))
    by (apply In_lstrip_ascii; [now apply In_blank_spaces|exact Hsa]).
  set (s2 := Py.lstrip_ascii (Py.blank_spaces raw)) in *.
  assert (H3 : In c (snd (Py.take_sign s2))).
  { unfold Py.take_sign. destruct s2 as [|x s2']; [contradiction|].
    destruct (Ascii.eqb_spec x "-") as [->|];
      [|destruct (Ascii.eqb_spec x "+") as [->|]]; cbn [snd]; try exact H2;
      (destruct H2 as [E|H2]; [subst c; cbn in Hminus, Hplus; discriminate|exact H2]). }
  destruct (Py.take_sign s2) as [neg s3]. cbn [snd] in H3.
  destruct (Py.scan_digits s3 0 0 None) as [[[n k] rest]|] eqn:E; [|reflexivity].
  destruct (k =? 0)%N; [reflexivity|].
  destruct (Py.int_max_str_digits <? k)%N; [reflexivity|].
  assert (H4 : In c (Py.lstrip_ascii rest)).
  { apply In_lstrip_ascii; [|exact Hsa]. eapply scan_digits_rest; eauto. }
  destruct (Py.lstrip_ascii rest); [contradiction|reflexivity].
Qed.


(** ** The type registry *)

(** C6. The lookup of a SQL type name is an exact, case-sensitive match
    that never raises.  [integer] and [bigint] give [int] with the tags
    [int] and [long]: a sign and a run of digits between white space
    are read in base 10, and a text holding any other character than
    digits, underscores, signs and white space is refused.
    [character varying] gives [str], which returns its text, with the
    tag [string].  [double precision] gives [float] with the tag
    [double]: a decimal literal is read as the number it writes.  Every
    other name gives [str] with the tag [string]. *)
Theorem type_registry_lookup :
  sql_type_lookup (txt "integer")
  = {| _type_converter := py_int; _avro_data_type := txt "int";
       _null_value := txt "null" |}
  /\ sql_type_lookup (txt "bigint")
     = {| _type_converter := py_int; _avro_data_type := txt "long";
          _null_value := txt "null" |}
  /\ sql_type_lookup (txt "character varying")
     = {| _type_converter := py_str; _avro_data_type := txt "string";
          _null_value := txt "null" |}
  /\ sql_type_lookup (txt "double precision")
     = {| _type_converter := py_float; _avro_data_type := txt "double";
          _null_value := txt "null" |}
  /\ (forall sql_type,
         ~ In sql_type [txt "integer"; txt "bigint";
                        txt "character varying"; txt "double precision"] ->
         sql_type_lookup sql_type
         = {| _type_converter := py_str; _avro_data_type := txt "string";
              _null_value := txt "null" |})
  /\ (forall sql_type pad1 sg digits pad2,
         In sql_type [txt "integer"; txt "bigint"] ->
         ascii_blanks pad1 = true -> digits_ok digits = true ->
         (N.of_nat (length digits) <= Py.int_max_str_digits)%N ->
         ascii_blanks pad2 = true ->
         _type_converter (sql_type_lookup sql_type)
                         (Text (integer_text pad1 sg digits pad2))
         = Ok (PInt (signed sg (decimal_value digits))))
  /\ (forall sql_type raw c,
         In sql_type [txt "integer"; txt "bigint"] ->
         In c raw -> no_int_char c = true ->
         _type_converter (sql_type_lookup sql_type) (Text raw)
         = Raise ValueError)
  /\ (forall pad1 d pad2,
         ascii_blanks pad1 = true -> decimal_ok d = true ->
         ascii_blanks pad2 = true ->
         _type_converter (sql_type_lookup (txt "double precision"))
                         (Text (pad1 ++ decimal_text d ++ pad2))
         = Ok (PFloat (decimal_float d)))
  /\ (forall sql_type s,
         ~ In sql_type [txt "integer"; txt "bigint";
                        txt "double precision"] ->
         _type_converter (sql_type_lookup sql_type) (Text s) = Ok (PStr s)).
Proof.
  assert (Hother : forall sql_type,
             ~ In sql_type [txt "integer"; txt "bigint";
                            txt "character varying"; txt "double precision"] ->
             sql_type_lookup sql_type = FieldType_new py_str (txt "string")).
  { intros sql_type H. unfold sql_type_lookup.
    replace (Dict.get str_eqb sql_type _SQL_TABLE_TYPE_MAPPING) with
      (@None FieldType); [reflexivity|].
    symmetry. apply (get_none_notin str_eqb str_eqb_eq). exact H. }
  repeat match goal with |- _ /\ _ => split end; try reflexivity.
  - exact Hother.
  - intros sql_type pad1 sg digits pad2 Hin H1 Hd Hlen H2.
    assert (E : _type_converter (sql_type_lookup sql_type) = py_int)
      by (cbn [In] in Hin; destruct Hin as [<-|[<-|[]]]; reflexivity).
    rewrite E. unfold py_int.
    now rewrite int_of_integer_text.
  - intros sql_type raw c Hin Hc Hno.
    assert (E : _type_converter (sql_type_lookup sql_type) = py_int)
      by (cbn [In] in Hin; destruct Hin as [<-|[<-|[]]]; reflexivity).
    rewrite E. unfold py_int.
    now rewrite (int_of_str_rejects raw c Hc Hno).
  - intros pad1 d pad2 H1 Hd H2.
    change (_type_converter (sql_type_lookup (txt "double precision")))
      with py_float.
    unfold py_float. now rewrite float_of_decimal_text.
  - intros sql_type s H.
    destruct (str_eqb sql_type (txt "character varying")) eqn:E.
    + apply str_eqb_eq in E. subst. reflexivity.
    + rewrite Hother; [reflexivity|].
      cbn [In] in *. intros [<-|[<-|[<-|[<-|[]]]]];
        try (apply H; tauto). discriminate E.
Qed.

Lemma type_registry_lookup_witness :
  sql_type_lookup (txt "INTEGER")
  = {| _type_converter := py_str; _avro_data_type := txt "string";
       _null_value := txt "null" |}
  /\ _type_converter (sql_type_lookup (txt "bigint")) (Text (txt " -0042 "))
     = Ok (PInt (-42))
  /\ _type_converter (sql_type_lookup (txt "integer")) (Text (txt "0x2A"))
     = Raise ValueError
  /\ _type_converter (sql_type_lookup (txt "double precision"))
                     (Text (txt "-12.50e3"))
     = Ok (PFloat (Py.FDec true 1250 1))
  /\ _type_converter (sql_type_lookup (txt "text")) (Text (txt "7"))
     = Ok (PStr (txt "7")).
Proof.
  destruct type_registry_lookup
    as (_ & _ & _ & _ & Hother & Hint & Hno & Hfloat & Hstr).
  repeat match goal with |- _ /\ _ => split end.
  - apply Hother. simpl. intros [H|[H|[H|[H|[]]]]]; discriminate H.
  - apply (Hint (txt "bigint") (txt " ") Minus (txt "0042") (txt " "));
      [simpl; tauto|reflexivity|reflexivity|vm_compute; discriminate
      |reflexivity].
  - apply (Hno (txt "integer") (txt "0x2A") "x"%char);
      [simpl; tauto|simpl; tauto|reflexivity].
  - apply (Hfloat []
             {| d_sign := Minus; d_int := txt "12"; d_frac := Some (txt "50");
                d_exp := Some ("e"%char, NoSign, txt "3") |} []);
      reflexivity.
  - apply Hstr. simpl. intros [H|[H|[H|[]]]]; discriminate H.
Defined.

(** ** The null token *)

(** C4. A value equal to the null token of a column gives [None]
    whatever the converter is, so the converter is not applied to it;
    on any other value the result is the converter's.  With the schema
    [(id integer, name character varying, cost double precision)] the
    row [(2, 'null', 3.0)] gives [{id: 2, name: None, cost: 3.0}]. *)
Theorem null_token_short_circuits :
  (forall type_converter avro_data_type null_value,
      FieldType_call {| _type_converter := type_converter;
                        _avro_data_type := avro_data_type;
                        _null_value := null_value |} (Text null_value)
      = Ok PNone)
  /\ (forall self value,
         FieldType_call self value
         = if is_null_value self value then Ok PNone
           else _type_converter self value)
  /\ (forall self s, is_null_value self (Text s) = true <-> s = _null_value self)
  /\ parse_insert_values (txt "2, 'null', 3.0")
       (add_fields_from_create_table_ddl TableSchema_new
          (line_of "CREATE TABLE roads(id integer, name character varying, cost double precision);"))
     = Ok [ (Some (txt "id"), PInt 2);
            (Some (txt "name"), PNone);
            (Some (txt "cost"), PFloat (Py.FDec false 30 (-1))) ].
Proof.
  repeat split.
  - intros conv avro nv. unfold FieldType_call. simpl.
    now rewrite str_eqb_refl.
  - simpl. apply str_eqb_eq.
  - intros ->. simpl. apply str_eqb_refl.
Qed.

Lemma null_token_short_circuits_witness :
  is_null_value (FieldType_new py_int (txt "int")) (Text (txt "null")) = true
  /\ FieldType_call (FieldType_new py_int (txt "int")) (Text (txt "null"))
     = Ok PNone.
Proof.
  destruct null_token_short_circuits as (Hnull & _ & Hiff & _).
  split.
  - apply (Hiff (FieldType_new py_int (txt "int")) (txt "null")). reflexivity.
  - apply (Hnull py_int (txt "int") (txt "null")).
Defined.

(** ** Output formats *)

(** C2, as the code has it.  A format that is none of [csv], [json] and
    [avro] selects no writer: the lines are still read, and the run ends
    normally with nothing written unless a line raised. *)
Theorem unsupported_format_writes_nothing
        (Body : Type)
        (load_body : Wkb.geom_type -> bool -> bytes -> bytes -> result Body)
        (wkt_dumps : Wkb.geojson Body -> result pystr)
        (g : globals) (self : DDLConverter) (in_fp : list pystr) :
  ~ In (g_output_format g) supported_formats ->
  convert load_body wkt_dumps g self in_fp
  = (st <- convert_lines load_body wkt_dumps in_fp ([], TableSchema_new) ;;
     Ok []).
Proof.
  intros H. unfold convert.
  destruct (convert_lines load_body wkt_dumps in_fp ([], TableSchema_new))
    as [[records table_schema]|e]; simpl; [|reflexivity].
  assert (Hne : forall f, In f supported_formats ->
                          str_eqb (g_output_format g) f = false).
  { intros f Hf. apply str_eqb_neq. intros E. apply H. now rewrite E. }
  rewrite !Hne by (simpl; auto). reflexivity.
Qed.

Lemma unsupported_format_writes_nothing_witness :
  convert no_load_body no_wkt_dumps
    {| g_output_file := txt "roads.XML"; g_output_format := txt "XML" |}
    {| input_file := txt "roads.sql"; output_file := txt "roads.XML";
       output_format := txt "XML" |}
    [line_of "CREATE TABLE roads(id integer);"; line_of "(1);"]
  = Ok [].
Proof.
  rewrite unsupported_format_writes_nothing.
  - reflexivity.
  - simpl. intros [H|[H|[H|[]]]]; discriminate H.
Defined.

(** C2 fails as stated: with the format [xml] the run raises nothing. *)
Lemma unsupported_format_raises_nothing :
  ~ In (txt "xml") supported_formats
  /\ ~ (exists e,
          convert no_load_body no_wkt_dumps
            {| g_output_file := txt "roads.xml"; g_output_format := txt "xml" |}
            {| input_file := txt "roads.sql"; output_file := txt "roads.xml";
               output_format := txt "xml" |}
            [line_of "CREATE TABLE roads(id integer);"; line_of "(1);"]
          = Raise e).
Proof.
  split.
  - simpl. intros [H|[H|[H|[]]]]; discriminate H.
  - intros [e H]. vm_compute in H. discriminate H.
Qed.

(** ** The geometry decoder *)

(** C5, at a plain well-known-binary point (no SRID flag): the decoded
    structure has no ["meta"] entry, and removing it raises [KeyError]
    when the body decodes; the decoder never returns a text. *)
Theorem plain_wkb_point_raises
        (Body : Type)
        (load_body : Wkb.geom_type -> bool -> bytes -> bytes -> result Body)
        (wkt_dumps : Wkb.geojson Body -> result pystr) :
  convert_wkb_to_wkt load_body wkt_dumps true
    (Text (txt "0101000000000000000000f03f0000000000000040"))
  = match load_body Wkb.Point false
            [Byte.x00; Byte.x00; Byte.x00; Byte.x01]
            [Byte.x00; Byte.x00; Byte.x00; Byte.x00;
             Byte.x00; Byte.x00; Byte.xf0; Byte.x3f;
             Byte.x00; Byte.x00; Byte.x00; Byte.x00;
             Byte.x00; Byte.x00; Byte.x00; Byte.x40] with
    | Ok _ => Raise (KeyError (txt "meta"))
    | Raise e => Raise e
    end.
Proof.
  unfold convert_wkb_to_wkt.
  change (fromhex (txt "0101000000000000000000f03f0000000000000040"))
    with (Ok [Byte.x01; Byte.x01; Byte.x00; Byte.x00; Byte.x00;
              Byte.x00; Byte.x00; Byte.x00; Byte.x00;
              Byte.x00; Byte.x00; Byte.xf0; Byte.x3f;
              Byte.x00; Byte.x00; Byte.x00; Byte.x00;
              Byte.x00; Byte.x00; Byte.x00; Byte.x40]).
  cbn [bind]. unfold Wkb.loads. cbn.
  destruct (load_body _ _ _ _); reflexivity.
Qed.

(** ** Case of the keywords *)

Lemma lower_accepts (u p : pystr) :
  Py.lower u = Py.lower p ->
  Forall2 (fun c l => Re.accepts true (Re.Lit l) c = true) u p.
Proof.
  revert p. induction u as [|c u IH]; intros [|l p] H; try discriminate.
  - constructor.
  - simpl in H. injection H as Hc H. constructor; [|auto].
    simpl. rewrite Hc. apply Ascii.eqb_refl.
Qed.

Lemma create_table_needs_upper_case (self : TableSchema) (line : pystr) :
  Py.startswith line (txt "CREATE TABLE") = false ->
  add_fields_from_create_table_ddl self line = self.
Proof.
  intros H. unfold add_fields_from_create_table_ddl, create_table_re.
  rewrite search_bol, matches_lit_fail; [reflexivity|].
  destruct (Py.startswith line (txt "CREATE TABLE ")) eqn:E; [|reflexivity].
  apply (startswith_prefix line (txt "CREATE TABLE") (txt " ")) in E.
  congruence.
Qed.

(** C10. A line that starts with [create table] in another casing than
    [CREATE TABLE] is handed to the table-definition operation, whose
    pattern is case-sensitive: the operation changes nothing, and the
    whole round of the loop leaves records and schema as they were.  The
    geometry-column pattern ignores case: the casing of its keyword
    does not change what the operation does. *)
Theorem lower_case_create_table_is_ignored
        (Body : Type)
        (load_body : Wkb.geom_type -> bool -> bytes -> bytes -> result Body)
        (wkt_dumps : Wkb.geojson Body -> result pystr) :
  (forall line records table_schema,
      Py.startswith (Py.lower line) (txt "create table") = true ->
      Py.startswith line (txt "CREATE TABLE") = false ->
      add_fields_from_create_table_ddl table_schema line = table_schema
      /\ convert_line load_body wkt_dumps (records, table_schema) line
         = Ok (records, table_schema))
  /\ (forall keyword rest table_schema,
         Py.lower keyword = Py.lower (txt "SELECT AddGeometryColumn('") ->
         add_geometry_column_from_ddl load_body wkt_dumps table_schema
           (keyword ++ rest)
         = add_geometry_column_from_ddl load_body wkt_dumps table_schema
             (txt "SELECT AddGeometryColumn('" ++ rest)).
Proof.
  split.
  - intros line records table_schema Hlow Hup.
    pose proof (create_table_needs_upper_case table_schema line Hup) as Hsame.
    split; [exact Hsame|].
    unfold convert_line. rewrite Hlow, Hsame.
    destruct line as [|c line]; [discriminate|].
    cbn [Py.lower map Py.startswith txt list_ascii_of_string] in Hlow |- *.
    apply andb_true_iff in Hlow as [Hc _]. apply Ascii.eqb_eq in Hc.
    rewrite Hc. cbn [Ascii.eqb Bool.eqb andb].
    unfold insert_re. rewrite search_bol.
    cbn [txt list_ascii_of_string Re.lit Re.matches Re.accepts].
    destruct (Ascii.eqb_spec c "("%char) as [->|_]; [discriminate Hc|].
    reflexivity.
  - intros keyword rest table_schema H.
    unfold add_geometry_column_from_ddl, geometry_column_re.
    rewrite !search_bol.
    assert (Hlen : length (keyword ++ rest)
                   = length (txt "SELECT AddGeometryColumn('" ++ rest)).
    { rewrite !length_app. f_equal.
      apply (f_equal (@length ascii)) in H. unfold Py.lower in H.
      now rewrite !length_map in H. }
    rewrite Hlen.
    erewrite matches_lit_app by (apply lower_accepts; exact H).
    symmetry.
    erewrite matches_lit_app by (apply lower_accepts; reflexivity).
    reflexivity.
Qed.

Lemma lower_case_create_table_is_ignored_witness :
  add_fields_from_create_table_ddl TableSchema_new
    (line_of "create table roads(id integer);") = TableSchema_new
  /\ keys (add_geometry_column_from_ddl no_load_body no_wkt_dumps
             TableSchema_new
             (line_of "select addgeometrycolumn('roads', 'geom', 4326, 'LINESTRING', 2);"))
     = [txt "geom"].
Proof.
  destruct (lower_case_create_table_is_ignored no_load_body no_wkt_dumps)
    as [Hcreate Hgeom].
  split.
  - apply (Hcreate (line_of "create table roads(id integer);") []);
      reflexivity.
  - change (line_of "select addgeometrycolumn('roads', 'geom', 4326, 'LINESTRING', 2);")
      with (txt "select addgeometrycolumn('"
            ++ line_of "roads', 'geom', 4326, 'LINESTRING', 2);").
    rewrite Hgeom by reflexivity. reflexivity.
Defined.

(** ** Rows with surplus fields *)

(** C1 fails as stated: a row with one field more than the schema has
    columns is parsed without error; the surplus goes under the key
    [None] as the text of a list. *)
Lemma surplus_field_is_accepted :
  keys (add_fields_from_create_table_ddl TableSchema_new
          (line_of "CREATE TABLE roads(id integer);")) = [txt "id"]
  /\ Csv.reader_next sql [txt "1, 2"] = Ok ([txt "1"; txt "2"], [])
  /\ parse_insert_values (txt "1, 2")
       (add_fields_from_create_table_ddl TableSchema_new
          (line_of "CREATE TABLE roads(id integer);"))
     = Ok [(Some (txt "id"), PInt 1); (None, PStr (txt "['2']"))]
  /\ convert_lines no_load_body no_wkt_dumps
       [line_of "CREATE TABLE roads(id integer);"; line_of "(1, 2);"]
       ([], TableSchema_new)
     = Ok ([[(Some (txt "id"), PInt 1); (None, PStr (txt "['2']"))]],
           add_fields_from_create_table_ddl TableSchema_new
             (line_of "CREATE TABLE roads(id integer);")).
Proof.
  repeat split.
Qed.

(** ** The schema builder *)

Lemma add_fields_NoDup (self : TableSchema) (ddl : pystr) :
  NoDup (keys self) -> NoDup (keys (add_fields_from_create_table_ddl self ddl)).
Proof.
  intros H. unfold add_fields_from_create_table_ddl.
  destruct (Re.search create_table_re ddl false); [|assumption].
  unfold keys. simpl. now apply (NoDup_keys_update str_eqb str_eqb_eq).
Qed.

Lemma add_field_NoDup (self : TableSchema) (column : pystr) (ft : FieldType) :
  NoDup (keys self) -> NoDup (keys (add_field self column ft)).
Proof.
  intros H. unfold keys, add_field. simpl.
  now apply (NoDup_keys_set str_eqb str_eqb_eq).
Qed.

(** C9. Either operation of the schema builder, applied twice to the
    same line, gives the schema it gives when applied once.  A geometry
    line whose column is already in the schema replaces the converter
    of that column where it stands; for a column that is not there it
    appends the column. *)
Theorem schema_builder_idempotent
        (Body : Type)
        (load_body : Wkb.geom_type -> bool -> bytes -> bytes -> result Body)
        (wkt_dumps : Wkb.geojson Body -> result pystr) :
  let add_geometry := add_geometry_column_from_ddl load_body wkt_dumps in
  let geometry := geometry_field_type load_body wkt_dumps in
  (forall self line,
      add_fields_from_create_table_ddl
        (add_fields_from_create_table_ddl self line) line
      = add_fields_from_create_table_ddl self line)
  /\ (forall self line,
         add_geometry (add_geometry self line) line = add_geometry self line)
  /\ (forall self line ddl_match,
         Re.search geometry_column_re line true = Some ddl_match ->
         let column := Re.group ddl_match (txt "column_name") in
         (In column (keys self) ->
          keys (add_geometry self line) = keys self
          /\ Dict.get str_eqb column (_fields (add_geometry self line))
             = Some geometry
          /\ forall other, other <> column ->
               Dict.get str_eqb other (_fields (add_geometry self line))
               = Dict.get str_eqb other (_fields self))
         /\ (~ In column (keys self) ->
             _fields (add_geometry self line)
             = _fields self ++ [(column, geometry)])).
Proof.
  intros add_geometry geometry. subst add_geometry geometry.
  split; [|split].
  - intros self line. unfold add_fields_from_create_table_ddl.
    destruct (Re.search create_table_re line false) as [m|] eqn:E.
    + cbn [_fields]. rewrite (update_update str_eqb str_eqb_eq); [reflexivity|].
      apply (NoDup_keys_of_pairs str_eqb str_eqb_eq).
    + reflexivity.
  - intros self line. unfold add_geometry_column_from_ddl.
    destruct (Re.search geometry_column_re line true) as [m|] eqn:E.
    + unfold add_field. cbn [_fields name].
      now rewrite (set_set str_eqb str_eqb_eq).
    + reflexivity.
  - intros self line m E column. unfold add_geometry_column_from_ddl.
    rewrite E. fold column. unfold add_field, keys. cbn [_fields].
    split.
    + intros Hin. split; [|split].
      * now apply (keys_set_present str_eqb str_eqb_eq).
      * apply (get_set_same str_eqb str_eqb_eq).
      * intros other Hne. now apply (get_set_other str_eqb str_eqb_eq).
    + intros Hnin. now apply (set_absent str_eqb str_eqb_eq).
Qed.

Lemma schema_builder_idempotent_witness :
  let line := line_of "SELECT AddGeometryColumn('roads', 'geom', 4326, 'LINESTRING', 2);" in
  let after_create :=
    add_fields_from_create_table_ddl TableSchema_new
      (line_of "CREATE TABLE roads(id integer, geom character varying, cost double precision);") in
  keys (add_geometry_column_from_ddl no_load_body no_wkt_dumps
          after_create line)
  = [txt "id"; txt "geom"; txt "cost"]
  /\ _fields (add_geometry_column_from_ddl no_load_body no_wkt_dumps
                TableSchema_new line)
     = [(txt "geom", geometry_field_type no_load_body no_wkt_dumps)].
Proof.
  intros line after_create.
  destruct (schema_builder_idempotent no_load_body no_wkt_dumps)
    as (_ & _ & H).
  assert (E : Re.search geometry_column_re line true
              = Some [(txt "dimension", txt "2"); (txt "type", txt "LINESTRING");
                      (txt "srid", txt "4326"); (txt "column_name", txt "geom");
                      (txt "table_name", txt "roads")]) by reflexivity.
  split.
  - destruct (H after_create line _ E) as [Hin _].
    apply Hin. simpl. right. left. reflexivity.
  - destruct (H TableSchema_new line _ E) as [_ Hnin].
    apply Hnin. simpl. tauto.
Defined.

(** ** The reader under the [sql] dialect *)

Lemma add_char_ok (c : ascii) (fs : list pystr) (f : pystr)
      (st : Csv.parser_state) :
  (Z.of_nat (length f) < Csv.field_limit)%Z ->
  Csv.parse_add_char c (mk fs f st) = Ok (mk fs (c :: f) st).
Proof.
  intros H. unfold Csv.parse_add_char, mk. cbn [Csv.field Csv.fields Csv.state].
  replace (Csv.field_limit <=? Z.of_nat (length f))%Z with false;
    [reflexivity|].
  symmetry. apply Z.leb_gt. exact H.
Qed.

Lemma parse_line_app (a b : pystr) (r : Csv.reader) :
  Csv.parse_line sql (a ++ b) r
  = (r' <- Csv.parse_line sql a r ;; Csv.parse_line sql b r').
Proof.
  revert r. induction a as [|c a IH]; intros r; simpl; [reflexivity|].
  destruct (Csv.parse_process_char sql r (Some c)); simpl; auto.
Qed.

(** Inside quotes every character but the quote is kept. *)
Lemma quoted_body (s : pystr) (fs : list pystr) (f : pystr) :
  forallb (fun c => negb (Ascii.eqb c QUOTE)) s = true ->
  (Z.of_nat (length f + length s) <= Csv.field_limit)%Z ->
  Csv.parse_line sql s (mk fs f Csv.IN_QUOTED_FIELD)
  = Ok (mk fs (rev s ++ f) Csv.IN_QUOTED_FIELD).
Proof.
  revert f. induction s as [|c s IH]; intros f Hq Hlen; [reflexivity|].
  cbn [forallb] in Hq. apply andb_true_iff in Hq as [Hc Hq].
  apply negb_true_iff in Hc.
  cbn [Csv.parse_line]. unfold Csv.parse_process_char at 1.
  cbn [mk Csv.state Csv.quotechar sql]. rewrite Hc.
  fold (mk fs f Csv.IN_QUOTED_FIELD).
  rewrite add_char_ok by (cbn [length] in Hlen; lia).
  cbn [bind]. rewrite IH; [|assumption|cbn [length] in *; lia].
  cbn [rev]. now rewrite <- app_assoc.
Qed.

(** Outside quotes every character but the comma and the newlines is
    kept. *)
Lemma bare_body (s : pystr) (fs : list pystr) (f : pystr) :
  forallb (fun c => negb (Ascii.eqb c COMMA) && negb (Csv.is_newline c)) s
  = true ->
  (Z.of_nat (length f + length s) <= Csv.field_limit)%Z ->
  Csv.parse_line sql s (mk fs f Csv.IN_FIELD)
  = Ok (mk fs (rev s ++ f) Csv.IN_FIELD).
Proof.
  revert f. induction s as [|c s IH]; intros f Hq Hlen; [reflexivity|].
  cbn [forallb] in Hq. apply andb_true_iff in Hq as [Hc Hq].
  apply andb_true_iff in Hc as [Hc Hn].
  apply negb_true_iff in Hc, Hn.
  cbn [Csv.parse_line]. unfold Csv.parse_process_char at 1.
  cbn [mk Csv.state Csv.delimiter sql]. rewrite Hc, Hn.
  fold (mk fs f Csv.IN_FIELD).
  rewrite add_char_ok by (cbn [length] in Hlen; lia).
  cbn [bind]. rewrite IH; [|assumption|cbn [length] in *; lia].
  cbn [rev]. now rewrite <- app_assoc.
Qed.

(** Blanks before a field are skipped. *)
Lemma leading_blanks (n : nat) (fs : list pystr) :
  Csv.parse_line sql (repeat SP n) (mk fs [] Csv.START_FIELD)
  = Ok (mk fs [] Csv.START_FIELD).
Proof.
  induction n as [|n IH]; [reflexivity|].
  cbn [repeat Csv.parse_line]. exact IH.
Qed.

(** At the start of a record a character that is no newline is read as
    at the start of a field. *)
Lemma start_record_char (c : ascii) (fs : list pystr) (f : pystr) :
  Csv.is_newline c = false ->
  Csv.parse_process_char sql (mk fs f Csv.START_RECORD) (Some c)
  = Csv.parse_process_char sql (mk fs f Csv.START_FIELD) (Some c).
Proof.
  intros H. unfold Csv.parse_process_char.
  cbn [mk Csv.state]. rewrite H.
  repeat match goal with
         | |- context [if ?b then _ else _] => destruct b
         end; try reflexivity.
  unfold Csv.parse_add_char. cbn [Csv.field Csv.fields Csv.state].
  destruct (Csv.field_limit <=? _)%Z; reflexivity.
Qed.

Lemma first_bare_char (c : ascii) (fs : list pystr) :
  Csv.is_newline c = false -> Ascii.eqb c QUOTE = false ->
  Ascii.eqb c SP = false -> Ascii.eqb c COMMA = false ->
  Csv.parse_process_char sql (mk fs [] Csv.START_FIELD) (Some c)
  = Ok (mk fs [c] Csv.IN_FIELD).
Proof.
  intros Hn Hq Hs Hc. unfold Csv.parse_process_char.
  cbn [mk Csv.state Csv.quotechar Csv.delimiter Csv.skipinitialspace sql].
  rewrite Hn, Hq, Hs, Hc. cbn [andb].
  fold (mk fs [] Csv.START_FIELD). rewrite add_char_ok by (vm_compute; reflexivity).
  reflexivity.
Qed.

(** One literal and the comma after it add one field: the text of the
    literal, without its quotes. *)
Lemma literal_then_comma (n : nat) (l : literal) (fs : list pystr) :
  literal_ok l = true ->
  Csv.parse_line sql (repeat SP n ++ literal_text l ++ [COMMA])
                 (mk fs [] Csv.START_FIELD)
  = Ok (mk (fs ++ [literal_value l]) [] Csv.START_FIELD).
Proof.
  intros Hok. rewrite parse_line_app, leading_blanks. cbn [bind].
  destruct l as [s|s]; cbn [literal_text literal_value literal_ok] in *.
  - apply andb_true_iff in Hok as [Hq Hlen].
    change ((QUOTE :: s ++ [QUOTE]) ++ [COMMA])
      with (QUOTE :: (s ++ [QUOTE]) ++ [COMMA]).
    rewrite <- app_assoc. cbn [Csv.parse_line].
    change (Csv.parse_process_char sql (mk fs [] Csv.START_FIELD) (Some QUOTE))
      with (Ok (mk fs [] Csv.IN_QUOTED_FIELD)).
    cbn [bind]. rewrite parse_line_app, quoted_body; [|assumption|].
    + cbn [bind]. rewrite app_nil_r.
      change (Csv.parse_line sql ([QUOTE] ++ [COMMA])
                (mk fs (rev s) Csv.IN_QUOTED_FIELD))
        with (Ok (mk (fs ++ [rev (rev s)]) [] Csv.START_FIELD)).
      now rewrite rev_involutive.
    + unfold within_limit in Hlen. apply Z.leb_le in Hlen. exact Hlen.
  - apply andb_true_iff in Hok as [Hok Hlen].
    apply andb_true_iff in Hok as [Hbody Hhead].
    unfold within_limit in Hlen. apply Z.leb_le in Hlen.
    destruct s as [|c s]; [reflexivity|].
    cbn [forallb] in Hbody. apply andb_true_iff in Hbody as [Hc Hbody].
    apply andb_true_iff in Hc as [Hc Hn].
    apply andb_true_iff in Hhead as [Hs Hq].
    apply negb_true_iff in Hc, Hn, Hs, Hq.
    change ((c :: s) ++ [COMMA]) with (c :: s ++ [COMMA]).
    cbn [Csv.parse_line]. rewrite first_bare_char by assumption.
    cbn [bind]. rewrite parse_line_app, bare_body; [|assumption|].
    + cbn [bind].
      change (Csv.parse_line sql [COMMA] (mk fs (rev s ++ [c]) Csv.IN_FIELD))
        with (Ok (mk (fs ++ [rev (rev s ++ [c])]) [] Csv.START_FIELD)).
      now rewrite rev_app_distr, rev_involutive.
    + cbn [length] in *. lia.
Qed.

(** The last literal and the end of the line add the last field. *)
Lemma literal_then_end (n : nat) (l : literal) (fs : list pystr) :
  literal_ok l = true ->
  (r <- Csv.parse_line sql (repeat SP n ++ literal_text l)
                       (mk fs [] Csv.START_FIELD) ;;
   Csv.parse_process_char sql r None)
  = Ok (mk (fs ++ [literal_value l]) [] Csv.START_RECORD).
Proof.
  intros Hok. rewrite parse_line_app, leading_blanks. cbn [bind].
  destruct l as [s|s]; cbn [literal_text literal_value literal_ok] in *.
  - apply andb_true_iff in Hok as [Hq Hlen].
    cbn [Csv.parse_line].
    change (Csv.parse_process_char sql (mk fs [] Csv.START_FIELD) (Some QUOTE))
      with (Ok (mk fs [] Csv.IN_QUOTED_FIELD)).
    cbn [bind]. rewrite parse_line_app, quoted_body; [|assumption|].
    + cbn [bind]. rewrite app_nil_r.
      change (Csv.parse_line sql [QUOTE] (mk fs (rev s) Csv.IN_QUOTED_FIELD))
        with (Ok (mk fs (rev s) Csv.QUOTE_IN_QUOTED_FIELD)).
      cbn [bind].
      change (Csv.parse_process_char sql
                (mk fs (rev s) Csv.QUOTE_IN_QUOTED_FIELD) None)
        with (Ok (mk (fs ++ [rev (rev s)]) [] Csv.START_RECORD)).
      now rewrite rev_involutive.
    + unfold within_limit in Hlen. apply Z.leb_le in Hlen. exact Hlen.
  - apply andb_true_iff in Hok as [Hok Hlen].
    apply andb_true_iff in Hok as [Hbody Hhead].
    unfold within_limit in Hlen. apply Z.leb_le in Hlen.
    destruct s as [|c s]; [reflexivity|].
    cbn [forallb] in Hbody. apply andb_true_iff in Hbody as [Hc Hbody].
    apply andb_true_iff in Hc as [Hc Hn].
    apply andb_true_iff in Hhead as [Hs Hq].
    apply negb_true_iff in Hc, Hn, Hs, Hq.
    cbn [Csv.parse_line]. rewrite first_bare_char by assumption.
    cbn [bind]. rewrite bare_body; [|assumption|].
    + cbn [bind].
      change (Csv.parse_process_char sql (mk fs (rev s ++ [c]) Csv.IN_FIELD)
                None)
        with (Ok (mk (fs ++ [rev (rev s ++ [c])]) [] Csv.START_RECORD)).
      now rewrite rev_app_distr, rev_involutive.
    + cbn [length] in *. lia.
Qed.

Lemma row_text_cons (x y : nat * literal) (lits : list (nat * literal)) :
  row_text (x :: y :: lits)
  = (repeat SP (fst x) ++ literal_text (snd x) ++ [COMMA])
    ++ row_text (y :: lits).
Proof.
  unfold row_text. cbn [map Py.join]. now rewrite <- !app_assoc.
Qed.

(** The fields of a row text are the values of its literals. *)
Lemma row_fields (lits : list (nat * literal)) (fs : list pystr) :
  lits <> [] ->
  forallb (fun nl => literal_ok (snd nl)) lits = true ->
  (r <- Csv.parse_line sql (row_text lits) (mk fs [] Csv.START_FIELD) ;;
   Csv.parse_process_char sql r None)
  = Ok (mk (fs ++ map (fun nl => literal_value (snd nl)) lits) []
           Csv.START_RECORD).
Proof.
  revert fs. induction lits as [|x lits IH]; intros fs Hne Hok;
    [contradiction|].
  cbn [forallb] in Hok. apply andb_true_iff in Hok as [Hx Hok].
  destruct lits as [|y lits].
  - unfold row_text. cbn [map Py.join]. now apply literal_then_end.
  - rewrite row_text_cons, parse_line_app, literal_then_comma by assumption.
    cbn [bind]. rewrite IH by (discriminate || assumption).
    cbn [map]. now rewrite <- app_assoc.
Qed.

Lemma row_text_head (lits : list (nat * literal)) (c : ascii) (t : pystr) :
  forallb (fun nl => literal_ok (snd nl)) lits = true ->
  row_text lits = c :: t -> Csv.is_newline c = false.
Proof.
  destruct lits as [|[n l] lits]; [discriminate|].
  intros Hok. cbn [forallb snd] in Hok. apply andb_true_iff in Hok as [Hl _].
  assert (H : forall rest, (repeat SP n ++ literal_text l) ++ rest = c :: t ->
              (rest = [] \/ exists t', rest = COMMA :: t') ->
              Csv.is_newline c = false).
  { intros rest E Hrest. destruct n as [|n].
    - destruct l as [s|[|c' s]]; cbn in E.
      + injection E as <- _. reflexivity.
      + destruct Hrest as [->|[t' ->]]; [discriminate|].
        injection E as <- _. reflexivity.
      + injection E as <- _. cbn in Hl.
        apply andb_true_iff in Hl as [Hl _].
        apply andb_true_iff in Hl as [Hl _].
        apply andb_true_iff in Hl as [Hl _].
        apply andb_true_iff in Hl as [_ Hl].
        now apply negb_true_iff in Hl.
    - cbn in E. injection E as <- _. reflexivity. }
  destruct lits as [|y lits]; intros E.
  - apply (H []); [|left; reflexivity].
    rewrite app_nil_r. exact E.
  - rewrite row_text_cons in E. rewrite <- !app_assoc in E.
    apply (H ([COMMA] ++ row_text (y :: lits))).
    + rewrite <- app_assoc. exact E.
    + right. eexists. reflexivity.
Qed.

Lemma reader_next_row_text (lits : list (nat * literal)) :
  forallb (fun nl => literal_ok (snd nl)) lits = true ->
  row_text lits <> [] ->
  Csv.reader_next sql [row_text lits]
  = Ok (map (fun nl => literal_value (snd nl)) lits, []).
Proof.
  intros Hok Hne.
  assert (Hlits : lits <> []) by (intros ->; apply Hne; reflexivity).
  pose proof (row_fields [] Hlits Hok) as H.
  unfold Csv.reader_next, Csv.read_lines.
  assert (E : Csv.parse_line sql (row_text lits) Csv.parse_reset
              = Csv.parse_line sql (row_text lits) (mk [] [] Csv.START_FIELD)).
  { destruct (row_text lits) as [|c t] eqn:Et; [contradiction|].
    cbn [Csv.parse_line].
    change Csv.parse_reset with (mk [] [] Csv.START_RECORD).
    rewrite start_record_char; [reflexivity|].
    eapply row_text_head; eassumption. }
  rewrite E.
  destruct (Csv.parse_line sql (row_text lits) (mk [] [] Csv.START_FIELD))
    as [r|e]; cbn [bind] in H |- *; [|discriminate H].
  rewrite H. reflexivity.
Qed.

(** ** Rows of any text *)

Lemma reader_next_rest (values : pystr) (row : list pystr)
      (rest : list pystr) :
  Csv.reader_next sql [values] = Ok (row, rest) -> rest = [].
Proof.
  unfold Csv.reader_next, Csv.read_lines.
  destruct (Csv.parse_line sql values Csv.parse_reset) as [r1|e];
    cbn [bind]; [|discriminate].
  destruct (Csv.parse_process_char sql r1 None) as [r2|e];
    cbn [bind]; [|discriminate].
  destruct (Csv.parser_state_eqb (Csv.state r2) Csv.START_RECORD).
  - intros H; now inversion H.
  - destruct (_ || _); [|discriminate]. cbn. intros H; now inversion H.
Qed.

Lemma step_in_record (c : ascii) (r r' : Csv.reader) :
  Csv.is_newline c = false ->
  in_record (Csv.state r) = true \/ Csv.state r = Csv.START_RECORD ->
  Csv.parse_process_char sql r (Some c) = Ok r' ->
  in_record (Csv.state r') = true.
Proof.
  intros Hn Hst. destruct r as [fs f st]. cbn [Csv.state] in Hst.
  unfold Csv.parse_process_char, Csv.parse_add_char, Csv.set_state,
    Csv.parse_save_field, bind.
  cbn [Csv.state Csv.fields Csv.field Csv.quotechar Csv.delimiter
       Csv.skipinitialspace Csv.doublequote Csv.strict sql].
  rewrite Hn.
  destruct st; try (destruct Hst; discriminate);
    repeat match goal with
           | |- context [if ?b then _ else _] => destruct b
           end;
    intros H; inversion H; reflexivity.
Qed.

Lemma line_in_record (line : pystr) (r r' : Csv.reader) :
  Forall (fun c => Csv.is_newline c = false) line ->
  in_record (Csv.state r) = true ->
  Csv.parse_line sql line r = Ok r' ->
  in_record (Csv.state r') = true.
Proof.
  intros Hall. revert r. induction Hall as [|c line Hc Hall IH]; intros r Hr.
  - cbn. intros H; inversion H; subst; assumption.
  - cbn [Csv.parse_line].
    destruct (Csv.parse_process_char sql r (Some c)) as [r1|e] eqn:E;
      cbn [bind]; [|discriminate].
    apply IH. eapply step_in_record; eauto.
Qed.

Lemma eol_in_record (r r2 : Csv.reader) :
  in_record (Csv.state r) = true ->
  Csv.parse_process_char sql r None = Ok r2 ->
  (Csv.state r2 = Csv.START_RECORD /\ Csv.fields r2 <> [])
  \/ Csv.state r2 = Csv.IN_QUOTED_FIELD.
Proof.
  destruct r as [fs f st]. cbn [Csv.state]. intros Hst.
  unfold Csv.parse_process_char, Csv.set_state, Csv.parse_save_field.
  cbn [Csv.state Csv.fields Csv.field].
  destruct st; try discriminate; intros H; inversion H; cbn;
    try (left; split; [reflexivity|now destruct fs]);
    right; reflexivity.
Qed.

(** A text that is not empty and has no newline gives a row that is not
    empty. *)
Lemma reader_next_nonempty (values : pystr) (row rest : list pystr) :
  values <> [] ->
  Forall (fun c => Csv.is_newline c = false) values ->
  Csv.reader_next sql [values] = Ok (row, rest) ->
  row <> [].
Proof.
  intros Hne Hall. destruct values as [|c values]; [contradiction|].
  inversion Hall as [|? ? Hc Hall']; subst.
  unfold Csv.reader_next, Csv.read_lines. cbn [Csv.parse_line].
  destruct (Csv.parse_process_char sql Csv.parse_reset (Some c))
    as [r0|e] eqn:E0; cbn [bind]; [|discriminate].
  assert (H0 : in_record (Csv.state r0) = true).
  { eapply step_in_record; [exact Hc| |exact E0]. right; reflexivity. }
  destruct (Csv.parse_line sql values r0) as [r1|e] eqn:E1;
    cbn [bind]; [|discriminate].
  pose proof (@line_in_record values r0 r1 Hall' H0 E1) as H1.
  destruct (Csv.parse_process_char sql r1 None) as [r2|e] eqn:E2;
    cbn [bind]; [|discriminate].
  destruct (@eol_in_record r1 r2 H1 E2) as [[Hs Hf]|Hs]; rewrite Hs; cbn.
  - intros H; inversion H; subst; assumption.
  - rewrite orb_true_r. intros H; inversion H.
    now destruct (Csv.fields r2).
Qed.

(** ** [DictReader] and the converters of a row *)

Lemma NoDup_map_Some (l : list pystr) : NoDup l -> NoDup (map Some l).
Proof.
  induction 1 as [|a l Ha Hl IH]; cbn; constructor; [|assumption].
  intros Hin. apply in_map_iff in Hin as (b & Hb & Hin).
  inversion Hb; subst. contradiction.
Qed.

Lemma fst_combine (A B : Type) (a : list A) (b : list B) :
  length a = length b -> map fst (combine a b) = a.
Proof.
  revert b. induction a as [|x a IH]; intros [|y b] H; cbn in *;
    try discriminate; [reflexivity|].
  f_equal. apply IH. now injection H.
Qed.

Lemma DictReader_next_exact (fieldnames : list pystr) (values : pystr)
      (row rest : list pystr) :
  NoDup fieldnames ->
  Csv.reader_next sql [values] = Ok (row, rest) ->
  row <> [] ->
  length row = length fieldnames ->
  DictReader_next sql fieldnames [values]
  = Ok (combine (map Some fieldnames) (map Text row)).
Proof.
  intros Hnd Hrow Hne Hlen. unfold DictReader_next.
  cbn [length Csv.next_nonempty_row]. rewrite Hrow. cbn [bind].
  destruct row as [|f row]; [contradiction|]. cbn [bind].
  rewrite Hlen, Nat.ltb_irrefl.
  rewrite (of_pairs_NoDup key_eqb key_eqb_eq); [reflexivity|].
  rewrite fst_combine by (now rewrite !length_map).
  now apply NoDup_map_Some.
Qed.

Lemma DictReader_next_short (fieldnames : list pystr) (values : pystr)
      (row rest : list pystr) :
  Csv.reader_next sql [values] = Ok (row, rest) ->
  length row < length fieldnames ->
  DictReader_next sql fieldnames [values]
  = Raise (match row with [] => StopIteration | _ :: _ => TypeError end).
Proof.
  intros Hrow Hlen. unfold DictReader_next.
  cbn [length Csv.next_nonempty_row]. rewrite Hrow. cbn [bind].
  pose proof (reader_next_rest _ Hrow) as ->.
  destruct row as [|f row]; [reflexivity|]. cbn [bind].
  replace (Nat.ltb (length fieldnames) (length (f :: row))) with false
    by (symmetry; apply Nat.ltb_ge; lia).
  replace (Nat.ltb (length (f :: row)) (length fieldnames)) with true
    by (symmetry; apply Nat.ltb_lt; lia).
  reflexivity.
Qed.

Lemma get_in_NoDup (k : pystr) (ft : FieldType)
      (d : list (pystr * FieldType)) :
  NoDup (Dict.keys d) -> In (k, ft) d -> Dict.get str_eqb k d = Some ft.
Proof.
  induction d as [|[k' v'] d IH]; intros Hnd Hin; [contradiction|].
  cbn in *. inversion Hnd as [|? ? Hk Hnd']; subst.
  destruct Hin as [E|Hin].
  - inversion E; subst. now rewrite str_eqb_refl.
  - destruct (str_eqb k' k) eqn:E; [|auto].
    apply str_eqb_eq in E; subst. exfalso. apply Hk.
    change k with (fst (k, ft)). now apply in_map.
Qed.

Lemma convert_item_field (table_schema : TableSchema)
      (col : pystr * FieldType) (raw : pystr) :
  Dict.get str_eqb (fst col) (_fields table_schema) = Some (snd col) ->
  convert_item table_schema (Some (fst col), Text raw) = field_value col raw.
Proof.
  intros H. unfold convert_item, get_converter, field_value. cbn [fst snd].
  rewrite H. unfold FieldType_call, is_null_value.
  destruct (str_eqb raw (_null_value (snd col))); reflexivity.
Qed.

Lemma convert_items_fields (table_schema : TableSchema)
      (cols : list (pystr * FieldType)) (row : list pystr) :
  (forall col, In col cols ->
     Dict.get str_eqb (fst col) (_fields table_schema) = Some (snd col)) ->
  mapM (convert_item table_schema)
       (combine (map Some (map fst cols)) (map Text row))
  = mapM (fun p => field_value (fst p) (snd p)) (combine cols row).
Proof.
  revert row. induction cols as [|col cols IH]; intros row H; [reflexivity|].
  destruct row as [|raw row]; [reflexivity|].
  cbn [map combine mapM fst snd].
  rewrite convert_item_field by (apply H; left; reflexivity).
  rewrite IH by (intros c Hc; apply H; right; exact Hc).
  reflexivity.
Qed.

Lemma mapM_total (A B : Type) (f : A -> result B) (l : list A) :
  (forall a, In a l -> exists b, f a = Ok b) -> exists bs, mapM f l = Ok bs.
Proof.
  induction l as [|a l IH]; intros H; cbn.
  - eexists; reflexivity.
  - destruct (H a (or_introl eq_refl)) as [b ->].
    destruct IH as [bs ->]; [intros; apply H; now right|].
    eexists; reflexivity.
Qed.

Lemma field_values_keys (cols : list (pystr * FieldType))
      (row : list pystr) (r : record) :
  length row = length cols ->
  mapM (fun p => field_value (fst p) (snd p)) (combine cols row) = Ok r ->
  map fst r = map Some (map fst cols).
Proof.
  revert row r. induction cols as [|col cols IH]; intros [|raw row] r Hlen;
    cbn in Hlen; try discriminate.
  - cbn. intros H; inversion H; reflexivity.
  - cbn [combine mapM fst snd].
    destruct (field_value col raw) as [kv|e] eqn:E; cbn [bind]; [|discriminate].
    destruct (mapM _ (combine cols row)) as [r'|e] eqn:E'; cbn [bind];
      [|discriminate].
    intros H; inversion H; subst. cbn [map]. f_equal.
    + unfold field_value in E.
      destruct (str_eqb raw _); [now inversion E|].
      destruct (_type_converter _ _); cbn in E; now inversion E.
    + eapply IH; [|exact E']. now injection Hlen.
Qed.

Lemma parse_insert_values_unfold (values : pystr) (s : TableSchema) :
  parse_insert_values values s
  = (data <- DictReader_next sql (keys s) [values] ;;
     mapM (convert_item s) data).
Proof. reflexivity. Qed.

Lemma parse_insert_values_exact (values : pystr) (table_schema : TableSchema)
      (row rest : list pystr) :
  NoDup (keys table_schema) ->
  Csv.reader_next sql [values] = Ok (row, rest) ->
  row <> [] ->
  length row = length (keys table_schema) ->
  parse_insert_values values table_schema
  = mapM (fun p => field_value (fst p) (snd p))
         (combine (_fields table_schema) row).
Proof.
  intros Hnd Hrow Hne Hlen.
  rewrite parse_insert_values_unfold.
  erewrite DictReader_next_exact by eassumption. cbn [bind].
  apply convert_items_fields.
  intros [k ft] Hin. now apply get_in_NoDup.
Qed.

(** ** The row parser *)

(** C3. For a row text (not empty, without newline) whose number of
    fields is the number of columns, the row parser gives, column by
    column in schema order, [None] where the raw text is the null token
    of the column and the converter's result elsewhere; the keys of the
    record are the column names; and the record is produced as soon as
    every converter accepts its field. *)
Theorem row_of_matching_width (values : pystr) (table_schema : TableSchema)
        (row rest : list pystr) :
  NoDup (keys table_schema) ->
  values <> [] ->
  Forall (fun c => Csv.is_newline c = false) values ->
  Csv.reader_next sql [values] = Ok (row, rest) ->
  length row = length (keys table_schema) ->
  parse_insert_values values table_schema
  = mapM (fun p => field_value (fst p) (snd p))
         (combine (_fields table_schema) row)
  /\ (forall r, parse_insert_values values table_schema = Ok r ->
                map fst r = map Some (keys table_schema))
  /\ ((forall p, In p (combine (_fields table_schema) row) ->
                 exists kv, field_value (fst p) (snd p) = Ok kv) ->
      exists r, parse_insert_values values table_schema = Ok r).
Proof.
  intros Hnd Hne Hall Hrow Hlen.
  assert (Hrne : row <> []) by (eapply reader_next_nonempty; eassumption).
  assert (E := parse_insert_values_exact).
  specialize (E values table_schema row rest Hnd Hrow Hrne Hlen).
  split; [exact E|]. rewrite E. split.
  - intros r Hr. eapply field_values_keys; [|exact Hr].
    unfold keys, Dict.keys in Hlen. now rewrite length_map in Hlen.
  - intros Hok. now apply mapM_total.
Qed.

Lemma row_of_matching_width_witness :
  let table_schema :=
    add_fields_from_create_table_ddl TableSchema_new
      (line_of "CREATE TABLE roads(id integer, name character varying, cost double precision);") in
  parse_insert_values (txt "1, 'Main St', 12.5") table_schema
  = mapM (fun p => field_value (fst p) (snd p))
         (combine (_fields table_schema)
                  [txt "1"; txt "Main St"; txt "12.5"]).
Proof.
  intros table_schema.
  apply (@row_of_matching_width (txt "1, 'Main St', 12.5") table_schema
           [txt "1"; txt "Main St"; txt "12.5"] []).
  - apply add_fields_NoDup. constructor.
  - discriminate.
  - repeat constructor.
  - reflexivity.
  - reflexivity.
Defined.

(** C8. In a row text written from literals, blanks and commas, every
    literal is one field: a literal inside single quotes gives the text
    between the quotes, commas included, and the blanks after a comma
    are dropped.  The row parser converts exactly these raw values. *)
Theorem quoted_literal_is_one_field (lits : list (nat * literal)) :
  forallb (fun nl => literal_ok (snd nl)) lits = true ->
  row_text lits <> [] ->
  Csv.reader_next sql [row_text lits]
  = Ok (map (fun nl => literal_value (snd nl)) lits, [])
  /\ forall table_schema,
       NoDup (keys table_schema) ->
       length lits = length (keys table_schema) ->
       parse_insert_values (row_text lits) table_schema
       = mapM (fun p => field_value (fst p) (snd p))
              (combine (_fields table_schema)
                       (map (fun nl => literal_value (snd nl)) lits)).
Proof.
  intros Hok Hne.
  pose proof (reader_next_row_text lits Hok Hne) as Hrow.
  split; [exact Hrow|].
  intros table_schema Hnd Hlen.
  eapply parse_insert_values_exact; [exact Hnd|exact Hrow| |].
  - destruct lits; [exfalso; apply Hne; reflexivity|discriminate].
  - now rewrite length_map.
Qed.

Lemma quoted_literal_is_one_field_witness :
  Csv.reader_next sql [txt "7,   'Main St, east', 12.5"]
  = Ok ([txt "7"; txt "Main St, east"; txt "12.5"], []).
Proof.
  apply (@quoted_literal_is_one_field
           [(0, Bare (txt "7")); (3, Quoted (txt "Main St, east"));
            (1, Bare (txt "12.5"))]).
  - reflexivity.
  - discriminate.
Defined.

(** C8 fails as stated: only blanks are dropped after a comma.  After
    a tab the field has begun, so the quote that follows is an ordinary
    character and the literal is split at its comma; the tab stays in
    the field. *)
Lemma tab_before_quote_splits_literal :
  Csv.reader_next sql [txt "1," ++ TAB :: txt "'Main St, east'"]
  = Ok ([txt "1"; TAB :: txt "'Main St"; txt "east'"], [])
  /\ Csv.reader_next sql [txt "1," ++ SP :: txt "'Main St, east'"]
     = Ok ([txt "1"; txt "Main St, east"], [])
  /\ parse_insert_values (txt "1," ++ TAB :: txt "'Main St, east'")
       (add_fields_from_create_table_ddl TableSchema_new
          (line_of "CREATE TABLE roads(id integer, name character varying);"))
     = Ok [(Some (txt "id"), PInt 1);
           (Some (txt "name"), PStr (TAB :: txt "'Main St"));
           (None, PStr (txt "[" ++ DQUOTE :: txt "east'" ++ DQUOTE :: txt "]"))].
Proof.
  repeat split.
Qed.

(** ** Rows with missing fields *)

Lemma insert_line_is_no_ddl (line : pystr) (m : Re.captures) :
  Re.search insert_re line false = Some m ->
  Py.startswith (Py.lower line) (txt "create table") = false
  /\ Py.startswith (Py.lower line) (txt "select addgeometrycolumn") = false.
Proof.
  unfold insert_re. rewrite search_bol. intros H.
  apply matches_lit_head in H as (c & s & -> & Hc).
  cbn in Hc. apply Ascii.eqb_eq in Hc. subst c. split; reflexivity.
Qed.

Lemma convert_lines_app
      (Body : Type)
      (load_body : Wkb.geom_type -> bool -> bytes -> bytes -> result Body)
      (wkt_dumps : Wkb.geojson Body -> result pystr)
      (a b : list pystr) (st : list record * TableSchema) :
  convert_lines load_body wkt_dumps (a ++ b) st
  = (st' <- convert_lines load_body wkt_dumps a st ;;
     convert_lines load_body wkt_dumps b st').
Proof.
  revert st. induction a as [|line a IH]; intros st; cbn; [reflexivity|].
  destruct (convert_line load_body wkt_dumps st line); cbn; auto.
Qed.

(** C1, as the code has it.  A row with fewer fields than the schema
    has columns makes the row parser raise (inside [DictReader], which
    cannot slice the key view to fill the missing fields): no record is
    appended and the run ends with that exception. *)
Theorem short_row_aborts
        (Body : Type)
        (load_body : Wkb.geom_type -> bool -> bytes -> bytes -> result Body)
        (wkt_dumps : Wkb.geojson Body -> result pystr)
        (g : globals) (self : DDLConverter)
        (before after : list pystr) (line : pystr)
        (records : list record) (table_schema : TableSchema)
        (insert_line : Re.captures) (row rest : list pystr) :
  convert_lines load_body wkt_dumps before ([], TableSchema_new)
  = Ok (records, table_schema) ->
  Re.search insert_re line false = Some insert_line ->
  Csv.reader_next sql [Re.group insert_line (txt "values")] = Ok (row, rest) ->
  length row < length (keys table_schema) ->
  let e := match row with [] => StopIteration | _ :: _ => TypeError end in
  parse_insert_values (Re.group insert_line (txt "values")) table_schema
  = Raise e
  /\ convert_line load_body wkt_dumps (records, table_schema) line = Raise e
  /\ convert load_body wkt_dumps g self (before ++ line :: after) = Raise e.
Proof.
  intros Hbefore Hline Hrow Hlen e.
  assert (Hparse : parse_insert_values (Re.group insert_line (txt "values"))
                     table_schema = Raise e).
  { rewrite parse_insert_values_unfold.
    erewrite DictReader_next_short by eassumption. reflexivity. }
  assert (Hstep : convert_line load_body wkt_dumps (records, table_schema) line
                  = Raise e).
  { unfold convert_line.
    destruct (@insert_line_is_no_ddl line insert_line Hline) as [-> ->].
    rewrite Hline, Hparse. reflexivity. }
  split; [exact Hparse|]. split; [exact Hstep|].
  unfold convert. rewrite convert_lines_app, Hbefore. cbn [bind convert_lines].
  rewrite Hstep. reflexivity.
Qed.

Lemma short_row_aborts_witness :
  convert no_load_body no_wkt_dumps
    {| g_output_file := txt "roads.csv"; g_output_format := txt "csv" |}
    {| input_file := txt "roads.sql"; output_file := txt "roads.csv";
       output_format := txt "csv" |}
    ([line_of "CREATE TABLE roads(id integer, name character varying, cost double precision);"]
     ++ line_of "(1, 'Main St');" :: [line_of "(2, 'Side St', 3.0);"])
  = Raise TypeError.
Proof.
  apply (@short_row_aborts unit no_load_body no_wkt_dumps _ _
           [line_of "CREATE TABLE roads(id integer, name character varying, cost double precision);"]
           [line_of "(2, 'Side St', 3.0);"]
           (line_of "(1, 'Main St');")
           []
           (add_fields_from_create_table_ddl TableSchema_new
              (line_of "CREATE TABLE roads(id integer, name character varying, cost double precision);"))
           [(txt "values", txt "1, 'Main St'")]
           [txt "1"; txt "Main St"] []).
  - reflexivity.
  - reflexivity.
  - reflexivity.
  - cbn. lia.
Defined.

(** ** The table-definition pattern *)

Lemma statement_end_ok (n : nat) (ending : pystr) (m : Re.captures) :
  In ending line_endings ->
  Re.matches false n statement_end (")"%char :: ending) m (fun _ x => Some x)
  = Some m.
Proof.
  intros H. cbn in H.
  repeat (destruct H as [<-|H]; [reflexivity|]). contradiction.
Qed.

Lemma statement_end_only (n : nat) (s : pystr) (m x : Re.captures) :
  Re.matches false n statement_end s m (fun _ y => Some y) = Some x ->
  exists ending, s = ")"%char :: ending /\ In ending line_endings.
Proof.
  unfold statement_end, line_endings.
  cbn [txt list_ascii_of_string Re.lit Re.matches Re.accepts existsb app].
  destruct s as [|a s]; [discriminate|].
  destruct (Ascii.eqb_spec a ")"%char) as [->|]; [|discriminate].
  intros H. exists s. split; [reflexivity|]. revert H.
  destruct s as [|b [|c [|d s]]]; cbn;
    repeat match goal with
           | |- context [Ascii.eqb ?p ?q] =>
               destruct (Ascii.eqb_spec p q) as [->|]
           end;
    cbn; intros H; try discriminate H; auto 10.
Qed.

Lemma ending_has_no_paren (ending : pystr) :
  In ending line_endings ->
  forallb (fun c => negb (Ascii.eqb c ")"%char)) ending = true.
Proof.
  intros H. cbn in H.
  repeat (destruct H as [<-|H]; [reflexivity|]). contradiction.
Qed.

(** After a text that still holds a closing parenthesis further on, the
    end of the statement does not match. *)
Lemma statement_end_inside (n : nat) (u ending : pystr)
      (m : Re.captures) :
  u <> [] -> In ending line_endings ->
  Re.matches false n statement_end (u ++ ")"%char :: ending) m
             (fun _ y => Some y) = None.
Proof.
  intros Hu He.
  destruct (Re.matches false n statement_end (u ++ ")"%char :: ending) m
              (fun _ y => Some y)) as [x|] eqn:E; [|reflexivity].
  exfalso. apply statement_end_only in E as (e' & Es & He').
  destruct u as [|a u]; [contradiction|].
  cbn in Es. injection Es as _ Es.
  apply ending_has_no_paren in He'. rewrite <- Es in He'.
  rewrite forallb_app in He'. cbn in He'.
  now rewrite andb_false_r in He'.
Qed.

Lemma accepts_dot (s : pystr) :
  forallb (fun c => negb (Ascii.eqb c LF)) s = true ->
  Forall (fun c => Re.accepts false Re.Dot c = true) s.
Proof.
  intros H. apply Forall_forall. intros c Hc.
  rewrite forallb_forall in H. cbn. now apply H.
Qed.

(** The pattern on a line of the shape: the groups are the name and the
    text between the parentheses. *)
Lemma search_create_table (table body ending : pystr) :
  table_name_ok table = true ->
  body <> [] ->
  forallb (fun c => negb (Ascii.eqb c LF)) body = true ->
  In ending line_endings ->
  Re.search create_table_re
    (txt "CREATE TABLE " ++ table ++ txt "(" ++ body ++ txt ")" ++ ending)
    false
  = Some [(txt "fields", body); (txt "table_name", table)].
Proof.
  intros Htable Hbody Hlf Hend.
  apply andb_true_iff in Htable as [Hne Htable].
  assert (Htne : table <> []) by (destruct table; [discriminate|discriminate]).
  unfold create_table_re. rewrite search_bol.
  change (Re.lit (txt ")")
            (Re.Cat (Re.Opt (Re.Chr (Re.OneOf (txt ";,")))) Re.Eol))
    with statement_end.
  set (n := length _).
  rewrite (@matches_lit_app false n (txt "CREATE TABLE ")
             (txt "CREATE TABLE "));
    [|repeat constructor].
  cbn [Re.matches].
  set (rest := txt "(" ++ body ++ txt ")" ++ ending).
  apply lazy_plus_skip.
  - exact Htne.
  - apply accepts_dot. rewrite forallb_forall in Htable |- *.
    intros c Hc. specialize (Htable c Hc).
    apply andb_true_iff in Htable. tauto.
  - intros u1 u2 Eu Hu1 Hu2.
    destruct u2 as [|c u2]; [contradiction|].
    assert (Hc : In c table)
      by (rewrite Eu; apply in_or_app; right; left; reflexivity).
    rewrite forallb_forall in Htable. specialize (Htable c Hc).
    apply andb_true_iff in Htable as [Hp _]. apply negb_true_iff in Hp.
    cbn [app txt list_ascii_of_string Re.lit Re.matches Re.accepts].
    now rewrite Hp.
  - subst rest.
    cbn [app txt list_ascii_of_string Re.lit Re.matches Re.accepts].
    rewrite Ascii.eqb_refl.
    change (")"%char :: ending) with ([")"%char] ++ ending).
    apply lazy_plus_skip.
    + exact Hbody.
    + now apply accepts_dot.
    + intros u1 u2 Eu Hu1 Hu2.
      now apply statement_end_inside.
    + cbn [app]. rewrite (@statement_end_ok n ending _ Hend).
      do 3 f_equal.
      * change (body ++ ")"%char :: ending)
          with (body ++ (")"%char :: ending)).
        now rewrite firstn_consumed.
      * f_equal.
        apply (firstn_consumed table ("("%char :: body ++ ")"%char :: ending)).
Qed.

(** ** Splitting the column list *)

Lemma split_single (a : pystr) :
  forallb (fun c => negb (Ascii.eqb c COMMA)) a = true ->
  Py.split COMMA a = [a].
Proof.
  induction a as [|c a IH]; intros H; [reflexivity|].
  cbn [forallb] in H. apply andb_true_iff in H as [Hc H].
  apply negb_true_iff in Hc. cbn [Py.split]. rewrite Hc, IH by assumption.
  reflexivity.
Qed.

Lemma split_app (a b : pystr) :
  forallb (fun c => negb (Ascii.eqb c COMMA)) a = true ->
  Py.split COMMA (a ++ COMMA :: b) = a :: Py.split COMMA b.
Proof.
  induction a as [|c a IH]; intros H.
  - cbn [app Py.split]. now rewrite Ascii.eqb_refl.
  - cbn [forallb] in H. apply andb_true_iff in H as [Hc H].
    apply negb_true_iff in Hc. cbn [app Py.split].
    rewrite Hc, IH by assumption. reflexivity.
Qed.

Lemma join_cons (sep p q : pystr) (pieces : list pystr) :
  Py.join sep (p :: q :: pieces) = p ++ sep ++ Py.join sep (q :: pieces).
Proof. reflexivity. Qed.

Lemma split_padded (pieces : list pystr) :
  pieces <> [] ->
  Forall (fun p => forallb (fun c => negb (Ascii.eqb c COMMA)) p = true)
         pieces ->
  Py.split COMMA (SP :: Py.join (txt ", ") pieces) = map (cons SP) pieces.
Proof.
  induction pieces as [|p pieces IH]; intros Hne Hall; [contradiction|].
  inversion Hall as [|? ? Hp Hall']; subst.
  destruct pieces as [|q pieces].
  - cbn [Py.join map]. now apply split_single.
  - rewrite join_cons.
    change (SP :: p ++ txt ", " ++ Py.join (txt ", ") (q :: pieces))
      with ((SP :: p) ++ COMMA :: SP :: Py.join (txt ", ") (q :: pieces)).
    rewrite split_app by assumption.
    rewrite IH by (discriminate || assumption). reflexivity.
Qed.

Lemma split_join (p : pystr) (pieces : list pystr) :
  Forall (fun p => forallb (fun c => negb (Ascii.eqb c COMMA)) p = true)
         (p :: pieces) ->
  Py.split COMMA (Py.join (txt ", ") (p :: pieces))
  = p :: map (cons SP) pieces.
Proof.
  intros Hall. inversion Hall as [|? ? Hp Hall']; subst.
  destruct pieces as [|q pieces].
  - cbn [Py.join map]. now apply split_single.
  - rewrite join_cons.
    change (p ++ txt ", " ++ Py.join (txt ", ") (q :: pieces))
      with (p ++ COMMA :: SP :: Py.join (txt ", ") (q :: pieces)).
    rewrite split_app by assumption.
    now rewrite split_padded by (discriminate || assumption).
Qed.

Lemma forallb_join (P : ascii -> bool) (sep : pystr) (pieces : list pystr) :
  forallb P sep = true ->
  Forall (fun p => forallb P p = true) pieces ->
  forallb P (Py.join sep pieces) = true.
Proof.
  intros Hsep Hall. induction Hall as [|p pieces Hp Hall IH]; [reflexivity|].
  destruct pieces as [|q pieces]; [exact Hp|].
  rewrite join_cons, !forallb_app, Hp, Hsep. exact IH.
Qed.

(** ** One column declaration *)

Lemma lstrip_pad (pad s : pystr) :
  forallb Py.isspace pad = true -> Py.lstrip (pad ++ s) = Py.lstrip s.
Proof.
  induction pad as [|c pad IH]; intros H; [reflexivity|].
  cbn [forallb] in H. apply andb_true_iff in H as [Hc H].
  cbn [app Py.lstrip]. rewrite Hc. auto.
Qed.

Lemma partition_at (a b : pystr) :
  forallb (fun c => negb (Ascii.eqb c SP)) a = true ->
  Py.partition SP (a ++ SP :: b) = (a, [SP], b).
Proof.
  induction a as [|c a IH]; intros H; [reflexivity|].
  cbn [forallb] in H. apply andb_true_iff in H as [Hc H].
  apply negb_true_iff in Hc. cbn [app Py.partition].
  rewrite Hc, IH by assumption. reflexivity.
Qed.

Lemma column_ok_parts (col : pystr * pystr) :
  column_ok col = true ->
  exists c cs l ls,
    fst col = c :: cs /\ rev (snd col) = l :: ls
    /\ Py.isspace c = false /\ Py.isspace l = false
    /\ forallb (fun x => negb (Py.isspace x) && negb (Ascii.eqb x COMMA))
               (fst col) = true
    /\ forallb (fun x => negb (Ascii.eqb x COMMA) && negb (Ascii.eqb x LF))
               (snd col) = true.
Proof.
  unfold column_ok. intros H.
  repeat (apply andb_true_iff in H as [H ?]).
  destruct (fst col) as [|c cs] eqn:Ec; [discriminate|].
  destruct (rev (snd col)) as [|l ls] eqn:El; [discriminate|].
  exists c, cs, l, ls. repeat split; try assumption.
  - match goal with
    | Hf : forallb _ (c :: cs) = true |- _ =>
        cbn [forallb] in Hf; apply andb_true_iff in Hf as [Hf _];
        apply andb_true_iff in Hf as [Hf _]; now apply negb_true_iff in Hf
    end.
  - now apply negb_true_iff.
Qed.

Lemma strip_column (pad : pystr) (col : pystr * pystr) :
  column_ok col = true ->
  forallb Py.isspace pad = true ->
  Py.strip (pad ++ column_text col) = column_text col.
Proof.
  intros Hok Hpad.
  destruct (column_ok_parts _ Hok) as (c & cs & l & ls & Ec & El & Hc & Hl & _).
  unfold Py.strip, Py.rstrip, column_text.
  rewrite lstrip_pad by assumption.
  rewrite Ec. cbn [app Py.lstrip]. rewrite Hc.
  change (c :: cs ++ SP :: snd col) with ((c :: cs) ++ SP :: snd col).
  rewrite rev_app_distr. cbn [rev]. rewrite El.
  cbn [app Py.lstrip]. rewrite Hl.
  assert (Et : snd col = rev (l :: ls)) by (now rewrite <- El, rev_involutive).
  rewrite Et. cbn [rev].
  repeat rewrite ?rev_app_distr, ?rev_involutive. cbn [rev app].
  repeat rewrite <- app_assoc. reflexivity.
Qed.

Lemma parse_column (pad : pystr) (col : pystr * pystr) :
  column_ok col = true ->
  forallb Py.isspace pad = true ->
  _parse_create_table_field (pad ++ column_text col)
  = (fst col, sql_type_lookup (snd col)).
Proof.
  intros Hok Hpad. unfold _parse_create_table_field.
  rewrite strip_column by assumption.
  destruct (column_ok_parts _ Hok) as (_ & _ & _ & _ & _ & _ & _ & _ & Hf & _).
  unfold column_text. rewrite partition_at; [reflexivity|].
  rewrite forallb_forall in Hf |- *. intros x Hx. specialize (Hf x Hx).
  apply andb_true_iff in Hf as [Hs _].
  destruct (Ascii.eqb_spec x SP) as [->|]; [discriminate Hs|reflexivity].
Qed.

Lemma column_text_no_comma (col : pystr * pystr) :
  column_ok col = true ->
  forallb (fun c => negb (Ascii.eqb c COMMA)) (column_text col) = true.
Proof.
  intros Hok.
  destruct (column_ok_parts _ Hok) as (_ & _ & _ & _ & _ & _ & _ & _ & Hf & Ht).
  unfold column_text. rewrite forallb_app. cbn [forallb].
  apply andb_true_iff. split; [|apply andb_true_iff; split; [reflexivity|]];
    rewrite forallb_forall in *; intros x Hx.
  - specialize (Hf x Hx). apply andb_true_iff in Hf. tauto.
  - specialize (Ht x Hx). apply andb_true_iff in Ht. tauto.
Qed.

Lemma column_text_no_newline (col : pystr * pystr) :
  column_ok col = true ->
  forallb (fun c => negb (Ascii.eqb c LF)) (column_text col) = true.
Proof.
  intros Hok.
  destruct (column_ok_parts _ Hok) as (_ & _ & _ & _ & _ & _ & _ & _ & Hf & Ht).
  unfold column_text. rewrite forallb_app. cbn [forallb].
  apply andb_true_iff. split; [|apply andb_true_iff; split; [reflexivity|]];
    rewrite forallb_forall in *; intros x Hx.
  - specialize (Hf x Hx). apply andb_true_iff in Hf as [Hs _].
    destruct (Ascii.eqb_spec x LF) as [->|]; [discriminate Hs|reflexivity].
  - specialize (Ht x Hx). apply andb_true_iff in Ht. tauto.
Qed.

Lemma parse_columns (cols : list (pystr * pystr)) :
  cols <> [] ->
  forallb column_ok cols = true ->
  map _parse_create_table_field
      (Py.split COMMA (Py.join (txt ", ") (map column_text cols)))
  = map (fun col => (fst col, sql_type_lookup (snd col))) cols.
Proof.
  intros Hne Hok. rewrite forallb_forall in Hok.
  destruct cols as [|col cols]; [contradiction|].
  cbn [map]. rewrite split_join.
  - cbn [map]. f_equal.
    + apply (parse_column []); [apply Hok; now left|reflexivity].
    + rewrite !map_map. apply map_ext_in. intros c Hc.
      apply (parse_column [SP]); [apply Hok; now right|reflexivity].
  - apply Forall_forall. intros p Hp.
    change (column_text col :: map column_text cols)
      with (map column_text (col :: cols)) in Hp.
    apply in_map_iff in Hp as (c & <- & Hc).
    apply column_text_no_comma, Hok, Hc.
Qed.

(** ** Table definitions *)

(** A type text that begins with white space is no name of the
    registry. *)
Lemma lookup_after_space (c : ascii) (t : pystr) :
  Py.isspace c = true ->
  sql_type_lookup (c :: t) = FieldType_new py_str (txt "string").
Proof.
  intros Hc. unfold sql_type_lookup, _SQL_TABLE_TYPE_MAPPING.
  cbn [Dict.get txt list_ascii_of_string str_eqb].
  repeat match goal with
         | |- context [Ascii.eqb ?x c] =>
             destruct (Ascii.eqb_spec x c) as [<-|]; [discriminate Hc|]
         end.
  reflexivity.
Qed.

(** C7. A line [CREATE TABLE <name>(<col1> <type1>, <col2> <type2>, ...)]
    given to the schema builder with an empty schema records the name
    and gives the columns in the order of the declaration, each with the
    converter the type registry has for the whole text after the first
    blank of its piece.  A type text that begins with white space, as
    after a second blank, is no name of the registry: the column gets
    [str] with the tag [string]. *)
Theorem create_table_declares_columns (table : pystr)
        (cols : list (pystr * pystr)) (ending : pystr) :
  table_name_ok table = true ->
  cols <> [] ->
  forallb column_ok cols = true ->
  NoDup (map fst cols) ->
  In ending line_endings ->
  add_fields_from_create_table_ddl TableSchema_new
    (create_table_line table cols ending)
  = {| name := Some table;
       _fields := map (fun col => (fst col, sql_type_lookup (snd col))) cols |}
  /\ keys (add_fields_from_create_table_ddl TableSchema_new
             (create_table_line table cols ending))
     = map fst cols
  /\ (forall column c t,
         In (column, c :: t) cols -> Py.isspace c = true ->
         Dict.get str_eqb column
           (_fields (add_fields_from_create_table_ddl TableSchema_new
                       (create_table_line table cols ending)))
         = Some {| _type_converter := py_str; _avro_data_type := txt "string";
                   _null_value := txt "null" |}).
Proof.
  intros Htable Hne Hok Hnd Hend.
  assert (E : add_fields_from_create_table_ddl TableSchema_new
                (create_table_line table cols ending)
              = {| name := Some table;
                   _fields := map (fun col => (fst col, sql_type_lookup (snd col)))
                                  cols |}).
  { unfold add_fields_from_create_table_ddl, create_table_line.
    rewrite search_create_table; try assumption.
    - cbn [Re.group str_eqb txt list_ascii_of_string Ascii.eqb Bool.eqb andb].
      rewrite parse_columns by assumption.
      f_equal. cbn [_fields TableSchema_new].
      assert (Hk : NoDup (map fst (map (fun col : pystr * pystr =>
                                          (fst col, sql_type_lookup (snd col)))
                                       cols)))
        by (rewrite map_map; cbn [fst]; exact Hnd).
      rewrite (of_pairs_NoDup str_eqb str_eqb_eq _ Hk).
      apply (of_pairs_NoDup str_eqb str_eqb_eq _ Hk).
    - destruct cols as [|col cols]; [contradiction|].
      cbn [map]. unfold column_text at 1.
      destruct (column_ok_parts col) as (c & cs & _ & _ & Ec & _).
      { cbn [forallb] in Hok. apply andb_true_iff in Hok. tauto. }
      rewrite Ec. destruct (map column_text cols); discriminate.
    - apply forallb_join; [reflexivity|].
      apply Forall_forall. intros p Hp.
      apply in_map_iff in Hp as (c & <- & Hc).
      rewrite forallb_forall in Hok.
      apply column_text_no_newline, Hok, Hc. }
  split; [exact E|]. rewrite E. unfold keys, Dict.keys. cbn [_fields].
  split; [rewrite map_map; reflexivity|].
  intros column c t Hin Hc.
  change {| _type_converter := py_str; _avro_data_type := txt "string";
            _null_value := txt "null" |}
    with (FieldType_new py_str (txt "string")).
  rewrite <- (@lookup_after_space c t Hc).
  apply get_in_NoDup.
  - unfold Dict.keys. rewrite map_map. exact Hnd.
  - apply in_map_iff. exists (column, c :: t). split; [reflexivity|exact Hin].
Qed.

Lemma create_table_declares_columns_witness :
  keys (add_fields_from_create_table_ddl TableSchema_new
          (line_of "CREATE TABLE roads(id integer, name character varying(40), cost  double precision);"))
  = [txt "id"; txt "name"; txt "cost"]
  /\ Dict.get str_eqb (txt "cost")
       (_fields (add_fields_from_create_table_ddl TableSchema_new
                   (line_of "CREATE TABLE roads(id integer, name character varying(40), cost  double precision);")))
     = Some {| _type_converter := py_str; _avro_data_type := txt "string";
               _null_value := txt "null" |}.
Proof.
  change (line_of "CREATE TABLE roads(id integer, name character varying(40), cost  double precision);")
    with (create_table_line (txt "roads")
            [(txt "id", txt "integer");
             (txt "name", txt "character varying(40)");
             (txt "cost", txt " double precision")]
            (txt ";" ++ [LF])).
  destruct (@create_table_declares_columns (txt "roads")
              [(txt "id", txt "integer");
               (txt "name", txt "character varying(40)");
               (txt "cost", txt " double precision")]
              (txt ";" ++ [LF])) as (_ & Hkeys & Hblank).
  - reflexivity.
  - discriminate.
  - reflexivity.
  - repeat constructor; cbn; intuition discriminate.
  - cbn. tauto.
  - split; [exact Hkeys|].
    apply (Hblank (txt "cost") " "%char (txt "double precision"));
      [cbn; tauto|reflexivity].
Defined.

(** C7 fails as stated: the name and the type text are split at the
    first blank, not at a run of white space.  With two blanks between
    [id] and [integer] the type text keeps the second blank, is no name
    of the registry and the column gets [str] with the tag [string];
    with a tab between them the whole piece is the column name. *)
Lemma second_blank_stays_in_type_text :
  _parse_create_table_field (txt "id  integer")
  = (txt "id", sql_type_lookup (txt " integer"))
  /\ _fields (add_fields_from_create_table_ddl TableSchema_new
                (line_of "CREATE TABLE roads(id  integer);"))
     = [(txt "id",
         {| _type_converter := py_str; _avro_data_type := txt "string";
            _null_value := txt "null" |})]
  /\ _avro_data_type (sql_type_lookup (txt "integer")) = txt "int"
  /\ parse_insert_values (txt "x")
       (add_fields_from_create_table_ddl TableSchema_new
          (line_of "CREATE TABLE roads(id  integer);"))
     = Ok [(Some (txt "id"), PStr (txt "x"))]
  /\ parse_insert_values (txt "x")
       (add_fields_from_create_table_ddl TableSchema_new
          (line_of "CREATE TABLE roads(id integer);"))
     = Raise ValueError
  /\ keys (add_fields_from_create_table_ddl TableSchema_new
             (txt "CREATE TABLE roads(id" ++ TAB :: txt "integer);" ++ [LF]))
     = [txt "id" ++ TAB :: txt "integer"].
Proof.
  repeat split.
Qed.

(** * Further properties of the program *)

(** ** Invariants of a run *)

Lemma is_prefix_refl (A : Type) (a : list A) : is_prefix a a.
Proof. exists []. now rewrite app_nil_r. Qed.

Lemma is_prefix_trans (A : Type) (a b c : list A) :
  is_prefix a b -> is_prefix b c -> is_prefix a c.
Proof.
  intros [x ->] [y ->]. exists (x ++ y). now rewrite app_assoc.
Qed.

Lemma set_keys_prefix (k : pystr) (v : FieldType)
      (d : list (pystr * FieldType)) :
  is_prefix (Dict.keys d) (Dict.keys (Dict.set str_eqb k v d)).
Proof.
  destruct (Dict.get str_eqb k d) as [v'|] eqn:E.
  - apply (get_some_in str_eqb str_eqb_eq) in E.
    rewrite (keys_set_present str_eqb str_eqb_eq) by assumption.
    apply is_prefix_refl.
  - apply (get_none_notin str_eqb str_eqb_eq) in E.
    rewrite (set_absent str_eqb str_eqb_eq) by assumption.
    exists [k]. unfold Dict.keys. now rewrite map_app.
Qed.

Lemma update_keys_prefix (d pairs : list (pystr * FieldType)) :
  is_prefix (Dict.keys d) (Dict.keys (Dict.update str_eqb d pairs)).
Proof.
  revert d. induction pairs as [|[k v] pairs IH]; intros d.
  - apply is_prefix_refl.
  - rewrite update_cons.
    eapply is_prefix_trans; [apply set_keys_prefix|apply IH].
Qed.

Lemma add_fields_prefix (self : TableSchema) (line : pystr) :
  is_prefix (keys self) (keys (add_fields_from_create_table_ddl self line)).
Proof.
  unfold add_fields_from_create_table_ddl.
  destruct (Re.search create_table_re line false).
  - apply update_keys_prefix.
  - apply is_prefix_refl.
Qed.

Section RunFacts.

Variable Body : Type.
Variable load_body : Wkb.geom_type -> bool -> bytes -> bytes -> result Body.
Variable wkt_dumps : Wkb.geojson Body -> result pystr.


Lemma add_geometry_prefix (self : TableSchema) (line : pystr) :
  is_prefix (keys self) (keys (add_geometry_column_from_ddl load_body wkt_dumps self line)).
Proof.
  unfold add_geometry_column_from_ddl.
  destruct (Re.search geometry_column_re line true).
  - apply set_keys_prefix.
  - apply is_prefix_refl.
Qed.

Lemma add_geometry_NoDup (self : TableSchema) (line : pystr) :
  NoDup (keys self) -> NoDup (keys (add_geometry_column_from_ddl load_body wkt_dumps self line)).
Proof.
  intros H. unfold add_geometry_column_from_ddl.
  destruct (Re.search geometry_column_re line true); [|assumption].
  now apply add_field_NoDup.
Qed.

(** What one round of the loop does to the state. *)
Lemma convert_line_cases (records records' : list record)
      (s s' : TableSchema) (line : pystr) :
  convert_line load_body wkt_dumps (records, s) line = Ok (records', s') ->
  s' = (let s1 := if Py.startswith (Py.lower line) (txt "create table")
                  then add_fields_from_create_table_ddl s line else s in
        if Py.startswith (Py.lower line) (txt "select addgeometrycolumn")
        then add_geometry_column_from_ddl load_body wkt_dumps s1 line else s1)
  /\ (records' = records \/ exists r, records' = records ++ [r]).
Proof.
  unfold convert_line. cbv zeta.
  set (s2 := if Py.startswith (Py.lower line) (txt "select addgeometrycolumn")
             then _ else _).
  destruct (Re.search insert_re line false) as [m|].
  - destruct (parse_insert_values _ _) as [r|e]; cbn [bind]; [|discriminate].
    intros H; inversion H; subst. split; [reflexivity|]. right. now exists r.
  - intros H; inversion H; subst. split; [reflexivity|]. now left.
Qed.

Lemma run_invariant (P : list record * TableSchema -> Prop) :
  (forall st line st', P st -> convert_line load_body wkt_dumps st line = Ok st' -> P st') ->
  forall lines st st', P st -> convert_lines load_body wkt_dumps lines st = Ok st' -> P st'.
Proof.
  intros Hstep. induction lines as [|line lines IH]; intros st st' HP; cbn.
  - intros H; inversion H; subst; exact HP.
  - destruct (convert_line load_body wkt_dumps st line) as [st1|e] eqn:E; cbn [bind];
      [|discriminate].
    apply IH. eapply Hstep; eassumption.
Qed.

(** The schema of a run never has two columns of one name. *)
Lemma run_keys_NoDup (lines : list pystr) (records records' : list record)
      (s s' : TableSchema) :
  NoDup (keys s) -> convert_lines load_body wkt_dumps lines (records, s) = Ok (records', s') ->
  NoDup (keys s').
Proof.
  intros Hnd Hrun.
  refine (@run_invariant (fun st => NoDup (keys (snd st))) _
            lines (records, s) (records', s') Hnd Hrun).
  intros [r1 s1] line [r2 s2] H1 Hs. cbn [snd] in *.
  apply convert_line_cases in Hs as [-> _]. cbv zeta.
  destruct (Py.startswith (Py.lower line) (txt "select addgeometrycolumn"));
    [apply add_geometry_NoDup|];
    (destruct (Py.startswith (Py.lower line) (txt "create table"));
     [now apply add_fields_NoDup|assumption]).
Qed.

End RunFacts.

(** X1. Whatever the input lines, the schema a run ends with has no two
    columns of the same name. *)
Theorem schema_columns_are_distinct
        (Body : Type)
        (load_body : Wkb.geom_type -> bool -> bytes -> bytes -> result Body)
        (wkt_dumps : Wkb.geojson Body -> result pystr)
        (lines : list pystr) (records : list record) (s : TableSchema) :
  convert_lines load_body wkt_dumps lines ([], TableSchema_new)
  = Ok (records, s) ->
  NoDup (keys s).
Proof.
  intros H. eapply run_keys_NoDup; [|exact H]. constructor.
Qed.

Lemma schema_columns_are_distinct_witness :
  NoDup [txt "id"; txt "geom"].
Proof.
  apply (@schema_columns_are_distinct unit no_load_body no_wkt_dumps
           [line_of "CREATE TABLE roads(id integer, geom integer);";
            line_of "SELECT AddGeometryColumn('roads', 'geom', 4326, 'LINESTRING', 2);";
            line_of "CREATE TABLE roads(id bigint);"]
           []
           {| name := Some (txt "roads");
              _fields := [(txt "id", FieldType_new py_int (txt "long"));
                          (txt "geom",
                           geometry_field_type no_load_body no_wkt_dumps)] |}).
  reflexivity.
Defined.

(** X2. The schema only grows: the table-definition and the
    geometry-column operation keep the columns that are there, in their
    places, and put new ones after them; so does a whole run. *)
Theorem schema_only_grows
        (Body : Type)
        (load_body : Wkb.geom_type -> bool -> bytes -> bytes -> result Body)
        (wkt_dumps : Wkb.geojson Body -> result pystr) :
  (forall self line,
      is_prefix (keys self)
                (keys (add_fields_from_create_table_ddl self line)))
  /\ (forall self line,
         is_prefix (keys self)
                   (keys (add_geometry_column_from_ddl load_body wkt_dumps
                            self line)))
  /\ (forall lines records s records' s',
         convert_lines load_body wkt_dumps lines (records, s)
         = Ok (records', s') ->
         is_prefix (keys s) (keys s')).
Proof.
  split; [exact add_fields_prefix|].
  split; [exact (add_geometry_prefix load_body wkt_dumps)|].
  intros lines records s records' s' Hrun.
  refine (@run_invariant Body load_body wkt_dumps
            (fun st => is_prefix (keys s) (keys (snd st))) _
            lines (records, s) (records', s') (is_prefix_refl _) Hrun).
  intros [r1 s1] line [r2 s2] H1 Hs. cbn [snd] in *.
  apply convert_line_cases in Hs as [-> _]. cbv zeta.
  eapply is_prefix_trans; [exact H1|].
  destruct (Py.startswith (Py.lower line) (txt "select addgeometrycolumn"));
    [eapply is_prefix_trans; [|apply add_geometry_prefix]|];
    (destruct (Py.startswith (Py.lower line) (txt "create table"));
     [apply add_fields_prefix|apply is_prefix_refl]).
Qed.

Lemma schema_only_grows_witness :
  is_prefix [txt "id"; txt "cost"] [txt "id"; txt "cost"; txt "geom"].
Proof.
  destruct (schema_only_grows no_load_body no_wkt_dumps) as (_ & _ & H).
  apply (H [line_of "SELECT AddGeometryColumn('roads', 'geom', 4326, 'LINESTRING', 2);";
            line_of "CREATE TABLE roads(cost integer);"]
           []
           {| name := None;
              _fields := [(txt "id", FieldType_new py_int (txt "int"));
                          (txt "cost", FieldType_new py_float (txt "double"))] |}
           []
           {| name := Some (txt "roads");
              _fields := [(txt "id", FieldType_new py_int (txt "int"));
                          (txt "cost", FieldType_new py_int (txt "int"));
                          (txt "geom",
                           geometry_field_type no_load_body no_wkt_dumps)] |}).
  reflexivity.
Defined.

(** X3. A run never drops or reorders records: the records it ends
    with are those it started with followed by at most one new record
    per line read. *)
Theorem records_only_grow
        (Body : Type)
        (load_body : Wkb.geom_type -> bool -> bytes -> bytes -> result Body)
        (wkt_dumps : Wkb.geojson Body -> result pystr)
        (lines : list pystr) (records records' : list record)
        (s s' : TableSchema) :
  convert_lines load_body wkt_dumps lines (records, s) = Ok (records', s') ->
  exists new, records' = records ++ new /\ length new <= length lines.
Proof.
  revert records s. induction lines as [|line lines IH]; intros records s.
  - cbn. intros H; inversion H; subst. exists []. split; [|auto].
    now rewrite app_nil_r.
  - cbn [convert_lines].
    destruct (convert_line load_body wkt_dumps (records, s) line)
      as [[r1 s1]|e] eqn:E; cbn [bind]; [|discriminate].
    intros Hrun. apply IH in Hrun as (new & -> & Hlen).
    apply convert_line_cases in E as [_ [->|[r ->]]].
    + exists new. split; [reflexivity|]. cbn. lia.
    + exists (r :: new). split; [now rewrite <- app_assoc|]. cbn. lia.
Qed.

Lemma records_only_grow_witness :
  exists new,
    [[(Some (txt "id"), PInt 1)]; [(Some (txt "id"), PInt 2)]]
    = [[(Some (txt "id"), PInt 1)]] ++ new
    /\ length new <= 2.
Proof.
  apply (@records_only_grow unit no_load_body no_wkt_dumps
           [line_of "-- a comment"; line_of "(2);"]
           [[(Some (txt "id"), PInt 1)]]
           [[(Some (txt "id"), PInt 1)]; [(Some (txt "id"), PInt 2)]]
           {| name := None;
              _fields := [(txt "id", FieldType_new py_int (txt "int"))] |}
           {| name := None;
              _fields := [(txt "id", FieldType_new py_int (txt "int"))] |}).
  reflexivity.
Defined.

(** ** Column types of a run *)

Section ColumnTypes.

Variable P : FieldType -> Prop.

Lemma set_keeps (k : pystr) (v : FieldType) (d : list (pystr * FieldType)) :
  P v -> Forall (fun kv => P (snd kv)) d ->
  Forall (fun kv => P (snd kv)) (Dict.set str_eqb k v d).
Proof.
  intros Hv Hd. induction Hd as [|[k' v'] d Hx Hd IH]; cbn.
  - repeat constructor. exact Hv.
  - destruct (str_eqb k' k); constructor; auto.
Qed.

Lemma update_keeps (d pairs : list (pystr * FieldType)) :
  Forall (fun kv => P (snd kv)) d ->
  Forall (fun kv => P (snd kv)) pairs ->
  Forall (fun kv => P (snd kv)) (Dict.update str_eqb d pairs).
Proof.
  intros Hd Hp. revert d Hd.
  induction Hp as [|[k v] pairs Hx Hp IH]; intros d Hd; [exact Hd|].
  rewrite update_cons. apply IH. now apply set_keeps.
Qed.

Hypothesis lookup_keeps : forall sql_type, P (sql_type_lookup sql_type).

Lemma add_fields_keeps (self : TableSchema) (line : pystr) :
  Forall (fun kv => P (snd kv)) (_fields self) ->
  Forall (fun kv => P (snd kv))
         (_fields (add_fields_from_create_table_ddl self line)).
Proof.
  intros H. unfold add_fields_from_create_table_ddl.
  destruct (Re.search create_table_re line false); [|exact H].
  cbn [_fields]. apply update_keeps; [exact H|].
  unfold Dict.of_pairs. apply update_keeps; [constructor|].
  apply Forall_forall. intros kv Hin.
  apply in_map_iff in Hin as (f & <- & _).
  unfold _parse_create_table_field.
  destruct (Py.partition SP (Py.strip f)) as [[field_name sep] sql_type].
  cbn [snd]. apply lookup_keeps.
Qed.

End ColumnTypes.

Lemma lookup_in_registry (sql_type : pystr) :
  In (sql_type_lookup sql_type) (map snd _SQL_TABLE_TYPE_MAPPING).
Proof.
  unfold sql_type_lookup, _SQL_TABLE_TYPE_MAPPING. cbn [Dict.get map snd].
  repeat match goal with
         | |- context [if ?b then _ else _] => destruct b
         end; cbn [In]; tauto.
Qed.

(** X4. Every column of the schema a run ends with has one of the
    column types the program constructs: an entry of the type registry
    or the geometry type with [strip_srid] on.  So its converter is
    [int], [str], [float] or the geometry decoder, its null token is
    [null], its tag is one of [int], [long], [string], [double] and its
    Avro type is [["null", tag]] with one of these tags. *)
Theorem run_schema_is_standard
        (Body : Type)
        (load_body : Wkb.geom_type -> bool -> bytes -> bytes -> result Body)
        (wkt_dumps : Wkb.geojson Body -> result pystr)
        (lines : list pystr) (records : list record) (s : TableSchema)
        (column : pystr) (ft : FieldType) :
  convert_lines load_body wkt_dumps lines ([], TableSchema_new)
  = Ok (records, s) ->
  In (column, ft) (_fields s) ->
  constructed_field_type load_body wkt_dumps ft
  /\ In (_type_converter ft)
        [py_int; py_str; py_float; convert_wkb_to_wkt load_body wkt_dumps true]
  /\ _null_value ft = txt "null"
  /\ In (_avro_data_type ft) avro_tags
  /\ In (avro_type ft) (map (fun tag => [txt "null"; tag]) avro_tags).
Proof.
  intros Hrun Hin.
  assert (Hall : Forall (fun kv => constructed_field_type load_body wkt_dumps
                                     (snd kv))
                        (_fields s)).
  { refine (@run_invariant Body load_body wkt_dumps
              (fun st => Forall (fun kv => constructed_field_type
                                             load_body wkt_dumps (snd kv))
                                (_fields (snd st))) _
              lines ([], TableSchema_new) (records, s) _ Hrun);
      [|constructor].
    intros [r1 s1] line [r2 s2] H1 Hs. cbn [snd] in *.
    apply convert_line_cases in Hs as [-> _]. cbv zeta.
    set (s3 := if Py.startswith (Py.lower line) (txt "create table")
               then _ else _).
    assert (H3 : Forall (fun kv => constructed_field_type load_body wkt_dumps
                                     (snd kv))
                        (_fields s3)).
    { subst s3. destruct (Py.startswith _ (txt "create table"));
        [|assumption].
      apply add_fields_keeps; [|assumption].
      intros sql_type. left. apply lookup_in_registry. }
    destruct (Py.startswith _ (txt "select addgeometrycolumn")); [|exact H3].
    unfold add_geometry_column_from_ddl.
    destruct (Re.search geometry_column_re line true); [|exact H3].
    unfold add_field. cbn [_fields]. apply set_keeps; [|exact H3].
    right. reflexivity. }
  rewrite Forall_forall in Hall. specialize (Hall _ Hin). cbn [snd] in Hall.
  split; [exact Hall|].
  destruct Hall as [Hreg| ->].
  - cbn [_SQL_TABLE_TYPE_MAPPING map snd In] in Hreg.
    destruct Hreg as [<-|[<-|[<-|[<-|[]]]]];
      repeat split; cbn; tauto.
  - repeat split; cbn; tauto.
Qed.

Lemma run_schema_is_standard_witness :
  In (avro_type (geometry_field_type no_load_body no_wkt_dumps))
     (map (fun tag => [txt "null"; tag]) avro_tags).
Proof.
  apply (@run_schema_is_standard unit no_load_body no_wkt_dumps
           [line_of "CREATE TABLE roads(id bigint, kmh smallint);";
            line_of "SELECT AddGeometryColumn('roads', 'geom', 4326, 'LINESTRING', 2);"]
           []
           (add_geometry_column_from_ddl no_load_body no_wkt_dumps
              (add_fields_from_create_table_ddl TableSchema_new
                 (line_of "CREATE TABLE roads(id bigint, kmh smallint);"))
              (line_of "SELECT AddGeometryColumn('roads', 'geom', 4326, 'LINESTRING', 2);"))
           (txt "geom") (geometry_field_type no_load_body no_wkt_dumps)).
  - reflexivity.
  - cbn. tauto.
Defined.

(** ** Groups and literals of the patterns *)

Lemma group_lazy_plus (ic : bool) (n : nat) (group : pystr)
      (cc : Re.charclass) (r : Re.regex) (u rest : pystr)
      (m x : Re.captures)
      (k : pystr -> Re.captures -> option Re.captures) :
  u <> [] ->
  Forall (fun c => Re.accepts ic cc c = true) u ->
  (forall u1 u2 m', u = u1 ++ u2 -> u1 <> [] -> u2 <> [] ->
                    Re.matches ic n r (u2 ++ rest) m' k = None) ->
  Re.matches ic n r rest ((group, u) :: m) k = Some x ->
  Re.matches ic n (Re.Cat (Re.Group group (Re.LazyPlus cc)) r)
             (u ++ rest) m k = Some x.
Proof.
  intros Hne Hall Hfail Hok. cbn [Re.matches].
  apply lazy_plus_skip; try assumption.
  - intros u1 u2 E H1 H2. now apply (Hfail u1 u2).
  - now rewrite firstn_consumed.
Qed.

Lemma matches_lit_self (ic : bool) (n : nat) (p rest : pystr) (r : Re.regex)
      (m : Re.captures) (k : pystr -> Re.captures -> option Re.captures) :
  Re.matches ic n (Re.lit p r) (p ++ rest) m k = Re.matches ic n r rest m k.
Proof.
  apply matches_lit_app. induction p as [|c p IH]; constructor; [|exact IH].
  cbn. destruct ic; apply Ascii.eqb_refl.
Qed.


(** The row pattern on a line of the shape: the group is the text
    between the parentheses. *)
Lemma search_insert (values ending : pystr) :
  values <> [] -> no_newline values = true -> In ending line_endings ->
  Re.search insert_re (row_line values ending) false
  = Some [(txt "values", values)].
Proof.
  intros Hne Hlf Hend. unfold insert_re, row_line. rewrite search_bol.
  set (n := length _).
  rewrite matches_lit_self.
  change (Re.lit (txt ")")
            (Re.Cat (Re.Opt (Re.Chr (Re.OneOf (txt ";,")))) Re.Eol))
    with statement_end.
  change (txt ")" ++ ending) with (")"%char :: ending).
  apply group_lazy_plus.
  - exact Hne.
  - now apply accepts_dot.
  - intros u1 u2 m' E H1 H2. now apply statement_end_inside.
  - now apply statement_end_ok.
Qed.

Lemma search_insert_none (line : pystr) :
  Py.startswith line (txt "(") = false ->
  Re.search insert_re line false = None.
Proof.
  intros H. unfold insert_re. rewrite search_bol.
  now apply matches_lit_fail.
Qed.

(** ** Lines that are no statement *)

(** X5. A line that starts with none of [create table] and
    [select addgeometrycolumn] (in any casing) nor with an opening
    parenthesis is skipped: the records and the schema stay as they
    are and nothing is raised. *)
Theorem other_lines_are_skipped
        (Body : Type)
        (load_body : Wkb.geom_type -> bool -> bytes -> bytes -> result Body)
        (wkt_dumps : Wkb.geojson Body -> result pystr)
        (line : pystr) (records : list record) (s : TableSchema) :
  Py.startswith (Py.lower line) (txt "create table") = false ->
  Py.startswith (Py.lower line) (txt "select addgeometrycolumn") = false ->
  Py.startswith line (txt "(") = false ->
  convert_line load_body wkt_dumps (records, s) line = Ok (records, s).
Proof.
  intros H1 H2 H3. unfold convert_line.
  now rewrite H1, H2, (search_insert_none _ H3).
Qed.

Lemma other_lines_are_skipped_witness :
  convert_line no_load_body no_wkt_dumps ([], TableSchema_new)
    (line_of "INSERT INTO roads VALUES")
  = Ok ([], TableSchema_new).
Proof.
  apply (@other_lines_are_skipped unit no_load_body no_wkt_dumps);
    reflexivity.
Defined.

(** ** Row lines, end to end *)

(** X6. A row line written from literals whose number is the number of
    columns appends exactly one record and leaves the schema alone: the
    record holds, column by column, [None] for the null token and the
    converter's result for any other literal; when a converter raises,
    the round raises the same exception. *)
Theorem row_line_appends_record
        (Body : Type)
        (load_body : Wkb.geom_type -> bool -> bytes -> bytes -> result Body)
        (wkt_dumps : Wkb.geojson Body -> result pystr)
        (lits : list (nat * literal)) (ending : pystr)
        (records : list record) (s : TableSchema) :
  forallb (fun nl => literal_ok (snd nl)) lits = true ->
  row_text lits <> [] ->
  no_newline (row_text lits) = true ->
  In ending line_endings ->
  NoDup (keys s) ->
  length lits = length (keys s) ->
  convert_line load_body wkt_dumps (records, s)
               (row_line (row_text lits) ending)
  = (r <- mapM (fun p => field_value (fst p) (snd p))
               (combine (_fields s)
                        (map (fun nl => literal_value (snd nl)) lits)) ;;
     Ok (records ++ [r], s)).
Proof.
  intros Hok Hne Hlf Hend Hnd Hlen. unfold convert_line.
  change (Py.startswith (Py.lower (row_line (row_text lits) ending))
                        (txt "create table")) with false.
  change (Py.startswith (Py.lower (row_line (row_text lits) ending))
                        (txt "select addgeometrycolumn")) with false.
  rewrite search_insert by assumption.
  change (Re.group [(txt "values", row_text lits)] (txt "values"))
    with (row_text lits).
  erewrite parse_insert_values_exact;
    [reflexivity|exact Hnd|now apply reader_next_row_text| |].
  - destruct lits; [exfalso; apply Hne; reflexivity|discriminate].
  - now rewrite length_map.
Qed.

Lemma row_line_appends_record_witness :
  convert_line no_load_body no_wkt_dumps
    ([], add_fields_from_create_table_ddl TableSchema_new
           (line_of "CREATE TABLE roads(id integer, name character varying);"))
    (line_of "(7, 'Main St, east');")
  = Ok ([[(Some (txt "id"), PInt 7);
          (Some (txt "name"), PStr (txt "Main St, east"))]],
        add_fields_from_create_table_ddl TableSchema_new
          (line_of "CREATE TABLE roads(id integer, name character varying);")).
Proof.
  change (line_of "(7, 'Main St, east');")
    with (row_line (row_text [(0, Bare (txt "7"));
                              (1, Quoted (txt "Main St, east"))])
                   (txt ";" ++ [LF])).
  rewrite (@row_line_appends_record unit no_load_body no_wkt_dumps).
  - reflexivity.
  - reflexivity.
  - discriminate.
  - reflexivity.
  - cbn. tauto.
  - apply add_fields_NoDup. constructor.
  - reflexivity.
Defined.

(** ** The geometry statement *)












(** ** Rows wider than the schema *)

Lemma fst_combine_le (A B : Type) (a : list A) (b : list B) :
  length a <= length b -> map fst (combine a b) = a.
Proof.
  revert b. induction a as [|x a IH]; intros [|y b] H; cbn in *;
    try lia; [reflexivity|reflexivity|].
  f_equal. apply IH. lia.
Qed.

Lemma mapM_app (A B : Type) (f : A -> result B) (a b : list A) :
  mapM f (a ++ b)
  = (ra <- mapM f a ;; rb <- mapM f b ;; Ok (ra ++ rb)).
Proof.
  induction a as [|x a IH]; cbn.
  - now destruct (mapM f b).
  - destruct (f x); cbn; [|reflexivity]. rewrite IH.
    destruct (mapM f a); cbn; [|reflexivity].
    now destruct (mapM f b).
Qed.

Lemma DictReader_next_surplus (fieldnames : list pystr) (values : pystr)
      (row rest : list pystr) :
  NoDup fieldnames ->
  Csv.reader_next sql [values] = Ok (row, rest) ->
  length fieldnames < length row ->
  DictReader_next sql fieldnames [values]
  = Ok (combine (map Some fieldnames) (map Text row)
        ++ [(None, Surplus (skipn (length fieldnames) row))]).
Proof.
  intros Hnd Hrow Hlen. unfold DictReader_next.
  cbn [length Csv.next_nonempty_row]. rewrite Hrow. cbn [bind].
  destruct row as [|f row]; [cbn in Hlen; lia|]. cbn [bind].
  replace (Nat.ltb (length fieldnames) (length (f :: row))) with true
    by (symmetry; apply Nat.ltb_lt; exact Hlen).
  assert (Hk : map fst (combine (map Some fieldnames) (map Text (f :: row)))
               = map Some fieldnames)
    by (apply fst_combine_le; rewrite !length_map; lia).
  rewrite (of_pairs_NoDup key_eqb key_eqb_eq)
    by (unfold key; rewrite Hk; now apply NoDup_map_Some).
  rewrite (set_absent key_eqb key_eqb_eq); [reflexivity|].
  unfold Dict.keys, key. rewrite Hk. intros Hin.
  apply in_map_iff in Hin as (x & Hx & _). discriminate Hx.
Qed.

(** X8. A row with more fields than the schema has columns is not
    refused: the first fields are converted as the columns say and all
    the others are kept as one value under the key [None], the text of
    their list.  With a schema that has no column yet, every row
    becomes the single entry [None]. *)
Theorem surplus_fields_go_under_none (values : pystr) (s : TableSchema)
        (row rest : list pystr) :
  NoDup (keys s) ->
  Csv.reader_next sql [values] = Ok (row, rest) ->
  length (keys s) < length row ->
  parse_insert_values values s
  = (r <- mapM (fun p => field_value (fst p) (snd p))
               (combine (_fields s) row) ;;
     Ok (r ++ [(None, PStr (Py.str_of_list (skipn (length (keys s)) row)))]))
  /\ (_fields s = [] ->
      parse_insert_values values s = Ok [(None, PStr (Py.str_of_list row))]).
Proof.
  intros Hnd Hrow Hlen.
  assert (E : parse_insert_values values s
              = (r <- mapM (fun p => field_value (fst p) (snd p))
                           (combine (_fields s) row) ;;
                 Ok (r ++ [(None, PStr (Py.str_of_list
                                          (skipn (length (keys s)) row)))]))).
  { rewrite parse_insert_values_unfold.
    erewrite DictReader_next_surplus by eassumption. cbn [bind].
    rewrite mapM_app. unfold keys, Dict.keys at 1.
    rewrite convert_items_fields
      by (intros [k ft] Hin; now apply get_in_NoDup).
    destruct (mapM _ (combine (_fields s) row)); reflexivity. }
  split; [exact E|].
  intros Hempty. rewrite E. unfold keys. rewrite Hempty. reflexivity.
Qed.

Lemma surplus_fields_go_under_none_witness :
  parse_insert_values (txt "1, 'Main St', 12.5") TableSchema_new
  = Ok [(None, PStr (txt "['1', 'Main St', '12.5']"))].
Proof.
  apply (@surplus_fields_go_under_none (txt "1, 'Main St', 12.5")
           TableSchema_new [txt "1"; txt "Main St"; txt "12.5"] []).
  - constructor.
  - reflexivity.
  - cbn. lia.
  - reflexivity.
Defined.

(** ** Rows of nulls *)

Lemma null_fields (cols : list (pystr * FieldType)) (raws : list pystr) :
  length raws = length cols ->
  (forall col, In col cols -> _null_value (snd col) = txt "null") ->
  (forall raw, In raw raws -> raw = txt "null") ->
  mapM (fun p => field_value (fst p) (snd p)) (combine cols raws)
  = Ok (map (fun col => (Some (fst col), PNone)) cols).
Proof.
  revert raws. induction cols as [|col cols IH]; intros [|raw raws] Hlen Hc Hr;
    cbn in Hlen; try discriminate; [reflexivity|].
  cbn [combine mapM map fst snd]. unfold field_value at 1.
  rewrite (Hr raw (or_introl eq_refl)), (Hc col (or_introl eq_refl)).
  cbn [str_eqb txt list_ascii_of_string Ascii.eqb Bool.eqb andb bind].
  rewrite IH; [reflexivity|now injection Hlen| |];
    intros x Hx; [apply Hc|apply Hr]; now right.
Qed.

(** X9. A row whose literals are all the null token, quoted or not,
    gives a record with [None] under every column, whatever the
    converters of the columns are: none of them is applied. *)
Theorem null_row_gives_nones (lits : list (nat * literal)) (s : TableSchema) :
  forallb (fun nl => literal_ok (snd nl)) lits = true ->
  lits <> [] ->
  (forall nl, In nl lits -> literal_value (snd nl) = txt "null") ->
  NoDup (keys s) ->
  length lits = length (keys s) ->
  (forall col, In col (_fields s) -> _null_value (snd col) = txt "null") ->
  parse_insert_values (row_text lits) s
  = Ok (map (fun column => (Some column, PNone)) (keys s)).
Proof.
  intros Hok Hne Hnull Hnd Hlen Hcols.
  assert (Htext : row_text lits <> []).
  { destruct lits as [|[n l] lits]; [contradiction|].
    pose proof (Hnull (n, l) (or_introl eq_refl)) as Hl. cbn [snd] in Hl.
    intros E. unfold row_text in E. cbn [map fst snd] in E.
    assert (Hlen0 : length (repeat SP n ++ literal_text l) = 0).
    { destruct (map _ lits); cbn [Py.join] in E.
      - now rewrite E.
      - apply (f_equal (@length ascii)) in E. rewrite !length_app in *.
        cbn in E. lia. }
    rewrite length_app in Hlen0.
    destruct l as [x|x]; cbn in Hl, Hlen0; subst x; cbn in Hlen0; lia. }
  erewrite parse_insert_values_exact;
    [|exact Hnd|now apply reader_next_row_text| |now rewrite length_map].
  - rewrite null_fields.
    + unfold keys, Dict.keys. now rewrite map_map.
    + rewrite length_map. unfold keys, Dict.keys in Hlen.
      now rewrite length_map in Hlen.
    + exact Hcols.
    + intros raw Hin. apply in_map_iff in Hin as (nl & <- & Hin).
      now apply Hnull.
  - destruct lits; [contradiction|discriminate].
Qed.

Lemma null_row_gives_nones_witness :
  parse_insert_values (txt "null, 'null',  null")
    (add_geometry_column_from_ddl no_load_body no_wkt_dumps
       (add_fields_from_create_table_ddl TableSchema_new
          (line_of "CREATE TABLE roads(id integer, name character varying);"))
       (line_of "SELECT AddGeometryColumn('roads', 'geom', 4326, 'LINESTRING', 2);"))
  = Ok [(Some (txt "id"), PNone); (Some (txt "name"), PNone);
        (Some (txt "geom"), PNone)].
Proof.
  change (txt "null, 'null',  null")
    with (row_text [(0, Bare (txt "null")); (1, Quoted (txt "null"));
                    (2, Bare (txt "null"))]).
  rewrite null_row_gives_nones.
  - reflexivity.
  - reflexivity.
  - discriminate.
  - cbn. intros nl [<-|[<-|[<-|[]]]]; reflexivity.
  - repeat constructor; cbn; intuition discriminate.
  - reflexivity.
  - cbn. intros col [<-|[<-|[<-|[]]]]; reflexivity.
Defined.

(** ** The geometry decoder, in general *)

Section DecoderFacts.

Variable Body : Type.
Variable load_body : Wkb.geom_type -> bool -> bytes -> bytes -> result Body.
Variable wkt_dumps : Wkb.geojson Body -> result pystr.

Lemma loads_shape (data : bytes) (g : Wkb.geojson Body) :
  Wkb.loads load_body data = Ok g ->
  exists t b,
    g = decoded_geometry t b
    \/ exists n, g = decoded_geometry t b ++ srid_entries Body n.
Proof.
  unfold Wkb.loads.
  destruct (match firstn 1 data with [b] => _ | _ => _ end) as [big|e];
    cbn [bind]; [|discriminate].
  destruct (Wkb.get_geom_type _) as [[[gt tb] has]|e]; cbn [bind];
    [|discriminate].
  destruct has.
  - destruct (Wkb.unpack_int32 _ _) as [n|e]; cbn [bind]; [|discriminate].
    destruct gt as [t|]; [|discriminate].
    destruct (load_body _ _ _ _) as [b|e]; cbn [bind]; [|discriminate].
    intros H; inversion H; subst. exists t, b. right. exists n.
    destruct t; reflexivity.
  - cbn [bind]. destruct gt as [t|]; [|discriminate].
    destruct (load_body _ _ _ _) as [b|e]; cbn [bind]; [|discriminate].
    intros H; inversion H; subst. exists t, b. now left.
Qed.

Lemma strip_entries (A : Type) (t : Wkb.geom_type) (b : Body) (n : Z)
      (k : Wkb.geojson Body -> result A) :
  (g <- ('(_, g) <- Dict.pop str_eqb (KeyError (txt "meta")) (txt "meta")
                      (decoded_geometry t b ++ srid_entries Body n) ;;
         '(_, g) <- Dict.pop str_eqb (KeyError (txt "crs")) (txt "crs") g ;;
         Ok g) ;;
   k g)
  = k (decoded_geometry t b).
Proof. destruct t; reflexivity. Qed.

Lemma strip_nothing (A : Type) (t : Wkb.geom_type) (b : Body)
      (k : Wkb.geojson Body -> result A) :
  (g <- ('(_, g) <- Dict.pop str_eqb (KeyError (txt "meta")) (txt "meta")
                      (decoded_geometry t b) ;;
         '(_, g) <- Dict.pop str_eqb (KeyError (txt "crs")) (txt "crs") g ;;
         Ok g) ;;
   k g)
  = Raise (KeyError (txt "meta")).
Proof. destruct t; reflexivity. Qed.

End DecoderFacts.

(** X10. With [strip_srid] the geometry converter returns a text
    exactly when the value is hex, decodes to a geometry that carries an
    SRID, and the encoder accepts the type and body alone: the encoder
    never sees the SRID entries.  A value that decodes to a geometry
    without SRID always raises [KeyError]. *)
Theorem strip_srid_needs_srid
        (Body : Type)
        (load_body : Wkb.geom_type -> bool -> bytes -> bytes -> result Body)
        (wkt_dumps : Wkb.geojson Body -> result pystr)
        (s : pystr) :
  (forall v,
      convert_wkb_to_wkt load_body wkt_dumps true (Text s) = Ok v
      <-> exists data t b n w,
            fromhex s = Ok data
            /\ Wkb.loads load_body data
               = Ok (decoded_geometry t b ++ srid_entries Body n)
            /\ wkt_dumps (decoded_geometry t b) = Ok w
            /\ v = PStr w)
  /\ (forall data t b,
         fromhex s = Ok data ->
         Wkb.loads load_body data = Ok (decoded_geometry t b) ->
         convert_wkb_to_wkt load_body wkt_dumps true (Text s)
         = Raise (KeyError (txt "meta"))).
Proof.
  unfold convert_wkb_to_wkt. split.
  - intros v. split.
    + destruct (fromhex s) as [data|e]; cbn [bind]; [|discriminate].
      destruct (Wkb.loads load_body data) as [g|e] eqn:E; cbn [bind];
        [|discriminate].
      destruct (@loads_shape Body load_body data g E) as (t & b & [->|[n ->]]).
      * rewrite strip_nothing. discriminate.
      * rewrite strip_entries. intros H. exists data, t, b, n.
        destruct (wkt_dumps (decoded_geometry t b)) as [w|e]; cbn [bind] in H;
          [|discriminate].
        exists w. inversion H. auto.
    + intros (data & t & b & n & w & Hd & Hl & Hw & ->).
      rewrite Hd. cbn [bind]. rewrite Hl. cbn [bind].
      rewrite strip_entries, Hw. reflexivity.
  - intros data t b Hd Hl. rewrite Hd. cbn [bind]. rewrite Hl. cbn [bind].
    apply strip_nothing.
Qed.

Lemma strip_srid_needs_srid_witness :
  convert_wkb_to_wkt (fun _ _ _ data => Ok (length data))
    (fun g => Ok (flat_map fst g)) true
    (Text (txt "0101000020E6100000000000000000F03F0000000000000040"))
  = Ok (PStr (txt "typecoordinates")).
Proof.
  apply (proj1 (@strip_srid_needs_srid nat
                  (fun _ _ _ data => Ok (length data))
                  (fun g => Ok (flat_map fst g))
                  (txt "0101000020E6100000000000000000F03F0000000000000040"))).
  eexists _, Wkb.Point, 16, 4326%Z, (txt "typecoordinates").
  repeat split; reflexivity.
Defined.

(** ** The script and the writers *)

Lemma partition_at_sep (sep : ascii) (a b : pystr) :
  forallb (fun c => negb (Ascii.eqb c sep)) a = true ->
  Py.partition sep (a ++ sep :: b) = (a, [sep], b).
Proof.
  induction a as [|c a IH]; intros H.
  - cbn. now rewrite Ascii.eqb_refl.
  - cbn [forallb] in H. apply andb_true_iff in H as [Hc H].
    apply negb_true_iff in Hc. cbn [app Py.partition].
    rewrite Hc, IH by assumption. reflexivity.
Qed.

Lemma partition_absent (sep : ascii) (a : pystr) :
  forallb (fun c => negb (Ascii.eqb c sep)) a = true ->
  Py.partition sep a = (a, [], []).
Proof.
  induction a as [|c a IH]; intros H; [reflexivity|].
  cbn [forallb] in H. apply andb_true_iff in H as [Hc H].
  apply negb_true_iff in Hc. cbn [Py.partition].
  rewrite Hc, IH by assumption. reflexivity.
Qed.

(** X11. The output file of the script.  An [--output] that is given
    and not empty is used as it is.  Without one, the file is the input
    path with what follows its last dot replaced by the lower-cased
    format; an input path without a dot loses its whole name and the
    file is the dot and the format alone. *)
Theorem default_output_file
        (Body : Type)
        (load_body : Wkb.geom_type -> bool -> bytes -> bytes -> result Body)
        (wkt_dumps : Wkb.geojson Body -> result pystr)
        (fmt : pystr) (in_fp : list pystr) :
  let run input out :=
    convert load_body wkt_dumps
      {| g_output_file := out; g_output_format := fmt |}
      {| input_file := input; output_file := out; output_format := fmt |}
      in_fp in
  (forall input out, out <> [] ->
     main load_body wkt_dumps input (Some out) fmt in_fp = run input out)
  /\ (forall stem ext,
        forallb (fun c => negb (Ascii.eqb c "."%char)) ext = true ->
        main load_body wkt_dumps (stem ++ txt "." ++ ext) None fmt in_fp
        = run (stem ++ txt "." ++ ext) (stem ++ txt "." ++ Py.lower fmt))
  /\ (forall input,
        forallb (fun c => negb (Ascii.eqb c "."%char)) input = true ->
        main load_body wkt_dumps input None fmt in_fp
        = run input (txt "." ++ Py.lower fmt)).
Proof.
  intros run. subst run. cbv beta. unfold main. split; [|split].
  - intros input [|c out] H; [contradiction|reflexivity].
  - intros stem ext H.
    change (stem ++ txt "." ++ ext) with (stem ++ "."%char :: ext).
    rewrite rev_app_distr. cbn [rev]. rewrite <- app_assoc. cbn [app].
    rewrite partition_at_sep by now apply forallb_rev.
    now rewrite rev_involutive.
  - intros input H.
    rewrite partition_absent by now apply forallb_rev.
    reflexivity.
Qed.

Lemma default_output_file_witness :
  main no_load_body no_wkt_dumps (txt "dumps/hh.2po.sql") None (txt "csv")
       [line_of "CREATE TABLE roads(id integer);"; line_of "(1);"]
  = Ok [write_to_csv (txt "dumps/hh.2po.csv")
          [[(Some (txt "id"), PInt 1)]]
          (add_fields_from_create_table_ddl TableSchema_new
             (line_of "CREATE TABLE roads(id integer);"))].
Proof.
  change (txt "dumps/hh.2po.sql") with (txt "dumps/hh.2po" ++ txt "." ++ txt "sql").
  rewrite (proj1 (proj2 (@default_output_file unit no_load_body no_wkt_dumps
                           (txt "csv")
                           [line_of "CREATE TABLE roads(id integer);";
                            line_of "(1);"]))) by reflexivity.
  reflexivity.
Defined.

(** X12. A run that ends normally calls at most one writer, with all
    the records and the final schema: the CSV writer for [csv], on the
    output file of the converter; the JSON writer for [json] and the
    Avro writer for [avro], both on the output file of the script; no
    writer for any other format. *)
Theorem one_writer_at_most
        (Body : Type)
        (load_body : Wkb.geom_type -> bool -> bytes -> bytes -> result Body)
        (wkt_dumps : Wkb.geojson Body -> result pystr)
        (g : globals) (self : DDLConverter) (in_fp : list pystr)
        (calls : list writer_call) :
  convert load_body wkt_dumps g self in_fp = Ok calls ->
  exists records s,
    convert_lines load_body wkt_dumps in_fp ([], TableSchema_new)
    = Ok (records, s)
    /\ ((g_output_format g = txt "csv"
         /\ calls = [write_to_csv (output_file self) records s])
        \/ (g_output_format g = txt "json"
            /\ calls = [write_to_json (g_output_file g) records s])
        \/ (g_output_format g = txt "avro"
            /\ calls = [write_to_avro (g_output_file g) records s])
        \/ (~ In (g_output_format g) supported_formats /\ calls = [])).
Proof.
  unfold convert.
  destruct (convert_lines load_body wkt_dumps in_fp ([], TableSchema_new))
    as [[records s]|e]; cbn [bind]; [|discriminate].
  destruct (str_eqb (g_output_format g) (txt "csv")) eqn:E1;
    destruct (str_eqb (g_output_format g) (txt "json")) eqn:E2;
    destruct (str_eqb (g_output_format g) (txt "avro")) eqn:E3;
    cbn [app]; intros H; inversion H; subst calls; exists records, s;
    (split; [reflexivity|]);
    repeat match goal with
           | E : str_eqb _ _ = true |- _ => apply str_eqb_eq in E
           end;
    try (rewrite E1 in E2; discriminate E2);
    try (rewrite E1 in E3; discriminate E3);
    try (rewrite E2 in E3; discriminate E3).
  - left. split; [exact E1|reflexivity].
  - right. left. split; [exact E2|reflexivity].
  - right. right. left. split; [exact E3|reflexivity].
  - right. right. right. split; [|reflexivity].
    apply str_eqb_neq in E1, E2, E3.
    unfold supported_formats. cbn [In].
    intros [E|[E|[E|[]]]]; [apply E1|apply E2|apply E3]; now symmetry.
Qed.

Lemma one_writer_at_most_witness :
  exists records s,
    convert_lines no_load_body no_wkt_dumps
      [line_of "CREATE TABLE roads(id integer);"; line_of "(1);"]
      ([], TableSchema_new)
    = Ok (records, s)
    /\ ((txt "json" = txt "csv"
         /\ [write_to_json (txt "global.json") [[(Some (txt "id"), PInt 1)]]
               (add_fields_from_create_table_ddl TableSchema_new
                  (line_of "CREATE TABLE roads(id integer);"))]
            = [write_to_csv (txt "own.json") records s])
        \/ (txt "json" = txt "json"
            /\ [write_to_json (txt "global.json") [[(Some (txt "id"), PInt 1)]]
                  (add_fields_from_create_table_ddl TableSchema_new
                     (line_of "CREATE TABLE roads(id integer);"))]
               = [write_to_json (txt "global.json") records s])
        \/ (txt "json" = txt "avro"
            /\ [write_to_json (txt "global.json") [[(Some (txt "id"), PInt 1)]]
                  (add_fields_from_create_table_ddl TableSchema_new
                     (line_of "CREATE TABLE roads(id integer);"))]
               = [write_to_avro (txt "global.json") records s])
        \/ (~ In (txt "json") supported_formats
            /\ [write_to_json (txt "global.json") [[(Some (txt "id"), PInt 1)]]
                  (add_fields_from_create_table_ddl TableSchema_new
                     (line_of "CREATE TABLE roads(id integer);"))]
               = [])).
Proof.
  apply (@one_writer_at_most unit no_load_body no_wkt_dumps
           {| g_output_file := txt "global.json";
              g_output_format := txt "json" |}
           {| input_file := txt "roads.sql"; output_file := txt "own.json";
              output_format := txt "csv" |}
           [line_of "CREATE TABLE roads(id integer);"; line_of "(1);"]).
  reflexivity.
Defined.

(** X13. The first line that raises ends the run: whatever lines
    follow, the run raises the same exception and no writer is called. *)
Theorem first_error_ends_run
        (Body : Type)
        (load_body : Wkb.geom_type -> bool -> bytes -> bytes -> result Body)
        (wkt_dumps : Wkb.geojson Body -> result pystr)
        (g : globals) (self : DDLConverter)
        (before after : list pystr) (line : pystr)
        (st : list record * TableSchema) (e : exn) :
  convert_lines load_body wkt_dumps before ([], TableSchema_new) = Ok st ->
  convert_line load_body wkt_dumps st line = Raise e ->
  convert load_body wkt_dumps g self (before ++ line :: after) = Raise e.
Proof.
  intros Hb Hl. unfold convert.
  rewrite convert_lines_app, Hb. cbn [bind convert_lines].
  now rewrite Hl.
Qed.

Lemma first_error_ends_run_witness :
  convert no_load_body no_wkt_dumps
    {| g_output_file := txt "roads.csv"; g_output_format := txt "csv" |}
    {| input_file := txt "roads.sql"; output_file := txt "roads.csv";
       output_format := txt "csv" |}
    ([line_of "CREATE TABLE roads(id integer, cost double precision);";
      line_of "(1, 2.5);"]
     ++ line_of "(2, 'two and a half');" :: [line_of "(3, 3.5);"])
  = Raise ValueError.
Proof.
  apply (@first_error_ends_run unit no_load_body no_wkt_dumps _ _
           [line_of "CREATE TABLE roads(id integer, cost double precision);";
            line_of "(1, 2.5);"]
           [line_of "(3, 3.5);"]
           (line_of "(2, 'two and a half');")
           ([[(Some (txt "id"), PInt 1);
              (Some (txt "cost"), PFloat (Py.FDec false 25 (-1)))]],
            add_fields_from_create_table_ddl TableSchema_new
              (line_of "CREATE TABLE roads(id integer, cost double precision);"))).
  - reflexivity.
  - reflexivity.
Defined.

(** ** Integer columns *)

(** X14. In a column declared [integer] or [bigint], a field that is
    not the null token and holds a character other than digits,
    underscores, signs and white space raises [ValueError]. *)
Theorem integer_column_rejects_text (sql_type raw : pystr) (c : ascii) :
  In sql_type [txt "integer"; txt "bigint"] ->
  raw <> txt "null" ->
  In c raw -> no_int_char c = true ->
  FieldType_call (sql_type_lookup sql_type) (Text raw) = Raise ValueError.
Proof.
  intros Htype Hnull Hin Hc.
  assert (E : forall tag,
             FieldType_call (FieldType_new py_int tag) (Text raw)
             = Raise ValueError).
  { intros tag. unfold FieldType_call, is_null_value, FieldType_new.
    cbn [_null_value _type_converter].
    replace (str_eqb raw (txt "null")) with false
      by (symmetry; now apply str_eqb_neq).
    unfold py_int. now rewrite (int_of_str_rejects raw c Hin Hc). }
  cbn [In] in Htype. destruct Htype as [<-|[<-|[]]]; apply E.
Qed.

Lemma integer_column_rejects_text_witness :
  FieldType_call (sql_type_lookup (txt "bigint")) (Text (txt "12.5"))
  = Raise ValueError.
Proof.
  apply (@integer_column_rejects_text (txt "bigint") (txt "12.5") "."%char).
  - cbn. tauto.
  - discriminate.
  - cbn. tauto.
  - reflexivity.
Defined.

(** X15. A format written with a capital letter selects no writer: the
    script lower-cases the format for the name of the output file only,
    and the writers are chosen by the exact lower-case names. *)
Theorem capital_format_writes_nothing
        (Body : Type)
        (load_body : Wkb.geom_type -> bool -> bytes -> bytes -> result Body)
        (wkt_dumps : Wkb.geojson Body -> result pystr)
        (arg_input : pystr) (arg_output : option pystr) (arg_format : pystr)
        (in_fp : list pystr) :
  Py.lower arg_format <> arg_format ->
  main load_body wkt_dumps arg_input arg_output arg_format in_fp
  = (st <- convert_lines load_body wkt_dumps in_fp ([], TableSchema_new) ;;
     Ok []).
Proof.
  intros H. unfold main, convert. cbn [g_output_format].
  destruct (convert_lines load_body wkt_dumps in_fp ([], TableSchema_new))
    as [[records s]|e]; cbn [bind]; [|reflexivity].
  assert (Hne : forall f, Py.lower f = f -> str_eqb arg_format f = false).
  { intros f Hf. apply str_eqb_neq. intros E. apply H. now rewrite E. }
  rewrite !Hne by reflexivity. reflexivity.
Qed.

Lemma capital_format_writes_nothing_witness :
  main no_load_body no_wkt_dumps (txt "roads.sql") None (txt "JSON")
       [line_of "CREATE TABLE roads(id integer);"; line_of "(1);"]
  = Ok [].
Proof.
  rewrite capital_format_writes_nothing.
  - reflexivity.
  - discriminate.
Defined.

(** ** A whole dump *)

Lemma add_fields_of_shape (table : pystr) (cols : list (pystr * pystr))
      (ending : pystr) :
  table_name_ok table = true ->
  cols <> [] ->
  forallb column_ok cols = true ->
  NoDup (map fst cols) ->
  In ending line_endings ->
  add_fields_from_create_table_ddl TableSchema_new
    (create_table_line table cols ending)
  = {| name := Some table;
       _fields := map (fun col => (fst col, sql_type_lookup (snd col))) cols |}.
Proof.
  intros Htable Hne Hok Hnd Hend.
  unfold add_fields_from_create_table_ddl, create_table_line.
  assert (Hk : NoDup (map fst (map (fun col : pystr * pystr =>
                                      (fst col, sql_type_lookup (snd col)))
                                   cols)))
    by (rewrite map_map; cbn [fst]; exact Hnd).
  rewrite search_create_table; try assumption.
  - cbn [Re.group str_eqb txt list_ascii_of_string Ascii.eqb Bool.eqb andb].
    rewrite parse_columns by assumption.
    f_equal. cbn [_fields TableSchema_new].
    rewrite (of_pairs_NoDup str_eqb str_eqb_eq _ Hk).
    apply (of_pairs_NoDup str_eqb str_eqb_eq _ Hk).
  - destruct cols as [|col cols]; [contradiction|].
    cbn [map]. unfold column_text at 1.
    destruct (column_ok_parts col) as (c & cs & _ & _ & Ec & _).
    { cbn [forallb] in Hok. apply andb_true_iff in Hok. tauto. }
    rewrite Ec. destruct (map column_text cols); discriminate.
  - apply forallb_join; [reflexivity|].
    apply Forall_forall. intros p Hp.
    apply in_map_iff in Hp as (c & <- & Hc).
    rewrite forallb_forall in Hok.
    apply column_text_no_newline, Hok, Hc.
Qed.

Lemma dump_row_parts (width : nat) (row : list (nat * literal) * pystr) :
  dump_row_ok width row = true ->
  forallb (fun nl => literal_ok (snd nl)) (fst row) = true
  /\ row_text (fst row) <> []
  /\ no_newline (row_text (fst row)) = true
  /\ In (snd row) line_endings
  /\ length (fst row) = width.
Proof.
  unfold dump_row_ok. intros H.
  apply andb_true_iff in H as [H Hw]. apply andb_true_iff in H as [H He].
  apply andb_true_iff in H as [H Hlf]. apply andb_true_iff in H as [Hok Hne].
  repeat split; try assumption.
  - intros E. rewrite E in Hne. discriminate Hne.
  - apply existsb_exists in He as (e & Hin & He).
    apply str_eqb_eq in He. now subst.
  - now apply Nat.eqb_eq.
Qed.

Section DumpFacts.

Variable Body : Type.
Variable load_body : Wkb.geom_type -> bool -> bytes -> bytes -> result Body.
Variable wkt_dumps : Wkb.geojson Body -> result pystr.

Lemma convert_dump_row (row : list (nat * literal) * pystr)
      (records : list record) (s : TableSchema) :
  dump_row_ok (length (keys s)) row = true ->
  NoDup (keys s) ->
  convert_line load_body wkt_dumps (records, s) (dump_row_line row)
  = (r <- dump_row_record (_fields s) row ;; Ok (records ++ [r], s)).
Proof.
  intros Hrow Hnd.
  destruct (dump_row_parts _ _ Hrow) as (Hok & Hne & Hlf & Hend & Hlen).
  unfold convert_line, dump_row_line, dump_row_record.
  change (Py.startswith (Py.lower (row_line (row_text (fst row)) (snd row)))
                        (txt "create table")) with false.
  change (Py.startswith (Py.lower (row_line (row_text (fst row)) (snd row)))
                        (txt "select addgeometrycolumn")) with false.
  rewrite search_insert by assumption.
  change (Re.group [(txt "values", row_text (fst row))] (txt "values"))
    with (row_text (fst row)).
  erewrite parse_insert_values_exact;
    [reflexivity|exact Hnd|now apply reader_next_row_text| |].
  - destruct (fst row); [exfalso; apply Hne; reflexivity|discriminate].
  - now rewrite length_map.
Qed.

Lemma convert_dump_rows (rows : list (list (nat * literal) * pystr))
      (records : list record) (s : TableSchema) :
  forallb (dump_row_ok (length (keys s))) rows = true ->
  NoDup (keys s) ->
  convert_lines load_body wkt_dumps (map dump_row_line rows) (records, s)
  = (new <- mapM (dump_row_record (_fields s)) rows ;;
     Ok (records ++ new, s)).
Proof.
  revert records. induction rows as [|row rows IH]; intros records Hrows Hnd.
  - cbn. now rewrite app_nil_r.
  - cbn [forallb] in Hrows. apply andb_true_iff in Hrows as [Hrow Hrows].
    cbn [map convert_lines mapM].
    rewrite convert_dump_row by assumption.
    destruct (dump_row_record (_fields s) row) as [r|e]; cbn [bind];
      [|reflexivity].
    rewrite IH by assumption.
    destruct (mapM (dump_row_record (_fields s)) rows); cbn [bind];
      [|reflexivity].
    now rewrite <- app_assoc.
Qed.

Lemma convert_create_table_line (table : pystr) (cols : list (pystr * pystr))
      (ending : pystr) (records : list record) :
  convert_line load_body wkt_dumps (records, TableSchema_new)
               (create_table_line table cols ending)
  = Ok (records,
        add_fields_from_create_table_ddl TableSchema_new
          (create_table_line table cols ending)).
Proof.
  unfold convert_line.
  change (Py.startswith (Py.lower (create_table_line table cols ending))
                        (txt "create table")) with true.
  change (Py.startswith (Py.lower (create_table_line table cols ending))
                        (txt "select addgeometrycolumn")) with false.
  cbv iota. now rewrite search_insert_none.
Qed.

End DumpFacts.

(** X16. A dump made of one table definition of the shape and row
    lines written from literals, each with as many literals as there
    are columns, is read into the schema of the declaration and one
    record per row line, in the order of the lines; the run raises
    when, and only when, a converter refuses a literal. *)
Theorem well_formed_dump_converts
        (Body : Type)
        (load_body : Wkb.geom_type -> bool -> bytes -> bytes -> result Body)
        (wkt_dumps : Wkb.geojson Body -> result pystr)
        (table : pystr) (cols : list (pystr * pystr)) (ending : pystr)
        (rows : list (list (nat * literal) * pystr)) :
  table_name_ok table = true ->
  cols <> [] ->
  forallb column_ok cols = true ->
  NoDup (map fst cols) ->
  In ending line_endings ->
  forallb (dump_row_ok (length cols)) rows = true ->
  let s := {| name := Some table;
              _fields := map (fun col => (fst col, sql_type_lookup (snd col)))
                             cols |} in
  convert_lines load_body wkt_dumps
    (create_table_line table cols ending :: map dump_row_line rows)
    ([], TableSchema_new)
  = (records <- mapM (dump_row_record (_fields s)) rows ;; Ok (records, s)).
Proof.
  intros Htable Hne Hok Hnd Hend Hrows s.
  cbn [convert_lines]. rewrite convert_create_table_line. cbn [bind].
  rewrite add_fields_of_shape by assumption. fold s.
  assert (Hkeys : keys s = map fst cols)
    by (unfold keys, Dict.keys; subst s; cbn [_fields]; now rewrite map_map).
  rewrite convert_dump_rows.
  - reflexivity.
  - rewrite Hkeys, length_map. exact Hrows.
  - rewrite Hkeys. exact Hnd.
Qed.

Lemma well_formed_dump_converts_witness :
  convert_lines no_load_body no_wkt_dumps
    [line_of "CREATE TABLE roads(id integer, name character varying);";
     line_of "(1, 'Main St'),"; line_of "(2, null);"]
    ([], TableSchema_new)
  = Ok ([[(Some (txt "id"), PInt 1); (Some (txt "name"), PStr (txt "Main St"))];
         [(Some (txt "id"), PInt 2); (Some (txt "name"), PNone)]],
        {| name := Some (txt "roads");
           _fields := [(txt "id", sql_type_lookup (txt "integer"));
                       (txt "name", sql_type_lookup (txt "character varying"))] |}).
Proof.
  apply (@well_formed_dump_converts unit no_load_body no_wkt_dumps
           (txt "roads")
           [(txt "id", txt "integer"); (txt "name", txt "character varying")]
           (txt ";" ++ [LF])
           [([(0, Bare (txt "1")); (1, Quoted (txt "Main St"))],
             txt "," ++ [LF]);
            ([(0, Bare (txt "2")); (1, Bare (txt "null"))],
             txt ";" ++ [LF])]).
  - reflexivity.
  - discriminate.
  - reflexivity.
  - repeat constructor; cbn; intuition discriminate.
  - cbn. tauto.
  - reflexivity.
Defined.

(** ** SQL string literals *)

Lemma escaped_body (s : pystr) (fs : list pystr) (f : pystr) :
  (Z.of_nat (length f + length s) <= Csv.field_limit)%Z ->
  Csv.parse_line sql
    (flat_map (fun c => if Ascii.eqb c QUOTE then [QUOTE; QUOTE] else [c]) s)
    (mk fs f Csv.IN_QUOTED_FIELD)
  = Ok (mk fs (rev s ++ f) Csv.IN_QUOTED_FIELD).
Proof.
  revert f. induction s as [|c s IH]; intros f Hlen; [reflexivity|].
  change (flat_map ?f (c :: s)) with (f c ++ flat_map f s).
  cbv beta. rewrite parse_line_app.
  destruct (Ascii.eqb_spec c QUOTE) as [->|Hc].
  - cbn [Csv.parse_line].
    change (Csv.parse_process_char sql (mk fs f Csv.IN_QUOTED_FIELD) (Some QUOTE))
      with (Ok (mk fs f Csv.QUOTE_IN_QUOTED_FIELD)).
    cbn [bind]. unfold Csv.parse_process_char at 1.
    cbn [mk Csv.state Csv.quotechar sql]. rewrite Ascii.eqb_refl.
    fold (mk fs f Csv.QUOTE_IN_QUOTED_FIELD).
    rewrite add_char_ok by (cbn [length] in Hlen; lia).
    cbn [bind].
    change (Csv.set_state Csv.IN_QUOTED_FIELD
              (mk fs (QUOTE :: f) Csv.QUOTE_IN_QUOTED_FIELD))
      with (mk fs (QUOTE :: f) Csv.IN_QUOTED_FIELD).
    rewrite IH by (cbn [length] in *; lia).
    cbn [rev]. now rewrite <- app_assoc.
  - cbn [Csv.parse_line]. unfold Csv.parse_process_char at 1.
    cbn [mk Csv.state Csv.quotechar sql].
    replace (Ascii.eqb c QUOTE) with false
      by (symmetry; now apply Ascii.eqb_neq).
    fold (mk fs f Csv.IN_QUOTED_FIELD).
    rewrite add_char_ok by (cbn [length] in Hlen; lia).
    cbn [bind]. rewrite IH by (cbn [length] in *; lia).
    cbn [rev]. now rewrite <- app_assoc.
Qed.

Lemma cell_then_comma (n : nat) (s : pystr) (fs : list pystr) :
  within_limit s = true ->
  Csv.parse_line sql (repeat SP n ++ sql_quote s ++ [COMMA])
                 (mk fs [] Csv.START_FIELD)
  = Ok (mk (fs ++ [s]) [] Csv.START_FIELD).
Proof.
  intros Hlen. unfold within_limit in Hlen. apply Z.leb_le in Hlen.
  rewrite parse_line_app, leading_blanks. cbn [bind]. unfold sql_quote.
  cbn [app Csv.parse_line].
  change (Csv.parse_process_char sql (mk fs [] Csv.START_FIELD) (Some QUOTE))
    with (Ok (mk fs [] Csv.IN_QUOTED_FIELD)).
  cbn [bind]. rewrite <- app_assoc, parse_line_app, escaped_body by exact Hlen.
  cbn [bind]. rewrite app_nil_r.
  change (Csv.parse_line sql ([QUOTE] ++ [COMMA])
            (mk fs (rev s) Csv.IN_QUOTED_FIELD))
    with (Ok (mk (fs ++ [rev (rev s)]) [] Csv.START_FIELD)).
  now rewrite rev_involutive.
Qed.

Lemma cell_then_end (n : nat) (s : pystr) (fs : list pystr) :
  within_limit s = true ->
  (r <- Csv.parse_line sql (repeat SP n ++ sql_quote s)
                       (mk fs [] Csv.START_FIELD) ;;
   Csv.parse_process_char sql r None)
  = Ok (mk (fs ++ [s]) [] Csv.START_RECORD).
Proof.
  intros Hlen. unfold within_limit in Hlen. apply Z.leb_le in Hlen.
  rewrite parse_line_app, leading_blanks. cbn [bind]. unfold sql_quote.
  cbn [app Csv.parse_line].
  change (Csv.parse_process_char sql (mk fs [] Csv.START_FIELD) (Some QUOTE))
    with (Ok (mk fs [] Csv.IN_QUOTED_FIELD)).
  cbn [bind]. rewrite parse_line_app, escaped_body by exact Hlen.
  cbn [bind]. rewrite app_nil_r.
  change (Csv.parse_line sql [QUOTE] (mk fs (rev s) Csv.IN_QUOTED_FIELD))
    with (Ok (mk fs (rev s) Csv.QUOTE_IN_QUOTED_FIELD)).
  cbn [bind].
  change (Csv.parse_process_char sql
            (mk fs (rev s) Csv.QUOTE_IN_QUOTED_FIELD) None)
    with (Ok (mk (fs ++ [rev (rev s)]) [] Csv.START_RECORD)).
  now rewrite rev_involutive.
Qed.

Lemma quoted_row_text_cons (x y : nat * pystr) (cells : list (nat * pystr)) :
  quoted_row_text (x :: y :: cells)
  = (repeat SP (fst x) ++ sql_quote (snd x) ++ [COMMA])
    ++ quoted_row_text (y :: cells).
Proof.
  unfold quoted_row_text. cbn [map]. rewrite join_cons.
  now rewrite <- !app_assoc.
Qed.

Lemma quoted_row_fields (cells : list (nat * pystr)) (fs : list pystr) :
  cells <> [] ->
  forallb (fun ns => within_limit (snd ns)) cells = true ->
  (r <- Csv.parse_line sql (quoted_row_text cells) (mk fs [] Csv.START_FIELD) ;;
   Csv.parse_process_char sql r None)
  = Ok (mk (fs ++ map snd cells) [] Csv.START_RECORD).
Proof.
  revert fs. induction cells as [|x cells IH]; intros fs Hne Hok;
    [contradiction|].
  cbn [forallb] in Hok. apply andb_true_iff in Hok as [Hx Hok].
  destruct cells as [|y cells].
  - unfold quoted_row_text. cbn [map Py.join]. now apply cell_then_end.
  - rewrite quoted_row_text_cons, parse_line_app, cell_then_comma by assumption.
    cbn [bind]. rewrite IH by (discriminate || assumption).
    cbn [map]. now rewrite <- app_assoc.
Qed.

Lemma quoted_row_text_head (cells : list (nat * pystr)) :
  cells <> [] ->
  exists c t, quoted_row_text cells = c :: t /\ Csv.is_newline c = false.
Proof.
  destruct cells as [|[n s] cells]; [contradiction|]. intros _.
  assert (H : exists c t, repeat SP n ++ sql_quote s = c :: t
                          /\ Csv.is_newline c = false).
  { destruct n; cbn; eexists _, _; split; reflexivity. }
  destruct H as (c & t & E & Hc).
  destruct cells as [|y cells].
  - unfold quoted_row_text. cbn [map Py.join fst snd]. eauto.
  - rewrite quoted_row_text_cons. cbn [fst snd].
    rewrite <- !app_assoc, app_assoc, E. cbn [app]. eauto.
Qed.

Lemma reader_next_quoted_row (cells : list (nat * pystr)) :
  cells <> [] ->
  forallb (fun ns => within_limit (snd ns)) cells = true ->
  Csv.reader_next sql [quoted_row_text cells] = Ok (map snd cells, []).
Proof.
  intros Hne Hok.
  pose proof (@quoted_row_fields cells [] Hne Hok) as H.
  destruct (@quoted_row_text_head cells Hne) as (c & t & E & Hc).
  unfold Csv.reader_next, Csv.read_lines.
  assert (E' : Csv.parse_line sql (quoted_row_text cells) Csv.parse_reset
               = Csv.parse_line sql (quoted_row_text cells)
                                (mk [] [] Csv.START_FIELD)).
  { rewrite E. cbn [Csv.parse_line].
    change Csv.parse_reset with (mk [] [] Csv.START_RECORD).
    now rewrite start_record_char. }
  rewrite E'.
  destruct (Csv.parse_line sql (quoted_row_text cells) (mk [] [] Csv.START_FIELD))
    as [r|e]; cbn [bind] in H |- *; [|discriminate H].
  rewrite H. reflexivity.
Qed.

(** X17. Texts written as SQL string literals (between single quotes,
    each quote of the text doubled) and separated by commas and blanks
    are read back as they were: one field per literal, with the commas,
    quotes and blanks of the text kept.  The row parser converts exactly
    these texts. *)
Theorem sql_quoting_round_trip (cells : list (nat * pystr)) :
  cells <> [] ->
  forallb (fun ns => within_limit (snd ns)) cells = true ->
  Csv.reader_next sql [quoted_row_text cells] = Ok (map snd cells, [])
  /\ forall s,
       NoDup (keys s) ->
       length cells = length (keys s) ->
       parse_insert_values (quoted_row_text cells) s
       = mapM (fun p => field_value (fst p) (snd p))
              (combine (_fields s) (map snd cells)).
Proof.
  intros Hne Hok.
  pose proof (@reader_next_quoted_row cells Hne Hok) as Hrow.
  split; [exact Hrow|].
  intros s Hnd Hlen.
  eapply parse_insert_values_exact; [exact Hnd|exact Hrow| |].
  - destruct cells; [contradiction|discriminate].
  - now rewrite length_map.
Qed.

Lemma sql_quoting_round_trip_witness :
  Csv.reader_next sql [txt "'O''Brien''s Rd',  'east, west'"]
  = Ok ([txt "O'Brien's Rd"; txt "east, west"], []).
Proof.
  apply (@sql_quoting_round_trip
           [(0, txt "O'Brien's Rd"); (2, txt "east, west")]).
  - discriminate.
  - reflexivity.
Defined.

(** ** Case of the hex digits *)

Lemma hex_value_lower (c : ascii) :
  hex_value (Py.lower_char c) = hex_value c.
Proof. destruct c as [[] [] [] [] [] [] [] []]; reflexivity. Qed.

Lemma isspace_ascii_lower (c : ascii) :
  Py.isspace_ascii (Py.lower_char c) = Py.isspace_ascii c.
Proof. destruct c as [[] [] [] [] [] [] [] []]; reflexivity. Qed.

Lemma fromhex_pair (c x : ascii) (s : pystr) :
  fromhex (c :: x :: s)
  = if Py.isspace_ascii c then fromhex (x :: s)
    else match hex_value c with
         | Some hi =>
             match hex_value x with
             | Some lo => bs <- fromhex s ;; Ok (byte_of_hex hi lo :: bs)
             | None => Raise ValueError
             end
         | None => Raise ValueError
         end.
Proof.
  change (fromhex (c :: x :: s))
    with (if Py.isspace_ascii c then fromhex (x :: s)
          else match hex_value c, x :: s with
               | Some hi, c2 :: s'' =>
                   match hex_value c2 with
                   | Some lo =>
                       bs <- fromhex s'' ;; Ok (byte_of_hex hi lo :: bs)
                   | None => Raise ValueError
                   end
               | _, _ => Raise ValueError
               end).
  now destruct (hex_value c).
Qed.

Lemma fromhex_lower (s : pystr) :
  fromhex (Py.lower s) = fromhex s
  /\ forall c, fromhex (Py.lower (c :: s)) = fromhex (c :: s).
Proof.
  induction s as [|x s [IH1 IH2]].
  - split; [reflexivity|]. intros c. cbn [Py.lower map fromhex].
    rewrite isspace_ascii_lower, hex_value_lower. reflexivity.
  - split; [apply IH2|]. intros c.
    change (Py.lower (c :: x :: s))
      with (Py.lower_char c :: Py.lower_char x :: Py.lower s).
    rewrite !fromhex_pair.
    rewrite isspace_ascii_lower, !hex_value_lower.
    change (Py.lower_char x :: Py.lower s) with (Py.lower (x :: s)).
    rewrite IH1, IH2. reflexivity.
Qed.

(** X18. The geometry converter reads hex digits in either case: a
    value and its lower-cased form give the same result, text or
    exception. *)
Theorem hex_case_is_irrelevant
        (Body : Type)
        (load_body : Wkb.geom_type -> bool -> bytes -> bytes -> result Body)
        (wkt_dumps : Wkb.geojson Body -> result pystr)
        (strip_srid : bool) (s : pystr) :
  convert_wkb_to_wkt load_body wkt_dumps strip_srid (Text (Py.lower s))
  = convert_wkb_to_wkt load_body wkt_dumps strip_srid (Text s)
  /\ fromhex (Py.lower s) = fromhex s.
Proof.
  destruct (fromhex_lower s) as [E _]. split; [|exact E].
  unfold convert_wkb_to_wkt. now rewrite E.
Qed.
